(** * Pairs-trading backtester: Position, spread-pair accounting and the
      day-by-day decision engine of [quantitative_trading/backtester.py].

    Conventions of the embedding.
    - Python exceptions are values of [exn]; a function that may raise returns
      [result A].
    - A float is a [num]: an exact rational, or one of the special values
      [NaN], [PInf], [NInf] that the control flow of the program can observe
      (the cleared fields of a closed Position are [np.nan]; numpy scalar
      division by zero yields an infinity or a nan).  Sums, products and
      comparisons are exact: their binary64 rounding and overflow are not
      modelled, so the values of a P&L are those of exact arithmetic.
    - The two Python quotients whose value [round] turns into a number of
      units, [N_t / 100] and [entry_cash / price], are rounded to binary64
      ([fl]): nearest value, ties to even, an infinity from 2^1024 on.  So
      [Position.open] holds the units and raises the OverflowError that the
      code does.  The rows that [iterrows] produces hold Python floats, so
      [/] in [Position.open] raises ZeroDivisionError on a zero price
      ([pdiv]).
    - [np.abs] returns a numpy scalar and the lookback row that [loc]
      returns holds numpy scalars, so the divisions in [get_pnls] and in
      [get_mday_returns] yield an infinity or a nan on a zero divisor
      ([ndiv]).
    - A date is the triple behind a zero-padded ['YYYY-MM-DD'] string; the
      string order of such strings is the lexicographic order of the triple.
    - [print] and the [supress_print] flag have no effect on the results and
      are left out. *)

From Stdlib Require Import ZArith QArith Qround Qabs Lqa Lia Bool List String.
From Stdlib Require Import Permutation.
Import ListNotations.
Local Open Scope Z_scope.

(** ** Exceptions and the error monad *)

Inductive exn : Type :=
| AssertionError
| ValueError
| OverflowError
| KeyError
| IndexError
| ZeroDivisionError
| UnboundLocalError.

Inductive result (A : Type) : Type :=
| Ok (a : A)
| Raise (e : exn).
Arguments Ok {A} a.
Arguments Raise {A} e.

Definition bind {A B : Type} (m : result A) (k : A -> result B) : result B :=
  match m with
  | Ok a => k a
  | Raise e => Raise e
  end.

Notation "x <- m ;; k" := (bind m (fun x => k))
  (at level 61, m at next level, right associativity).
Notation "' p <- m ;; k" := (bind m (fun p => k))
  (at level 61, p pattern, m at next level, right associativity).

(** ** Numbers *)

Inductive num : Type :=
| NaN
| PInf
| NInf
| Fin (q : Q).

Definition inf_of_sign (negative : bool) : num :=
  if negative then NInf else PInf.

Definition Qneg_b (q : Q) : bool := negb (Qle_bool 0 q).
Definition Qzero_b (q : Q) : bool := Qeq_bool q 0.

Definition nopp (a : num) : num :=
  match a with
  | NaN => NaN
  | PInf => NInf
  | NInf => PInf
  | Fin q => Fin (- q)
  end.

Definition nadd (a b : num) : num :=
  match a, b with
  | NaN, _ | _, NaN => NaN
  | PInf, NInf | NInf, PInf => NaN
  | PInf, _ | _, PInf => PInf
  | NInf, _ | _, NInf => NInf
  | Fin x, Fin y => Fin (x + y)
  end.

Definition nsub (a b : num) : num := nadd a (nopp b).

(* sign of a non-nan value: [None] for zero *)
Definition nsign (a : num) : option bool :=
  match a with
  | NaN => None
  | PInf => Some false
  | NInf => Some true
  | Fin q => if Qzero_b q then None else Some (Qneg_b q)
  end.

Definition nmul (a b : num) : num :=
  match a, b with
  | NaN, _ | _, NaN => NaN
  | Fin x, Fin y => Fin (x * y)
  | _, _ =>
      match nsign a, nsign b with
      | Some sa, Some sb => inf_of_sign (xorb sa sb)
      | _, _ => NaN                          (* inf * 0 *)
      end
  end.

(* numpy float64 scalar division: x/0 is an infinity, 0/0 is nan *)
Definition ndiv (a b : num) : num :=
  match a, b with
  | NaN, _ | _, NaN => NaN
  | Fin x, Fin y =>
      if Qzero_b y then
        match nsign a with
        | Some sa => inf_of_sign sa
        | None => NaN
        end
      else Fin (x / y)
  | Fin _, _ => Fin 0
  | _, Fin y => match nsign a with
                | Some sa => inf_of_sign (xorb sa (Qneg_b y))
                | None => NaN
                end
  | _, _ => NaN                              (* inf / inf *)
  end.

Definition nabs (a : num) : num :=
  match a with
  | NaN => NaN
  | PInf | NInf => PInf
  | Fin q => Fin (Qabs q)
  end.

(* [a < b]; every comparison with nan is False *)
Definition nltb (a b : num) : bool :=
  match a, b with
  | NaN, _ | _, NaN => false
  | _, NInf => false
  | NInf, _ => true
  | PInf, _ => false
  | _, PInf => true
  | Fin x, Fin y => negb (Qle_bool y x)
  end.

Definition ngtb (a b : num) : bool := nltb b a.

(* truth value of a float: zero is falsy, nan and the infinities are truthy *)
Definition num_truthy (a : num) : bool :=
  match a with
  | Fin q => negb (Qzero_b q)
  | _ => true
  end.

Definition of_Z (z : Z) : num := Fin (inject_Z z).

(** The same value, up to the representation of the fraction. *)
Definition num_eqv (a b : num) : Prop :=
  match a, b with
  | NaN, NaN | PInf, PInf | NInf, NInf => True
  | Fin x, Fin y => x == y
  | _, _ => False
  end.

(** Built-in [round] with one argument: nearest integer, ties to even; it
    raises on nan (ValueError) and on the infinities (OverflowError). *)
Definition round_half_even (q : Q) : Z :=
  let f := Qfloor q in
  let r := (q - inject_Z f)%Q in
  match (r ?= 1 # 2)%Q with
  | Lt => f
  | Gt => f + 1
  | Eq => if Z.even f then f else f + 1
  end.

Definition py_round (a : num) : result Z :=
  match a with
  | NaN => Raise ValueError
  | PInf | NInf => Raise OverflowError
  | Fin q => Ok (round_half_even q)
  end.

(** The binary64 value nearest to a rational, ties to even: 53 significant
    bits, the last place no finer than 2^-1074, an infinity when the rounded
    magnitude reaches 2^1024. *)
Definition pow2 (z : Z) : Q := Qpower 2 z.

Definition binary64_of_Q (q : Q) : num :=
  if Qzero_b q then Fin 0
  else
    let a := Qabs q in
    (* 2^e <= a < 2^(e+1) *)
    let e0 := Z.log2 (Qnum a) - Z.log2 (Zpos (Qden a)) in
    let e := if Qle_bool (pow2 e0) a then e0 else e0 - 1 in
    let ulp := pow2 (Z.max (e - 52) (-1074)) in
    let m := round_half_even (a / ulp) in
    let v := (inject_Z m * ulp)%Q in
    if Qle_bool (pow2 1024) v then inf_of_sign (Qneg_b q)
    else Fin (if Qneg_b q then - v else v).

Definition fl (a : num) : num :=
  match a with
  | Fin q => binary64_of_Q q
  | _ => a
  end.

(* Python float division: a zero divisor raises, the quotient is a float *)
Definition pdiv (a b : num) : result num :=
  match b with
  | Fin y => if Qzero_b y then Raise ZeroDivisionError else Ok (fl (ndiv a b))
  | _ => Ok (fl (ndiv a b))
  end.

(** ** Dates *)

Record isodate : Type := mkdate { year : Z; month : Z; day : Z }.

Definition date_eqb (a b : isodate) : bool :=
  (year a =? year b) && (month a =? month b) && (day a =? day b).

(* the order of the strings ['YYYY-MM-DD'] *)
Definition date_ltb (a b : isodate) : bool :=
  (year a <? year b)
  || ((year a =? year b)
      && ((month a <? month b)
          || ((month a =? month b) && (day a <? day b)))).

Definition is_leap (y : Z) : bool :=
  (y mod 4 =? 0) && (negb (y mod 100 =? 0) || (y mod 400 =? 0)).

(* calendar.monthrange(y, m)[1] *)
Definition days_in_month (y m : Z) : Z :=
  if m =? 2 then (if is_leap y then 29 else 28)
  else if (m =? 4) || (m =? 6) || (m =? 9) || (m =? 11) then 30
  else 31.

Definition valid_date (d : isodate) : bool :=
  (1 <=? year d) && (year d <=? 9999)
  && (1 <=? month d) && (month d <=? 12)
  && (1 <=? day d) && (day d <=? days_in_month (year d) (month d)).

(* datetime.strptime(date, '%Y-%m-%d'): ValueError unless it is a date *)
Definition strptime (d : isodate) : result isodate :=
  if valid_date d then Ok d else Raise ValueError.

(* dt + relativedelta(months=1): next month, the day clipped to its length *)
Definition add_relativedelta_month (d : isodate) : result isodate :=
  let m := month d + 1 in
  let y := if 12 <? m then year d + 1 else year d in
  let m := if 12 <? m then m - 12 else m in
  let dd := Z.min (days_in_month y m) (day d) in
  if 9999 <? y then Raise ValueError else Ok (mkdate y m dd).

(* (strptime(date) + delta(months=1)).strftime('%Y-%m-%d') *)
Definition one_month_later (d : isodate) : result isodate :=
  dt <- strptime d ;;
  add_relativedelta_month dt.

Definition trade_period_start : isodate := mkdate 2022 1 1.

(** ** Position *)

Local Open Scope string_scope.

Module Position.

Record t : Type := mk {
  type : Z;                 (* 1 for long, -1 for short *)
  name : string;            (* the empty string when closed *)
  date : option isodate;    (* [None] stands for the empty string *)
  entry_cash : num;
  price : num;
  amount : num
}.

Definition init (ptype : string) : result t :=
  if negb ((ptype =? "long") || (ptype =? "short")) then Raise ValueError
  else
    let ty := if ptype =? "short" then -1 else 1 in
    Ok (mk ty EmptyString None NaN NaN NaN).

Definition is_open (self : t) : bool :=
  negb (name self =? EmptyString).

Definition open (self : t) (nm : string) (dt : isodate)
    (cash pr : num) : result t :=
  if is_open self then Raise AssertionError
  else if negb ((nm =? "kxi") || (nm =? "xlp")) then Raise ValueError
  else
    q <- pdiv cash pr ;;
    amt <- py_round q ;;
    Ok (mk (type self) nm (Some dt) cash pr (of_Z amt)).

Definition get_pnl (self : t) (pr : num) : result num :=
  let initial_val := nmul (of_Z (type self)) (entry_cash self) in
  let new_mtm := nmul (nmul (of_Z (type self)) (amount self)) pr in
  let pnl := nsub new_mtm initial_val in
  Ok pnl.

Definition cleared (self : t) : t :=
  mk (type self) EmptyString None NaN NaN NaN.

(* returns the realized pnl and the position after the call *)
Definition close (self : t) (pr : num) : result (num * t) :=
  if negb (is_open self) then Raise AssertionError
  else
    pnl <- get_pnl self pr ;;
    Ok (pnl, cleared self).

End Position.

(** ** Spread-pair accounting *)

Definition find_short_long (short_pos long_pos : Position.t)
    (kxi_price xlp_price : num) : num * num :=
  let short_name := Position.name short_pos in
  if short_name =? "kxi" then (kxi_price, xlp_price)
  else (xlp_price, kxi_price).

(* [s] is [None] for Python's None.  The first component is the flag the
   function returns: False when the stop loss is hit, True otherwise. *)
Definition get_pnls (short_pos long_pos : Position.t)
    (kxi_price xlp_price zeta : num) (s : option num) : result (bool * num) :=
  if negb (Position.is_open short_pos) || negb (Position.is_open long_pos)
  then Raise AssertionError
  else
    let prices := find_short_long short_pos long_pos kxi_price xlp_price in
    let short_price := fst prices in
    let long_price := snd prices in
    pnl_short <- Position.get_pnl short_pos short_price ;;
    pnl_long <- Position.get_pnl long_pos long_price ;;
    let pnl := nmul (nadd pnl_short pnl_long) (nsub (of_Z 1) zeta) in
    let gross_cash := nmul (Position.entry_cash short_pos) (of_Z 2) in
    match s with
    | Some sv =>
        if nltb pnl (of_Z 0) && num_truthy sv then
          if ngtb (ndiv (nabs pnl) gross_cash) sv then Ok (false, of_Z 0)
          else Ok (true, pnl)
        else Ok (true, pnl)
    | None => Ok (true, pnl)
    end.

(* how the caller reads the flag: [if not pnl_res[0]] is the stop loss *)
Definition stop_loss_hit (pnl_res : bool * num) : bool := negb (fst pnl_res).

(** ** Trade ledger *)

Module TradeLog.

Record row : Type := mk {
  date : isodate;
  position_status : string;
  position_type : string;
  gross_cash : num;
  pnl : num;
  kxi_price : num;
  kxi_amount : num;
  xlp_price : num;
  xlp_amount : num;
  Reason : option string
}.

End TradeLog.

Definition trade_log_t : Type := list TradeLog.row.

(* trade_log.loc[len(trade_log)] = row *)
Definition log_append (trade_log : trade_log_t) (r : TradeLog.row)
  : trade_log_t := (trade_log ++ [r])%list.

Definition default_reason : string := "Standard".

(* returns the ledger and the two positions after the call *)
Definition close_positions (trade_log : trade_log_t) (date : isodate)
    (short_pos long_pos : Position.t) (kxi_price xlp_price zeta : num)
    (reason : string) : result (trade_log_t * Position.t * Position.t) :=
  let short_name := Position.name short_pos in
  let '(position_type, kxi_amt, xlp_amt, short_price, long_price) :=
    if short_name =? "kxi"
    then ("short", Position.amount short_pos, Position.amount long_pos,
          kxi_price, xlp_price)
    else ("long", Position.amount long_pos, Position.amount short_pos,
          xlp_price, kxi_price) in
  let gross_cash := nmul (Position.entry_cash short_pos) (of_Z 2) in
  pnl_ret <- get_pnls short_pos long_pos kxi_price xlp_price zeta None ;;
  let pnl := snd pnl_ret in
  let r := TradeLog.mk date "CLOSE" position_type gross_cash pnl
             kxi_price kxi_amt xlp_price xlp_amt (Some reason) in
  let trade_log := log_append trade_log r in
  '(_, short_pos) <- Position.close short_pos short_price ;;
  '(_, long_pos) <- Position.close long_pos long_price ;;
  Ok (trade_log, short_pos, long_pos).

Definition open_positions (trade_log : trade_log_t)
    (short_pos long_pos : Position.t) (kxi_price xlp_price : num)
    (date : isodate) (entry_cash : num) (position_type : string)
  : result (trade_log_t * Position.t * Position.t) :=
  if negb ((position_type =? "short") || (position_type =? "long"))
  then Raise ValueError
  else
    '(short_pos, long_pos, kxi_amt, xlp_amt) <-
      (if position_type =? "long" then
         long_pos <- Position.open long_pos "kxi" date entry_cash kxi_price ;;
         short_pos <- Position.open short_pos "xlp" date entry_cash xlp_price ;;
         Ok (short_pos, long_pos,
             Position.amount long_pos, Position.amount short_pos)
       else
         long_pos <- Position.open long_pos "xlp" date entry_cash xlp_price ;;
         short_pos <- Position.open short_pos "kxi" date entry_cash kxi_price ;;
         Ok (short_pos, long_pos,
             Position.amount short_pos, Position.amount long_pos)) ;;
    let r := TradeLog.mk date "OPEN" position_type
               (nmul entry_cash (of_Z 2)) NaN
               kxi_price kxi_amt xlp_price xlp_amt None in
    Ok (log_append trade_log r, short_pos, long_pos).

(** ** Signal computation *)

Module Series.

Record row : Type := mk {
  date : isodate;
  KXI_adj_close : num;
  XLP_adj_close : num;
  N_t : num
}.

End Series.

Definition dataframe : Type := list Series.row.

Fixpoint insert_by_date (r : Series.row) (df : dataframe) : dataframe :=
  match df with
  | [] => [r]
  | r' :: rest =>
      if date_ltb (Series.date r) (Series.date r') then r :: df
      else r' :: insert_by_date r rest
  end.

(* df.sort_values('date').reset_index(drop=True); rows of equal date keep
   their order *)
Definition sort_values_date (df : dataframe) : dataframe :=
  fold_left (fun acc r => insert_by_date r acc) df [].

(* df[df.date == date].index.values[0] *)
Fixpoint first_index_of_date (df : dataframe) (d : isodate) : result Z :=
  match df with
  | [] => Raise IndexError
  | r :: rest =>
      if date_eqb (Series.date r) d then Ok 0
      else i <- first_index_of_date rest d ;; Ok (i + 1)
  end.

(* df.loc[k] on the index 0 .. len(df)-1: a label outside it is a KeyError *)
Definition loc (df : dataframe) (k : Z) : result Series.row :=
  if (k <? 0)%Z then Raise KeyError
  else match nth_error df (Z.to_nat k) with
       | Some r => Ok r
       | None => Raise KeyError
       end.

Definition get_mday_returns (df : dataframe) (row : Series.row) (m : Z)
  : result (num * num) :=
  let date := Series.date row in
  let kxi := Series.KXI_adj_close row in
  let xlp := Series.XLP_adj_close row in
  let df := sort_values_date df in
  i <- first_index_of_date df date ;;
  subdf <- loc df (i - m) ;;
  let old_kxi := Series.KXI_adj_close subdf in
  let old_xlp := Series.XLP_adj_close subdf in
  let kxi_ret := nsub (ndiv kxi old_kxi) (of_Z 1) in
  let xlp_ret := nsub (ndiv xlp old_xlp) (of_Z 1) in
  Ok (kxi_ret, xlp_ret).

(** ** The simulation loop *)

(* The local variables of [simulate] that live across iterations.
   [stop_loss_date] is [None] for the empty string; [date], [kxi] and [xlp]
   are [None] until their first assignment. *)
Record sim_state : Type := mkstate {
  trade_log : trade_log_t;
  stop_loss_date : option isodate;
  long_pos : Position.t;
  short_pos : Position.t;
  date : option isodate;
  kxi : option num;
  xlp : option num
}.

Definition with_pair (st : sim_state)
    (p : trade_log_t * Position.t * Position.t) : sim_state :=
  let '(tl, sp, lp) := p in
  mkstate tl (stop_loss_date st) lp sp (date st) (kxi st) (xlp st).

Definition with_stop_loss_date (st : sim_state) (d : option isodate)
  : sim_state :=
  mkstate (trade_log st) d (long_pos st) (short_pos st)
          (date st) (kxi st) (xlp st).

Definition with_date (st : sim_state) (d : isodate) : sim_state :=
  mkstate (trade_log st) (stop_loss_date st) (long_pos st) (short_pos st)
          (Some d) (kxi st) (xlp st).

Definition with_prices (st : sim_state) (k x : num) : sim_state :=
  mkstate (trade_log st) (stop_loss_date st) (long_pos st) (short_pos st)
          (date st) (Some k) (Some x).

Definition both_closed (st : sim_state) : bool :=
  negb (Position.is_open (long_pos st))
  && negb (Position.is_open (short_pos st)).

Definition both_open (st : sim_state) : bool :=
  Position.is_open (long_pos st) && Position.is_open (short_pos st).

Section Simulate.

Variable trading_df : dataframe.
Variables g j : num.
Variable s : option num.
Variable M : Z.
Variable zeta : num.

Definition do_close (st : sim_state) (d : isodate) (k x : num)
    (reason : string) : result sim_state :=
  p <- close_positions (trade_log st) d (short_pos st) (long_pos st)
         k x zeta reason ;;
  Ok (with_pair st p).

Definition do_open (st : sim_state) (d : isodate) (k x trade_cash : num)
    (position_type : string) : result sim_state :=
  p <- open_positions (trade_log st) (short_pos st) (long_pos st)
         k x d trade_cash position_type ;;
  Ok (with_pair st p).

(* lines 375-434: the entry / exit decision of one day *)
Definition signal_step (st : sim_state) (row : Series.row) (d : isodate)
    (k x trade_cash : num) : result sim_state :=
  rets <- get_mday_returns trading_df row M ;;
  let z := nsub (fst rets) (snd rets) in
  if ngtb (nabs z) g then
    if ngtb z g then
      if both_closed st then do_open st d k x trade_cash "short"
      else
        let pos_type :=
          if Position.name (short_pos st) =? "kxi" then "short"
          else "long" in
        if pos_type =? "short" then Ok st
        else
          st <- do_close st d k x default_reason ;;
          do_open st d k x trade_cash "short"
    else if nltb z (nopp g) then
      if both_closed st then do_open st d k x trade_cash "long"
      else
        let pos_type :=
          if Position.name (long_pos st) =? "kxi" then "long"
          else "short" in
        if pos_type =? "long" then Ok st
        else
          st <- do_close st d k x default_reason ;;
          do_open st d k x trade_cash "long"
    else Ok st
  else if nltb (nabs z) j && both_open st then
    do_close st d k x default_reason
  else Ok st.

(* lines 350-434: a day that passed the warm-up and cool-down filters *)
Definition evaluate_day (st : sim_state) (row : Series.row) (d : isodate)
  : result sim_state :=
  let k := Series.KXI_adj_close row in
  let x := Series.XLP_adj_close row in
  let n_t := Series.N_t row in
  let trade_cash := fl (ndiv n_t (of_Z 100)) in
  let st := with_prices st k x in
  if both_open st then
    pnl_res <- get_pnls (short_pos st) (long_pos st) k x zeta s ;;
    if negb (fst pnl_res) then
      sld <- one_month_later d ;;
      let st := with_stop_loss_date st (Some sld) in
      do_close st d k x "STOP LOSS"
    else signal_step st row d k x trade_cash
  else signal_step st row d k x trade_cash.

(* the body of the [for] loop; an early [Ok] is a [continue] *)
Definition day_step (st : sim_state) (row : Series.row)
  : result sim_state :=
  let d := Series.date row in
  let st := with_date st d in
  if date_ltb d trade_period_start then Ok st
  else
    match stop_loss_date st with
    | Some sld =>
        if date_eqb d sld
        then evaluate_day (with_stop_loss_date st None) row d
        else Ok st
    | None => evaluate_day st row d
    end.

Fixpoint run_days (st : sim_state) (rows : dataframe) : result sim_state :=
  match rows with
  | [] => Ok st
  | row :: rest => st' <- day_step st row ;; run_days st' rest
  end.

Definition initial_state : result sim_state :=
  lp <- Position.init "long" ;;
  sp <- Position.init "short" ;;
  Ok (mkstate [] None lp sp None None None).

(* lines 437-441: close what is still open after the loop *)
Definition end_of_series (st : sim_state) : result sim_state :=
  if Position.is_open (short_pos st) || Position.is_open (long_pos st) then
    match date st, kxi st, xlp st with
    | Some d, Some k, Some x => do_close st d k x default_reason
    | _, _, _ => Raise UnboundLocalError
    end
  else Ok st.

Definition simulate_state : result sim_state :=
  st0 <- initial_state ;;
  st <- run_days st0 trading_df ;;
  end_of_series st.

Definition simulate : result trade_log_t :=
  st <- simulate_state ;;
  Ok (trade_log st).

End Simulate.

(** ** Notions used to state the properties *)

(* the current price of the instrument called [nm] *)
Definition instrument_price (nm : string) (kxi_price xlp_price : num) : num :=
  if nm =? "kxi" then kxi_price else xlp_price.

(* the two legs hold the two instruments, one each *)
Definition is_spread_pair (short_pos long_pos : Position.t) : bool :=
  ((Position.name short_pos =? "kxi") && (Position.name long_pos =? "xlp"))
  || ((Position.name short_pos =? "xlp") && (Position.name long_pos =? "kxi")).

(* the stop-loss rule: a loss, a threshold that is set and not zero, and a
   loss ratio above it *)
Definition stop_loss_condition (total gross_cash : num) (s : option num)
  : bool :=
  nltb total (of_Z 0)
  && match s with
     | Some sv => num_truthy sv && ngtb (ndiv (nabs total) gross_cash) sv
     | None => false
     end.

(* the same rule with "set" read as "not None" *)
Definition stop_loss_condition_non_null (total gross_cash : num)
    (s : option num) : bool :=
  nltb total (of_Z 0)
  && match s with
     | Some sv => ngtb (ndiv (nabs total) gross_cash) sv
     | None => false
     end.

(* both legs closed, or both open on the two instruments *)
Definition pair_inv (st : sim_state) : Prop :=
  (Position.is_open (long_pos st) = false
   /\ Position.is_open (short_pos st) = false)
  \/ (Position.is_open (long_pos st) = true
      /\ Position.is_open (short_pos st) = true
      /\ is_spread_pair (short_pos st) (long_pos st) = true).

(* what holds of the local variables between two iterations of the loop *)
Definition loop_inv (st : sim_state) : Prop :=
  pair_inv st
  /\ (both_closed st = false ->
      stop_loss_date st = None
      /\ (exists k, kxi st = Some k) /\ (exists x, xlp st = Some x)).

(* the part of the state that [do_open] and [do_close] leave alone *)
Definition same_locals (st st' : sim_state) : Prop :=
  stop_loss_date st' = stop_loss_date st /\
  date st' = date st /\ kxi st' = kxi st /\ xlp st' = xlp st.

(* the instrument each leg of a spread holds: the long spread is long kxi and
   short xlp, the short spread the other way round *)
Definition long_leg_name (position_type : string) : string :=
  if position_type =? "long" then "kxi" else "xlp".
Definition short_leg_name (position_type : string) : string :=
  if position_type =? "long" then "xlp" else "kxi".

(* the spread direction of an open pair, as the ledger names it *)
Definition current_direction (st : sim_state) : string :=
  if Position.name (short_pos st) =? "kxi" then "short" else "long".

(* the direction the signal asks for once |z| > g *)
Definition desired_direction (g z : num) : string :=
  if ngtb z g then "short" else "long".

Definition fresh_long : Position.t :=
  Position.mk 1 EmptyString None NaN NaN NaN.
Definition fresh_short : Position.t :=
  Position.mk (-1) EmptyString None NaN NaN NaN.

(* a pair opened with 100 per leg at price 10 for both instruments *)
Definition ex_day : isodate := mkdate 2022 1 3.
Definition ex_short : Position.t :=
  Position.mk (-1) "kxi" (Some ex_day) (Fin 100) (Fin 10) (of_Z 10).
Definition ex_long : Position.t :=
  Position.mk 1 "xlp" (Some ex_day) (Fin 100) (Fin 10) (of_Z 10).

(* a short series: two instruments at 10, then kxi moves *)
Definition ex_df : dataframe :=
  [ Series.mk (mkdate 2021 12 30) (Fin 10) (Fin 10) (Fin 10000);
    Series.mk (mkdate 2022 1 3) (Fin 10) (Fin 10) (Fin 10000);
    Series.mk (mkdate 2022 1 4) (Fin 12) (Fin 10) (Fin 10000);
    Series.mk (mkdate 2022 1 5) (Fin 9) (Fin 10) (Fin 10000);
    Series.mk (mkdate 2022 1 6) (Fin 9) (Fin 10) (Fin 10000) ].
Definition ex_g : num := Fin (5 # 100).
Definition ex_j : num := Fin (1 # 100).
Definition ex_s : option num := Some (Fin (1 # 10)).
Definition ex_state0 : sim_state :=
  mkstate [] None fresh_long fresh_short None None None.

(* an open pair short kxi / long xlp on the last day of January, and a day
   on which kxi has risen to 15 *)
Definition ex_open_state : sim_state :=
  mkstate [] None ex_long ex_short (Some ex_day) (Some (Fin 10))
          (Some (Fin 10)).
Definition ex_loss_row : Series.row :=
  Series.mk (mkdate 2022 1 31) (Fin 15) (Fin 10) (Fin 10000).

(* the day after kxi closed at 12: it is back at 9 *)
Definition ex_flip_row : Series.row :=
  Series.mk (mkdate 2022 1 5) (Fin 9) (Fin 10) (Fin 10000).
Definition ex_flip_rets : num * num := (Fin (-3 # 12), Fin (0 # 10)).

(* a series with a loss large enough for the stop loss, a day inside the
   cool-down and the day one month later *)
Definition ex_df_stop : dataframe :=
  [ Series.mk (mkdate 2021 12 30) (Fin 10) (Fin 10) (Fin 10000);
    Series.mk (mkdate 2022 1 3) (Fin 10) (Fin 10) (Fin 10000);
    Series.mk (mkdate 2022 1 4) (Fin 12) (Fin 10) (Fin 10000);
    Series.mk (mkdate 2022 1 5) (Fin 9) (Fin 10) (Fin 10000);
    Series.mk (mkdate 2022 1 6) (Fin 5) (Fin 10) (Fin 10000);
    Series.mk (mkdate 2022 1 7) (Fin 20) (Fin 10) (Fin 10000);
    Series.mk (mkdate 2022 2 6) (Fin 30) (Fin 10) (Fin 10000) ].

(* the columns of a ledger row that identify the event *)
Definition event (r : TradeLog.row)
  : isodate * string * string * option string :=
  (TradeLog.date r, TradeLog.position_status r, TradeLog.position_type r,
   TradeLog.Reason r).

Definition events (m : result trade_log_t)
  : option (list (isodate * string * string * option string)) :=
  match m with
  | Ok log => Some (map event log)
  | Raise _ => None
  end.

(* kxi rallies twice: the entry signal of the first day is still there on
   the second, when the loss of the short leg passes the threshold *)
Definition ex_df_rally : dataframe :=
  [ Series.mk (mkdate 2021 12 30) (Fin 10) (Fin 10) (Fin 10000);
    Series.mk (mkdate 2022 1 3) (Fin 11) (Fin 10) (Fin 10000);
    Series.mk (mkdate 2022 1 4) (Fin 15) (Fin 10) (Fin 10000) ].
Definition ex_rally_row : Series.row :=
  Series.mk (mkdate 2022 1 4) (Fin 15) (Fin 10) (Fin 10000).

(* every row is dated before all the rows after it *)
Fixpoint dates_increasing (df : dataframe) : bool :=
  match df with
  | [] => true
  | a :: rest =>
      forallb (fun b => date_ltb (Series.date a) (Series.date b)) rest
      && dates_increasing rest
  end.

(* no row is dated before the row in front of it *)
Fixpoint dates_nondecreasing (df : dataframe) : bool :=
  match df with
  | [] => true
  | a :: rest =>
      match rest with
      | [] => true
      | b :: _ => negb (date_ltb (Series.date b) (Series.date a))
      end && dates_nondecreasing rest
  end.

(* Reading a ledger from the start: [cur] is the direction of the pair that
   is open, [None] when there is none.  An OPEN row needs no pair open, a
   CLOSE row needs an open pair of its own direction; any other row makes the
   reading fail. *)
Fixpoint replay (log : trade_log_t) (cur : option string)
  : option (option string) :=
  match log with
  | [] => Some cur
  | r :: rest =>
      if TradeLog.position_status r =? "OPEN" then
        match cur with
        | None => replay rest (Some (TradeLog.position_type r))
        | Some _ => None
        end
      else if TradeLog.position_status r =? "CLOSE" then
        match cur with
        | Some ty =>
            if ty =? TradeLog.position_type r then replay rest None else None
        | None => None
        end
      else None
  end.

Definition pair_is_open (cur : option string) : bool :=
  match cur with Some _ => true | None => false end.

(* the shape of a ledger row: an OPEN row has no P&L and no reason, a CLOSE
   row has one of the two reasons *)
Definition row_ok (r : TradeLog.row) : Prop :=
  (TradeLog.position_type r = "short" \/ TradeLog.position_type r = "long")
  /\ ((TradeLog.position_status r = "OPEN"
       /\ TradeLog.pnl r = NaN /\ TradeLog.Reason r = None)
      \/ (TradeLog.position_status r = "CLOSE"
          /\ (TradeLog.Reason r = Some "Standard"
              \/ TradeLog.Reason r = Some "STOP LOSS"))).

(* the ledger tells the state of the pair *)
Definition ledger_inv (st : sim_state) : Prop :=
  replay (trade_log st) None
  = Some (if both_open st then Some (current_direction st) else None)
  /\ Forall row_ok (trade_log st).

(* [st'] continues the ledger of [st] by at most [n] rows *)
Definition ledger_step (st st' : sim_state) (n : nat) : Prop :=
  (ledger_inv st -> ledger_inv st')
  /\ exists new, trade_log st' = (trade_log st ++ new)%list
                 /\ (List.length new <= n)%nat.

(** * Properties *)

(** ** Numbers *)

Lemma num_eqv_refl (a : num) : num_eqv a a.
Proof. destruct a; simpl; auto; reflexivity. Qed.

Lemma Qzero_b_true (q : Q) : Qzero_b q = true <-> q == 0.
Proof. unfold Qzero_b. apply Qeq_bool_iff. Qed.

Lemma Qzero_b_false (q : Q) : Qzero_b q = false <-> ~ q == 0.
Proof.
  rewrite <- Qzero_b_true. destruct (Qzero_b q); split; intro H;
    try reflexivity; try discriminate; try (exfalso; apply H; reflexivity);
    try (intro H'; discriminate).
Qed.

Lemma Qle_bool_false (x y : Q) : Qle_bool x y = false <-> (y < x)%Q.
Proof.
  split; intro H.
  - apply Qnot_le_lt. intro Hle. apply Qle_bool_iff in Hle. congruence.
  - destruct (Qle_bool x y) eqn:E; [|reflexivity].
    apply Qle_bool_iff in E. exfalso. apply (Qlt_not_le _ _ H E).
Qed.

Lemma nltb_Fin (x y : Q) : nltb (Fin x) (Fin y) = true <-> (x < y)%Q.
Proof.
  simpl. rewrite negb_true_iff. apply Qle_bool_false.
Qed.

Lemma nltb_Fin_false (x y : Q) : nltb (Fin x) (Fin y) = false <-> (y <= x)%Q.
Proof.
  simpl. rewrite negb_false_iff. apply Qle_bool_iff.
Qed.

Lemma floor_frac (q : Q) :
  (0 <= q - inject_Z (Qfloor q))%Q /\ (q - inject_Z (Qfloor q) < 1)%Q.
Proof.
  pose proof (Qfloor_le q) as Hlo.
  pose proof (Qlt_floor q) as Hhi.
  rewrite inject_Z_plus in Hhi.
  change (inject_Z 1) with 1%Q in Hhi.
  split; lra.
Qed.

(** [round] is within one half of its argument. *)
Lemma round_half_even_bound (q : Q) :
  (Qabs (inject_Z (round_half_even q) - q) <= 1 # 2)%Q.
Proof.
  unfold round_half_even.
  destruct (floor_frac q) as [Hlo Hhi].
  apply Qabs_Qle_condition.
  destruct (Qcompare_spec (q - inject_Z (Qfloor q)) (1 # 2)) as [He|Hl|Hg].
  - destruct (Z.even (Qfloor q)).
    + split; lra.
    + rewrite inject_Z_plus. change (inject_Z 1) with 1%Q. split; lra.
  - split; lra.
  - rewrite inject_Z_plus. change (inject_Z 1) with 1%Q. split; lra.
Qed.

(** A whole number rounds to itself. *)
Lemma round_half_even_whole (q : Q) (k : Z) :
  q == inject_Z k -> round_half_even q = k.
Proof.
  intro Hq. unfold round_half_even.
  assert (Hf : Qfloor q = k).
  { rewrite (Qfloor_comp _ _ Hq). apply Qfloor_Z. }
  rewrite Hf.
  destruct (Qcompare_spec (q - inject_Z k) (1 # 2)) as [He|Hl|Hg].
  - exfalso. lra.
  - reflexivity.
  - exfalso. lra.
Qed.

(** ** Position *)

Lemma init_inv (ptype : string) (p : Position.t) :
  Position.init ptype = Ok p ->
  (Position.type p = 1 \/ Position.type p = -1) /\
  p = Position.mk (Position.type p) EmptyString None NaN NaN NaN.
Proof.
  unfold Position.init.
  destruct (negb ((ptype =? "long") || (ptype =? "short"))); [discriminate|].
  destruct (ptype =? "short"); intro H; injection H as <-; simpl; auto.
Qed.

(** What a successful [open] has checked and what it leaves. *)
Lemma open_inv (self pos : Position.t) (nm : string) (dt : isodate)
    (cash pr : num) :
  Position.open self nm dt cash pr = Ok pos ->
  Position.is_open self = false /\
  (nm = "kxi" \/ nm = "xlp") /\
  exists q units,
    pdiv cash pr = Ok q /\
    py_round q = Ok units /\
    pos = Position.mk (Position.type self) nm (Some dt) cash pr (of_Z units).
Proof.
  unfold Position.open.
  destruct (Position.is_open self); [discriminate|].
  destruct (nm =? "kxi") eqn:E1; cbn [orb negb].
  - apply String.eqb_eq in E1.
    destruct (pdiv cash pr) as [q|]; cbn [bind]; [|discriminate].
    destruct (py_round q) as [units|] eqn:Er; cbn [bind]; [|discriminate].
    intro H; injection H as <-.
    split; [reflexivity|]. split; [left; exact E1|].
    exists q, units. repeat split; [exact Er].
  - destruct (nm =? "xlp") eqn:E2; cbn [negb]; [|discriminate].
    apply String.eqb_eq in E2.
    destruct (pdiv cash pr) as [q|]; cbn [bind]; [|discriminate].
    destruct (py_round q) as [units|] eqn:Er; cbn [bind]; [|discriminate].
    intro H; injection H as <-.
    split; [reflexivity|]. split; [right; exact E2|].
    exists q, units. repeat split; [exact Er].
Qed.

Lemma open_intro (self : Position.t) (nm : string) (dt : isodate)
    (cash pr q : num) (units : Z) :
  Position.is_open self = false ->
  nm = "kxi" \/ nm = "xlp" ->
  pdiv cash pr = Ok q ->
  py_round q = Ok units ->
  Position.open self nm dt cash pr
  = Ok (Position.mk (Position.type self) nm (Some dt) cash pr (of_Z units)).
Proof.
  intros Hc Hnm Hq Hr. unfold Position.open.
  rewrite Hc, Hq. cbn [bind]. rewrite Hr. cbn [bind].
  destruct Hnm as [-> | ->]; reflexivity.
Qed.

Lemma open_is_open (self pos : Position.t) (nm : string) (dt : isodate)
    (cash pr : num) :
  Position.open self nm dt cash pr = Ok pos ->
  Position.is_open pos = true /\ Position.name pos = nm /\
  (nm = "kxi" \/ nm = "xlp") /\ Position.is_open self = false.
Proof.
  unfold Position.open.
  destruct (Position.is_open self); [discriminate|].
  destruct (nm =? "kxi") eqn:E1; simpl.
  - apply String.eqb_eq in E1. subst nm.
    destruct (pdiv cash pr) as [q|]; simpl; [|discriminate].
    destruct (py_round q); simpl; [|discriminate].
    intro H; injection H as <-. auto.
  - destruct (nm =? "xlp") eqn:E2; simpl; [|discriminate].
    apply String.eqb_eq in E2. subst nm.
    destruct (pdiv cash pr) as [q|]; simpl; [|discriminate].
    destruct (py_round q); simpl; [|discriminate].
    intro H; injection H as <-. auto.
Qed.

Lemma cleared_not_open (p : Position.t) :
  Position.is_open (Position.cleared p) = false.
Proof. reflexivity. Qed.




Lemma get_pnl_cleared (p : Position.t) (pr : num) :
  Position.get_pnl (Position.cleared p) pr = Ok NaN.
Proof. unfold Position.get_pnl. simpl. destruct pr; reflexivity. Qed.

(** C5, as amended.  For every open Position, close(price) returns its
    realized P&L and clears all fields.  A P&L query on the now-closed
    position does not raise: it returns nan.  What fails fast is a second
    close, and the pair-level evaluation [get_pnls] when either leg is not
    open. *)
Theorem close_then_pnl (self : Position.t) (pr pr' : num) :
  Position.is_open self = true ->
  exists pnl pos',
    Position.get_pnl self pr = Ok pnl /\
    Position.close self pr = Ok (pnl, pos') /\
    Position.name pos' = EmptyString /\
    Position.date pos' = None /\
    Position.entry_cash pos' = NaN /\
    Position.price pos' = NaN /\
    Position.amount pos' = NaN /\
    Position.type pos' = Position.type self /\
    Position.is_open pos' = false /\
    Position.get_pnl pos' pr' = Ok NaN /\
    Position.close pos' pr' = Raise AssertionError /\
    (forall other k x zeta s,
        get_pnls pos' other k x zeta s = Raise AssertionError /\
        get_pnls other pos' k x zeta s = Raise AssertionError).
Proof.
  intro Hopen.
  destruct (Position.get_pnl self pr) as [pnl|e] eqn:Hpnl;
    [|unfold Position.get_pnl in Hpnl; discriminate].
  exists pnl, (Position.cleared self).
  split; [reflexivity|].
  split.
  { unfold Position.close. rewrite Hopen, Hpnl. reflexivity. }
  do 7 (split; [reflexivity|]).
  split; [apply get_pnl_cleared|].
  split; [reflexivity|].
  intros other k x zeta s. split.
  - reflexivity.
  - unfold get_pnls. rewrite cleared_not_open.
    rewrite orb_true_r. reflexivity.
Qed.

Lemma close_then_pnl_witness :
  exists pnl pos',
    Position.get_pnl ex_long (Fin 12) = Ok pnl /\
    Position.close ex_long (Fin 12) = Ok (pnl, pos') /\
    Position.name pos' = EmptyString /\
    Position.date pos' = None /\
    Position.entry_cash pos' = NaN /\
    Position.price pos' = NaN /\
    Position.amount pos' = NaN /\
    Position.type pos' = Position.type ex_long /\
    Position.is_open pos' = false /\
    Position.get_pnl pos' (Fin 12) = Ok NaN /\
    Position.close pos' (Fin 12) = Raise AssertionError /\
    (forall other k x zeta s,
        get_pnls pos' other k x zeta s = Raise AssertionError /\
        get_pnls other pos' k x zeta s = Raise AssertionError).
Proof.
  apply (close_then_pnl ex_long (Fin 12) (Fin 12)). reflexivity.
Defined.

(** C5 as stated fails: after close, the P&L query returns nan instead of
    raising. *)
Lemma close_then_pnl_counterexample :
  exists pos pnl pos',
    Position.open fresh_long "xlp" ex_day (Fin 100) (Fin 10) = Ok pos /\
    Position.close pos (Fin 12) = Ok (pnl, pos') /\
    Position.get_pnl pos' (Fin 12) = Ok NaN /\
    forall e, Position.get_pnl pos' (Fin 12) <> Raise e.
Proof.
  eexists; eexists; eexists.
  split; [reflexivity|]. split; [reflexivity|].
  split; [reflexivity|]. intros e H. discriminate H.
Qed.

(** ** Spread-pair accounting *)

Lemma get_pnls_not_open (short long : Position.t) (k x zeta : num)
    (s : option num) :
  Position.is_open short = false \/ Position.is_open long = false ->
  get_pnls short long k x zeta s = Raise AssertionError.
Proof.
  intros [H | H]; unfold get_pnls; rewrite H; simpl.
  - reflexivity.
  - rewrite orb_true_r. reflexivity.
Qed.

(** What [get_pnls] computes on two open legs. *)
Lemma get_pnls_open (short long : Position.t) (k x zeta : num)
    (s : option num) :
  Position.is_open short = true ->
  Position.is_open long = true ->
  exists pnl_short pnl_long,
    Position.get_pnl short (fst (find_short_long short long k x))
      = Ok pnl_short /\
    Position.get_pnl long (snd (find_short_long short long k x))
      = Ok pnl_long /\
    let total := nmul (nadd pnl_short pnl_long) (nsub (of_Z 1) zeta) in
    let gross_cash := nmul (Position.entry_cash short) (of_Z 2) in
    get_pnls short long k x zeta s
    = Ok (if stop_loss_condition total gross_cash s
          then (false, of_Z 0) else (true, total)).
Proof.
  intros Hs Hl.
  eexists; eexists.
  split; [reflexivity|]. split; [reflexivity|].
  cbv zeta. unfold get_pnls. rewrite Hs, Hl. cbn [negb orb].
  unfold Position.get_pnl at 1 2. cbn [bind].
  unfold stop_loss_condition.
  destruct s as [sv|].
  - destruct (nltb _ (of_Z 0)); cbn [andb]; [|reflexivity].
    destruct (num_truthy sv); cbn [andb]; [|reflexivity].
    destruct (ngtb _ sv); reflexivity.
  - rewrite andb_false_r. reflexivity.
Qed.

(** C1, as amended.  For two open legs with
    total = (pnl_short + pnl_long) * (1 - zeta) and gross cash twice the short
    leg's entry cash: if total < 0, [s] is set and is not zero, and
    |total| / gross_cash > s, the check signals the stop loss and returns
    pnl = 0; otherwise it signals no stop loss and returns pnl = total.  When
    either leg is not open it raises AssertionError. *)
Theorem stop_loss_check (short long : Position.t) (k x zeta : num)
    (s : option num) :
  (Position.is_open short = true ->
   Position.is_open long = true ->
   exists pnl_short pnl_long r,
     Position.get_pnl short (fst (find_short_long short long k x))
       = Ok pnl_short /\
     Position.get_pnl long (snd (find_short_long short long k x))
       = Ok pnl_long /\
     let total := nmul (nadd pnl_short pnl_long) (nsub (of_Z 1) zeta) in
     let gross_cash := nmul (Position.entry_cash short) (of_Z 2) in
     get_pnls short long k x zeta s = Ok r /\
     (stop_loss_condition total gross_cash s = true ->
      stop_loss_hit r = true /\ snd r = of_Z 0) /\
     (stop_loss_condition total gross_cash s = false ->
      stop_loss_hit r = false /\ snd r = total)) /\
  (Position.is_open short = false \/ Position.is_open long = false ->
   get_pnls short long k x zeta s = Raise AssertionError).
Proof.
  split; [|apply get_pnls_not_open].
  intros Hs Hl.
  destruct (get_pnls_open short long k x zeta s Hs Hl)
    as (ps & pl & Hps & Hpl & Hres).
  cbv zeta in Hres.
  exists ps, pl.
  eexists. split; [exact Hps|]. split; [exact Hpl|].
  cbv zeta. split; [exact Hres|].
  split; intro Hc; rewrite Hc; split; reflexivity.
Qed.

(* the example pair with kxi at 15: the short leg loses 50 of 200 gross *)
Lemma stop_loss_check_witness :
  (exists pnl_short pnl_long r,
     Position.get_pnl ex_short
       (fst (find_short_long ex_short ex_long (Fin 15) (Fin 10)))
       = Ok pnl_short /\
     Position.get_pnl ex_long
       (snd (find_short_long ex_short ex_long (Fin 15) (Fin 10)))
       = Ok pnl_long /\
     let total := nmul (nadd pnl_short pnl_long) (nsub (of_Z 1) (Fin 0)) in
     let gross_cash := nmul (Position.entry_cash ex_short) (of_Z 2) in
     get_pnls ex_short ex_long (Fin 15) (Fin 10) (Fin 0) (Some (Fin (1 # 10)))
       = Ok r /\
     (stop_loss_condition total gross_cash (Some (Fin (1 # 10))) = true ->
      stop_loss_hit r = true /\ snd r = of_Z 0) /\
     (stop_loss_condition total gross_cash (Some (Fin (1 # 10))) = false ->
      stop_loss_hit r = false /\ snd r = total))
  /\ get_pnls fresh_short ex_long (Fin 15) (Fin 10) (Fin 0)
       (Some (Fin (1 # 10))) = Raise AssertionError.
Proof.
  split.
  - apply (proj1 (stop_loss_check ex_short ex_long (Fin 15) (Fin 10) (Fin 0)
                    (Some (Fin (1 # 10))))); reflexivity.
  - apply (proj2 (stop_loss_check fresh_short ex_long (Fin 15) (Fin 10)
                    (Fin 0) (Some (Fin (1 # 10))))).
    left; reflexivity.
Defined.

(** C1 as stated fails at s = 0: the loss is 50 on a gross cash of 200, the
    threshold is set (not None) and 0.25 > 0, yet no stop loss is signalled
    and the loss is returned. *)
Lemma stop_loss_check_counterexample :
  Position.open fresh_short "kxi" ex_day (Fin 100) (Fin 10) = Ok ex_short /\
  Position.open fresh_long "xlp" ex_day (Fin 100) (Fin 10) = Ok ex_long /\
  exists pnl_short pnl_long,
    Position.get_pnl ex_short (Fin 15) = Ok pnl_short /\
    Position.get_pnl ex_long (Fin 10) = Ok pnl_long /\
    let total := nmul (nadd pnl_short pnl_long) (nsub (of_Z 1) (Fin 0)) in
    let gross_cash := nmul (Position.entry_cash ex_short) (of_Z 2) in
    num_eqv total (Fin (-50)) /\ num_eqv gross_cash (Fin 200) /\
    stop_loss_condition_non_null total gross_cash (Some (Fin 0)) = true /\
    get_pnls ex_short ex_long (Fin 15) (Fin 10) (Fin 0) (Some (Fin 0))
      = Ok (true, total) /\
    stop_loss_hit (true, total) = false.
Proof.
  split; [reflexivity|]. split; [reflexivity|].
  eexists; eexists.
  split; [reflexivity|]. split; [reflexivity|].
  cbv zeta.
  split; [vm_compute; reflexivity|].
  split; [vm_compute; reflexivity|].
  split; [vm_compute; reflexivity|].
  split; [vm_compute; reflexivity|].
  reflexivity.
Qed.

Lemma nmul_one (a : num) (w : Q) : w == 1 -> num_eqv (nmul a (Fin w)) a.
Proof.
  intro Hw.
  assert (Hz : Qzero_b w = false) by (apply Qzero_b_false; lra).
  assert (Hn : Qneg_b w = false).
  { unfold Qneg_b. apply negb_false_iff. apply Qle_bool_iff. lra. }
  destruct a; simpl; try rewrite Hz; try rewrite Hn; simpl; auto.
  rewrite Hw. ring.
Qed.

(** C8.  For two open legs, the combined P&L is
    (pnl_short + pnl_long) * (1 - zeta): it is what [get_pnls] returns with
    the stop-loss check disabled, and what it returns under any threshold
    whenever no stop loss is signalled.  With zeta = 0 it is the plain sum of
    the two leg P&Ls.  For a spread pair each leg is valued at the current
    price of the instrument it holds. *)
Theorem combined_pnl (short long : Position.t) (k x zeta : num) :
  Position.is_open short = true ->
  Position.is_open long = true ->
  exists pnl_short pnl_long,
    Position.get_pnl short (fst (find_short_long short long k x))
      = Ok pnl_short /\
    Position.get_pnl long (snd (find_short_long short long k x))
      = Ok pnl_long /\
    let total := nmul (nadd pnl_short pnl_long) (nsub (of_Z 1) zeta) in
    get_pnls short long k x zeta None = Ok (true, total) /\
    (forall s r, get_pnls short long k x zeta s = Ok r ->
                 stop_loss_hit r = false -> snd r = total) /\
    (forall zq, zeta = Fin zq -> zq == 0 ->
                num_eqv total (nadd pnl_short pnl_long)) /\
    (is_spread_pair short long = true ->
     fst (find_short_long short long k x)
       = instrument_price (Position.name short) k x /\
     snd (find_short_long short long k x)
       = instrument_price (Position.name long) k x).
Proof.
  intros Hs Hl.
  destruct (get_pnls_open short long k x zeta None Hs Hl)
    as (ps & pl & Hps & Hpl & Hnone).
  exists ps, pl. split; [exact Hps|]. split; [exact Hpl|].
  cbv zeta in *. split; [|split; [|split]].
  - rewrite Hnone. unfold stop_loss_condition.
    rewrite andb_false_r. reflexivity.
  - intros s r Hr Hhit.
    destruct (get_pnls_open short long k x zeta s Hs Hl)
      as (ps' & pl' & Hps' & Hpl' & Hres).
    cbv zeta in Hres.
    rewrite Hps in Hps'. injection Hps' as <-.
    rewrite Hpl in Hpl'. injection Hpl' as <-.
    rewrite Hres in Hr. injection Hr as <-.
    destruct (stop_loss_condition _ _ s); [discriminate Hhit|reflexivity].
  - intros zq -> Hzq. apply nmul_one. rewrite Hzq. reflexivity.
  - unfold is_spread_pair, find_short_long, instrument_price.
    intro Hpair.
    destruct (Position.name short =? "kxi") eqn:Ek; cbn [andb orb] in Hpair.
    + apply String.eqb_eq in Ek. rewrite Ek in Hpair.
      cbn in Hpair. rewrite orb_false_r in Hpair.
      apply String.eqb_eq in Hpair. rewrite Hpair. split; reflexivity.
    + apply andb_prop in Hpair. destruct Hpair as [_ Hx].
      rewrite Hx. split; reflexivity.
Qed.

Lemma combined_pnl_witness :
  exists pnl_short pnl_long,
    Position.get_pnl ex_short
      (fst (find_short_long ex_short ex_long (Fin 15) (Fin 10)))
      = Ok pnl_short /\
    Position.get_pnl ex_long
      (snd (find_short_long ex_short ex_long (Fin 15) (Fin 10)))
      = Ok pnl_long /\
    let total := nmul (nadd pnl_short pnl_long) (nsub (of_Z 1) (Fin 0)) in
    get_pnls ex_short ex_long (Fin 15) (Fin 10) (Fin 0) None
      = Ok (true, total) /\
    (forall s r,
        get_pnls ex_short ex_long (Fin 15) (Fin 10) (Fin 0) s = Ok r ->
        stop_loss_hit r = false -> snd r = total) /\
    (forall zq, Fin 0 = Fin zq -> zq == 0 ->
                num_eqv total (nadd pnl_short pnl_long)) /\
    (is_spread_pair ex_short ex_long = true ->
     fst (find_short_long ex_short ex_long (Fin 15) (Fin 10))
       = instrument_price (Position.name ex_short) (Fin 15) (Fin 10) /\
     snd (find_short_long ex_short ex_long (Fin 15) (Fin 10))
       = instrument_price (Position.name ex_long) (Fin 15) (Fin 10)).
Proof.
  apply (combined_pnl ex_short ex_long (Fin 15) (Fin 10) (Fin 0));
    reflexivity.
Defined.

(** C9.  A stop-loss fraction of zero disables the check as None does: on two
    open legs [get_pnls] with s = 0 returns what it returns with s = None, no
    stop loss and the actual total, although for a positive entry cash every
    negative total has a loss ratio above zero. *)
Theorem zero_threshold_disables (short long : Position.t) (k x zeta : num)
    (z0 : Q) :
  Position.is_open short = true ->
  Position.is_open long = true ->
  z0 == 0 ->
  get_pnls short long k x zeta (Some (Fin z0))
    = get_pnls short long k x zeta None /\
  exists pnl_short pnl_long,
    Position.get_pnl short (fst (find_short_long short long k x))
      = Ok pnl_short /\
    Position.get_pnl long (snd (find_short_long short long k x))
      = Ok pnl_long /\
    let total := nmul (nadd pnl_short pnl_long) (nsub (of_Z 1) zeta) in
    let gross_cash := nmul (Position.entry_cash short) (of_Z 2) in
    get_pnls short long k x zeta (Some (Fin z0)) = Ok (true, total) /\
    stop_loss_hit (true, total) = false /\
    (forall c, Position.entry_cash short = Fin c -> (0 < c)%Q ->
               nltb total (of_Z 0) = true ->
               ngtb (ndiv (nabs total) gross_cash) (Fin z0) = true).
Proof.
  intros Hs Hl Hz.
  assert (Htruthy : num_truthy (Fin z0) = false).
  { simpl. apply negb_false_iff. apply Qzero_b_true. exact Hz. }
  destruct (get_pnls_open short long k x zeta (Some (Fin z0)) Hs Hl)
    as (ps & pl & Hps & Hpl & Hzero).
  destruct (get_pnls_open short long k x zeta None Hs Hl)
    as (ps' & pl' & Hps' & Hpl' & Hnone).
  rewrite Hps in Hps'. injection Hps' as <-.
  rewrite Hpl in Hpl'. injection Hpl' as <-.
  cbv zeta in *.
  unfold stop_loss_condition in Hzero, Hnone.
  rewrite Htruthy in Hzero. cbn [andb] in Hzero.
  rewrite andb_false_r in Hzero, Hnone.
  split; [rewrite Hzero, Hnone; reflexivity|].
  exists ps, pl. split; [exact Hps|]. split; [exact Hpl|].
  split; [exact Hzero|]. split; [reflexivity|].
  intros c Hc Hcpos Hneg. rewrite Hc.
  assert (Hg : Qzero_b (c * inject_Z 2) = false).
  { apply Qzero_b_false. change (inject_Z 2) with 2%Q. lra. }
  assert (Hgn : Qneg_b (c * inject_Z 2) = false).
  { unfold Qneg_b. apply negb_false_iff. apply Qle_bool_iff.
    change (inject_Z 2) with 2%Q. lra. }
  destruct (nmul (nadd ps pl) (nsub (of_Z 1) zeta)) as [| | |t];
    try discriminate Hneg.
  - cbn. rewrite Hgn. reflexivity.
  - apply nltb_Fin in Hneg. change (inject_Z 0) with 0%Q in Hneg.
    cbn [nabs nmul of_Z ndiv]. rewrite Hg.
    unfold ngtb. apply nltb_Fin.
    rewrite Hz.
    assert (Habs : (0 < Qabs t)%Q).
    { rewrite Qabs_neg by lra. lra. }
    apply Qlt_shift_div_l.
    + change (inject_Z 2) with 2%Q. lra.
    + lra.
Qed.

Lemma zero_threshold_disables_witness :
  get_pnls ex_short ex_long (Fin 15) (Fin 10) (Fin 0) (Some (Fin 0))
    = get_pnls ex_short ex_long (Fin 15) (Fin 10) (Fin 0) None /\
  exists pnl_short pnl_long,
    Position.get_pnl ex_short
      (fst (find_short_long ex_short ex_long (Fin 15) (Fin 10)))
      = Ok pnl_short /\
    Position.get_pnl ex_long
      (snd (find_short_long ex_short ex_long (Fin 15) (Fin 10)))
      = Ok pnl_long /\
    let total := nmul (nadd pnl_short pnl_long) (nsub (of_Z 1) (Fin 0)) in
    let gross_cash := nmul (Position.entry_cash ex_short) (of_Z 2) in
    get_pnls ex_short ex_long (Fin 15) (Fin 10) (Fin 0) (Some (Fin 0))
      = Ok (true, total) /\
    stop_loss_hit (true, total) = false /\
    (forall c, Position.entry_cash ex_short = Fin c -> (0 < c)%Q ->
               nltb total (of_Z 0) = true ->
               ngtb (ndiv (nabs total) gross_cash) (Fin 0) = true).
Proof.
  apply (zero_threshold_disables ex_short ex_long (Fin 15) (Fin 10) (Fin 0) 0);
    reflexivity.
Defined.


Lemma close_open_leg (p : Position.t) (pr : num) :
  Position.is_open p = true ->
  exists pnl, Position.get_pnl p pr = Ok pnl /\
              Position.close p pr = Ok (pnl, Position.cleared p).
Proof.
  intro H. eexists. split; [reflexivity|].
  unfold Position.close. rewrite H. reflexivity.
Qed.

(** What [close_positions] does on two open legs. *)
Lemma close_positions_open (log : trade_log_t) (dt : isodate)
    (short long : Position.t) (k x zeta : num) (reason : string) :
  Position.is_open short = true ->
  Position.is_open long = true ->
  exists total,
    let short_is_kxi := Position.name short =? "kxi" in
    let r :=
      TradeLog.mk dt "CLOSE" (if short_is_kxi then "short" else "long")
        (nmul (Position.entry_cash short) (of_Z 2)) total
        k (Position.amount (if short_is_kxi then short else long))
        x (Position.amount (if short_is_kxi then long else short))
        (Some reason) in
    get_pnls short long k x zeta None = Ok (true, total) /\
    close_positions log dt short long k x zeta reason
      = Ok ((log ++ [r])%list, Position.cleared short, Position.cleared long).
Proof.
  intros Hs Hl.
  destruct (get_pnls_open short long k x zeta None Hs Hl)
    as (ps & pl & Hps & Hpl & Hnone).
  cbv zeta in Hnone. unfold stop_loss_condition in Hnone.
  rewrite andb_false_r in Hnone.
  eexists. cbv zeta. split; [exact Hnone|].
  unfold close_positions. rewrite Hnone. cbn [bind snd].
  unfold find_short_long in *.
  destruct (Position.name short =? "kxi"); cbn [fst snd] in *;
    unfold Position.close; rewrite Hs, Hl, Hps, Hpl; reflexivity.
Qed.

(** C6.  For every open pair, [close_positions] appends exactly one CLOSE row
    -- the prior spread type, gross cash twice the short leg's entry cash, the
    given reason (the default is "Standard"), and the combined P&L computed
    with the stop-loss check disabled -- and closes both legs at the resolved
    prices.  The recorded P&L is the actual total even when a threshold [s]
    would signal the stop loss. *)
Theorem close_pair (log : trade_log_t) (dt : isodate)
    (short long : Position.t) (k x zeta : num) (reason : string) :
  Position.is_open short = true ->
  Position.is_open long = true ->
  exists pnl_short pnl_long,
    let short_is_kxi := Position.name short =? "kxi" in
    let short_price := fst (find_short_long short long k x) in
    let long_price := snd (find_short_long short long k x) in
    let total := nmul (nadd pnl_short pnl_long) (nsub (of_Z 1) zeta) in
    let r :=
      TradeLog.mk dt "CLOSE" (if short_is_kxi then "short" else "long")
        (nmul (Position.entry_cash short) (of_Z 2)) total
        k (Position.amount (if short_is_kxi then short else long))
        x (Position.amount (if short_is_kxi then long else short))
        (Some reason) in
    get_pnls short long k x zeta None = Ok (true, total) /\
    close_positions log dt short long k x zeta reason
      = Ok ((log ++ [r])%list, Position.cleared short, Position.cleared long) /\
    Position.close short short_price = Ok (pnl_short, Position.cleared short) /\
    Position.close long long_price = Ok (pnl_long, Position.cleared long) /\
    (forall sv, get_pnls short long k x zeta (Some sv) = Ok (false, of_Z 0) ->
                TradeLog.pnl r = total /\ nltb total (of_Z 0) = true) /\
    default_reason = "Standard".
Proof.
  intros Hs Hl.
  destruct (get_pnls_open short long k x zeta None Hs Hl)
    as (ps & pl & Hps & Hpl & Hnone).
  cbv zeta in Hnone. unfold stop_loss_condition in Hnone.
  rewrite andb_false_r in Hnone.
  exists ps, pl. cbv zeta.
  split; [exact Hnone|].
  split; [|split; [|split; [|split; [|reflexivity]]]].
  - destruct (close_positions_open log dt short long k x zeta reason Hs Hl)
      as (total & Htot & Hcp).
    cbv zeta in Hcp. rewrite Hnone in Htot. injection Htot as <-.
    exact Hcp.
  - unfold Position.close. rewrite Hs, Hps. reflexivity.
  - unfold Position.close. rewrite Hl, Hpl. reflexivity.
  - intros sv Hsv. split; [reflexivity|].
    destruct (get_pnls_open short long k x zeta (Some sv) Hs Hl)
      as (ps' & pl' & Hps' & Hpl' & Hres).
    rewrite Hps in Hps'. injection Hps' as <-.
    rewrite Hpl in Hpl'. injection Hpl' as <-.
    cbv zeta in Hres. rewrite Hres in Hsv.
    unfold stop_loss_condition in Hsv.
    destruct (nltb _ (of_Z 0)); [reflexivity|].
    cbn [andb] in Hsv. discriminate Hsv.
Qed.

Lemma close_pair_witness :
  exists pnl_short pnl_long,
    let short_is_kxi := Position.name ex_short =? "kxi" in
    let short_price :=
      fst (find_short_long ex_short ex_long (Fin 15) (Fin 10)) in
    let long_price :=
      snd (find_short_long ex_short ex_long (Fin 15) (Fin 10)) in
    let total := nmul (nadd pnl_short pnl_long) (nsub (of_Z 1) (Fin 0)) in
    let r :=
      TradeLog.mk ex_day "CLOSE" (if short_is_kxi then "short" else "long")
        (nmul (Position.entry_cash ex_short) (of_Z 2)) total
        (Fin 15) (Position.amount (if short_is_kxi then ex_short else ex_long))
        (Fin 10) (Position.amount (if short_is_kxi then ex_long else ex_short))
        (Some "STOP LOSS") in
    get_pnls ex_short ex_long (Fin 15) (Fin 10) (Fin 0) None
      = Ok (true, total) /\
    close_positions [] ex_day ex_short ex_long (Fin 15) (Fin 10) (Fin 0)
      "STOP LOSS"
      = Ok (([] ++ [r])%list,
            Position.cleared ex_short, Position.cleared ex_long) /\
    Position.close ex_short short_price
      = Ok (pnl_short, Position.cleared ex_short) /\
    Position.close ex_long long_price
      = Ok (pnl_long, Position.cleared ex_long) /\
    (forall sv,
        get_pnls ex_short ex_long (Fin 15) (Fin 10) (Fin 0) (Some sv)
          = Ok (false, of_Z 0) ->
        TradeLog.pnl r = total /\ nltb total (of_Z 0) = true) /\
    default_reason = "Standard".
Proof.
  apply (close_pair [] ex_day ex_short ex_long (Fin 15) (Fin 10) (Fin 0)
           "STOP LOSS"); reflexivity.
Defined.

(** ** The simulation loop *)

(** [open_positions] when both legs can be opened: the long leg first, then
    the short leg, then one OPEN row with the quantities of the two legs. *)
Lemma open_positions_legs (log : trade_log_t) (sp lp sp' lp' : Position.t)
    (k x cash : num) (dt : isodate) (ty : string) :
  ty = "long" \/ ty = "short" ->
  Position.open lp (long_leg_name ty) dt cash
    (instrument_price (long_leg_name ty) k x) = Ok lp' ->
  Position.open sp (short_leg_name ty) dt cash
    (instrument_price (short_leg_name ty) k x) = Ok sp' ->
  open_positions log sp lp k x dt cash ty
  = Ok ((log ++ [TradeLog.mk dt "OPEN" ty (nmul cash (of_Z 2)) NaN
                   k (Position.amount (if ty =? "long" then lp' else sp'))
                   x (Position.amount (if ty =? "long" then sp' else lp'))
                   None])%list,
        sp', lp').
Proof.
  intros Hty Hlo Hso. unfold open_positions.
  destruct Hty as [-> | ->];
    cbn [long_leg_name short_leg_name instrument_price
         String.eqb Ascii.eqb Bool.eqb orb negb] in *;
    rewrite Hlo; cbn [bind]; rewrite Hso; reflexivity.
Qed.

(** A successful [do_open] leaves a spread pair open and one OPEN row. *)
Lemma do_open_ok (st st' : sim_state) (d : isodate) (k x cash : num)
    (ty : string) :
  do_open st d k x cash ty = Ok st' ->
  both_open st' = true /\
  is_spread_pair (short_pos st') (long_pos st') = true /\
  current_direction st' = ty /\
  stop_loss_date st' = stop_loss_date st /\
  date st' = date st /\ kxi st' = kxi st /\ xlp st' = xlp st /\
  exists r, trade_log st' = (trade_log st ++ [r])%list /\
            TradeLog.date r = d /\
            TradeLog.position_status r = "OPEN" /\
            TradeLog.position_type r = ty /\
            TradeLog.kxi_price r = k /\ TradeLog.xlp_price r = x /\
            TradeLog.Reason r = None.
Proof.
  unfold do_open, open_positions.
  destruct (ty =? "short") eqn:Es; cbn [orb negb].
  - apply String.eqb_eq in Es. subst ty. cbn [String.eqb Ascii.eqb Bool.eqb].
    destruct (Position.open (long_pos st) "xlp" d cash x) as [lp|] eqn:El;
      cbn [bind]; [|discriminate].
    destruct (Position.open (short_pos st) "kxi" d cash k) as [sp|] eqn:Esp;
      cbn [bind]; [|discriminate].
    intro H; injection H as <-.
    destruct (open_is_open _ _ _ _ _ _ El) as (Hlo & Hln & _).
    destruct (open_is_open _ _ _ _ _ _ Esp) as (Hso & Hsn & _).
    unfold both_open, is_spread_pair, current_direction, with_pair, log_append.
    cbn [long_pos short_pos trade_log stop_loss_date date kxi xlp].
    rewrite Hlo, Hso, Hln, Hsn.
    repeat (split; [reflexivity|]).
    eexists. repeat (split; [reflexivity|]). reflexivity.
  - destruct (ty =? "long") eqn:Elg; cbn [negb]; [|discriminate].
    apply String.eqb_eq in Elg. subst ty. cbn [String.eqb Ascii.eqb Bool.eqb].
    destruct (Position.open (long_pos st) "kxi" d cash k) as [lp|] eqn:El;
      cbn [bind]; [|discriminate].
    destruct (Position.open (short_pos st) "xlp" d cash x) as [sp|] eqn:Esp;
      cbn [bind]; [|discriminate].
    intro H; injection H as <-.
    destruct (open_is_open _ _ _ _ _ _ El) as (Hlo & Hln & _).
    destruct (open_is_open _ _ _ _ _ _ Esp) as (Hso & Hsn & _).
    unfold both_open, is_spread_pair, current_direction, with_pair, log_append.
    cbn [long_pos short_pos trade_log stop_loss_date date kxi xlp].
    rewrite Hlo, Hso, Hln, Hsn.
    repeat (split; [reflexivity|]).
    eexists. repeat (split; [reflexivity|]). reflexivity.
Qed.

(** A successful [do_close] leaves both legs closed and one CLOSE row. *)
Lemma do_close_ok (zeta : num) (st st' : sim_state) (d : isodate)
    (k x : num) (reason : string) :
  do_close zeta st d k x reason = Ok st' ->
  both_closed st' = true /\
  long_pos st' = Position.cleared (long_pos st) /\
  short_pos st' = Position.cleared (short_pos st) /\
  both_open st = true /\
  stop_loss_date st' = stop_loss_date st /\
  date st' = date st /\ kxi st' = kxi st /\ xlp st' = xlp st /\
  exists r, trade_log st' = (trade_log st ++ [r])%list /\
            TradeLog.date r = d /\
            TradeLog.position_status r = "CLOSE" /\
            TradeLog.position_type r = current_direction st /\
            TradeLog.Reason r = Some reason.
Proof.
  unfold do_close. intro H.
  destruct (Position.is_open (short_pos st)) eqn:Hs.
  2: { unfold close_positions in H.
       rewrite (get_pnls_not_open _ _ _ _ _ _ (or_introl Hs)) in H.
       destruct (Position.name (short_pos st) =? "kxi"); discriminate H. }
  destruct (Position.is_open (long_pos st)) eqn:Hl.
  2: { unfold close_positions in H.
       rewrite (get_pnls_not_open _ _ _ _ _ _ (or_intror Hl)) in H.
       destruct (Position.name (short_pos st) =? "kxi"); discriminate H. }
  destruct (close_positions_open (trade_log st) d _ _ k x zeta reason Hs Hl)
    as (total & _ & Hcp).
  cbv zeta in Hcp. rewrite Hcp in H. cbn [bind] in H.
  injection H as <-.
  unfold both_closed, both_open, with_pair, current_direction.
  cbn [long_pos short_pos trade_log stop_loss_date date kxi xlp].
  rewrite Hs, Hl.
  repeat (split; [reflexivity|]).
  eexists. repeat (split; [reflexivity|]). reflexivity.
Qed.

Lemma do_close_succeeds (zeta : num) (st : sim_state) (d : isodate)
    (k x : num) (reason : string) :
  both_open st = true ->
  exists st', do_close zeta st d k x reason = Ok st'.
Proof.
  intro H. unfold both_open in H. apply andb_prop in H. destruct H as [Hl Hs].
  destruct (close_positions_open (trade_log st) d _ _ k x zeta reason Hs Hl)
    as (total & _ & Hcp).
  cbv zeta in Hcp. unfold do_close. rewrite Hcp. eexists. reflexivity.
Qed.

Lemma pair_inv_of_open (st : sim_state) :
  both_open st = true ->
  is_spread_pair (short_pos st) (long_pos st) = true ->
  pair_inv st.
Proof.
  unfold both_open. intros H Hp. apply andb_prop in H. destruct H.
  right. auto.
Qed.

Lemma pair_inv_of_closed (st : sim_state) :
  both_closed st = true -> pair_inv st.
Proof.
  unfold both_closed. intro H. apply andb_prop in H. destruct H as [Hl Hs].
  apply negb_true_iff in Hl. apply negb_true_iff in Hs. left. auto.
Qed.

Lemma same_locals_refl (st : sim_state) : same_locals st st.
Proof. repeat split. Qed.

Lemma same_locals_trans (a b c : sim_state) :
  same_locals a b -> same_locals b c -> same_locals a c.
Proof.
  unfold same_locals. intros (H1 & H2 & H3 & H4) (G1 & G2 & G3 & G4).
  repeat split; congruence.
Qed.

Lemma do_open_locals (st st' : sim_state) (d : isodate) (k x cash : num)
    (ty : string) :
  do_open st d k x cash ty = Ok st' ->
  pair_inv st' /\ same_locals st st'.
Proof.
  intro H. destruct (do_open_ok _ _ _ _ _ _ _ H)
    as (Ho & Hp & _ & H1 & H2 & H3 & H4 & _).
  split; [apply pair_inv_of_open; assumption|].
  repeat split; assumption.
Qed.

Lemma do_close_locals (zeta : num) (st st' : sim_state) (d : isodate)
    (k x : num) (reason : string) :
  do_close zeta st d k x reason = Ok st' ->
  pair_inv st' /\ same_locals st st'.
Proof.
  intro H. destruct (do_close_ok _ _ _ _ _ _ _ H)
    as (Hc & _ & _ & _ & H1 & H2 & H3 & H4 & _).
  split; [apply pair_inv_of_closed; assumption|].
  repeat split; assumption.
Qed.

Ltac step_leaf :=
  match goal with
  | H : Ok _ = Ok _ |- _ =>
      injection H as <-; split; [assumption|apply same_locals_refl]
  | H : do_open _ _ _ _ _ _ = Ok _ |- _ =>
      exact (do_open_locals _ _ _ _ _ _ _ H)
  | H : do_close _ _ _ _ _ _ = Ok _ |- _ =>
      exact (do_close_locals _ _ _ _ _ _ _ H)
  | H : bind (do_close ?z ?st ?d ?k ?x ?r) _ = Ok _ |- _ =>
      let st1 := fresh "st1" in
      let E := fresh "E" in
      destruct (do_close z st d k x r) as [st1|] eqn:E;
      cbn [bind] in H; [|discriminate H];
      destruct (do_close_locals _ _ _ _ _ _ _ E) as [_ ?];
      destruct (do_open_locals _ _ _ _ _ _ _ H) as [? ?];
      split; [assumption|eapply same_locals_trans; eassumption]
  end.

Lemma signal_step_preserves (df : dataframe) (g j : num) (M : Z)
    (zeta : num) (st st' : sim_state) (row : Series.row) (d : isodate)
    (k x cash : num) :
  signal_step df g j M zeta st row d k x cash = Ok st' ->
  pair_inv st ->
  pair_inv st' /\ same_locals st st'.
Proof.
  unfold signal_step. intros H Hinv.
  destruct (get_mday_returns df row M) as [rets|]; cbn [bind] in H;
    [|discriminate H].
  cbv zeta in H.
  destruct (ngtb (nabs _) g).
  - destruct (ngtb _ g).
    + destruct (both_closed st); [step_leaf|].
      destruct (Position.name (short_pos st) =? "kxi");
        cbn [String.eqb Ascii.eqb Bool.eqb] in H; step_leaf.
    + destruct (nltb _ (nopp g)); [|step_leaf].
      destruct (both_closed st); [step_leaf|].
      destruct (Position.name (long_pos st) =? "kxi");
        cbn [String.eqb Ascii.eqb Bool.eqb] in H; step_leaf.
  - destruct (nltb (nabs _) j && both_open st); step_leaf.
Qed.

Lemma both_closed_open (st : sim_state) :
  pair_inv st -> both_closed st = negb (both_open st).
Proof.
  unfold pair_inv, both_closed, both_open.
  intros [[Hl Hs] | (Hl & Hs & _)]; rewrite Hl, Hs; reflexivity.
Qed.

Lemma any_open_both_open (st : sim_state) :
  pair_inv st ->
  Position.is_open (short_pos st) || Position.is_open (long_pos st)
  = both_open st.
Proof.
  unfold pair_inv, both_open.
  intros [[Hl Hs] | (Hl & Hs & _)]; rewrite Hl, Hs; reflexivity.
Qed.

(** A day that is evaluated keeps the pair invariant, leaves the prices of
    the day in [kxi] and [xlp], and ends in cool-down only with a closed
    pair. *)
Lemma evaluate_day_preserves (df : dataframe) (g j : num) (s : option num)
    (M : Z) (zeta : num) (st st' : sim_state) (row : Series.row)
    (d : isodate) :
  evaluate_day df g j s M zeta st row d = Ok st' ->
  pair_inv st ->
  stop_loss_date st = None ->
  loop_inv st' /\ date st' = date st.
Proof.
  unfold evaluate_day. cbv zeta. intros H Hinv Hsld.
  set (st1 := with_prices st (Series.KXI_adj_close row)
                (Series.XLP_adj_close row)) in *.
  assert (Hinv1 : pair_inv st1) by exact Hinv.
  assert (Hfinish : forall st2, pair_inv st2 /\ same_locals st1 st2 ->
                                loop_inv st2 /\ date st2 = date st).
  { intros st2 (Hp & H1 & H2 & H3 & H4). split; [|exact H2].
    split; [exact Hp|]. intros _. rewrite H1, H3, H4.
    split; [exact Hsld|]. split; eexists; reflexivity. }
  destruct (both_open st1) eqn:Hbo.
  - destruct (get_pnls _ _ _ _ zeta s) as [pnl_res|]; cbn [bind] in H;
      [|discriminate H].
    destruct (fst pnl_res); cbn [negb] in H.
    + apply Hfinish. eapply signal_step_preserves; eassumption.
    + destruct (one_month_later d) as [sld|]; cbn [bind] in H;
        [|discriminate H].
      destruct (do_close_ok _ _ _ _ _ _ _ H)
        as (Hc & _ & _ & _ & _ & H2 & _).
      split; [|exact H2].
      split; [apply pair_inv_of_closed; exact Hc|].
      intro Hn. rewrite Hc in Hn. discriminate Hn.
  - apply Hfinish. eapply signal_step_preserves; eassumption.
Qed.

Lemma day_step_preserves (df : dataframe) (g j : num) (s : option num)
    (M : Z) (zeta : num) (st st' : sim_state) (row : Series.row) :
  day_step df g j s M zeta st row = Ok st' ->
  loop_inv st ->
  loop_inv st' /\ date st' = Some (Series.date row).
Proof.
  unfold day_step. cbv zeta. intros H [Hp Hopen].
  set (st1 := with_date st (Series.date row)) in *.
  assert (Hskip : loop_inv st1 /\ date st1 = Some (Series.date row)).
  { split; [|reflexivity]. split; [exact Hp|exact Hopen]. }
  destruct (date_ltb (Series.date row) trade_period_start).
  { injection H as <-. exact Hskip. }
  change (stop_loss_date st1) with (stop_loss_date st) in H.
  destruct (stop_loss_date st) as [sld|] eqn:Hsld.
  - destruct (date_eqb (Series.date row) sld).
    + apply evaluate_day_preserves in H; [exact H|exact Hp|reflexivity].
    + injection H as <-. exact Hskip.
  - apply evaluate_day_preserves in H; [exact H|exact Hp|exact Hsld].
Qed.

Lemma run_days_preserves (df : dataframe) (g j : num) (s : option num)
    (M : Z) (zeta : num) (rows : dataframe) :
  forall st st',
    run_days df g j s M zeta st rows = Ok st' ->
    loop_inv st ->
    loop_inv st'.
Proof.
  induction rows as [|row rest IH]; intros st st' H Hinv; cbn [run_days] in H.
  - injection H as <-. exact Hinv.
  - destruct (day_step df g j s M zeta st row) as [st1|] eqn:E;
      cbn [bind] in H; [|discriminate H].
    apply (IH st1 st' H).
    apply (day_step_preserves _ _ _ _ _ _ _ _ _ E Hinv).
Qed.

Lemma run_days_app (df : dataframe) (g j : num) (s : option num)
    (M : Z) (zeta : num) (pre post : dataframe) :
  forall st,
    run_days df g j s M zeta st (pre ++ post)%list
    = (st1 <- run_days df g j s M zeta st pre ;;
       run_days df g j s M zeta st1 post).
Proof.
  induction pre as [|row rest IH]; intro st; cbn [run_days app bind].
  - reflexivity.
  - destruct (day_step df g j s M zeta st row); cbn [bind]; [apply IH|].
    reflexivity.
Qed.

Lemma initial_state_inv (st0 : sim_state) :
  initial_state = Ok st0 ->
  loop_inv st0 /\ trade_log st0 = [] /\ stop_loss_date st0 = None.
Proof.
  unfold initial_state. cbn. intro H. injection H as <-.
  split; [|split; reflexivity].
  split; [left; split; reflexivity|].
  cbn. intro H. discriminate H.
Qed.

(** C10.  After any number of daily iterations of [simulate], the long and
    the short Position are both closed or both open, and when open they hold
    the two instruments, one 'kxi' and the other 'xlp'. *)
Theorem pair_invariant (df : dataframe) (g j : num) (s : option num)
    (M : Z) (zeta : num) (n : nat) (st0 st : sim_state) :
  initial_state = Ok st0 ->
  run_days df g j s M zeta st0 (firstn n df) = Ok st ->
  (Position.is_open (long_pos st) = false /\
   Position.is_open (short_pos st) = false)
  \/ (Position.is_open (long_pos st) = true /\
      Position.is_open (short_pos st) = true /\
      ((Position.name (short_pos st) = "kxi" /\
        Position.name (long_pos st) = "xlp")
       \/ (Position.name (short_pos st) = "xlp" /\
           Position.name (long_pos st) = "kxi"))).
Proof.
  intros H0 Hrun.
  destruct (initial_state_inv _ H0) as [Hinv0 _].
  destruct (run_days_preserves _ _ _ _ _ _ _ _ _ Hrun Hinv0) as [Hp _].
  destruct Hp as [Hc | (Hl & Hs & Hpair)]; [left; exact Hc|].
  right. split; [exact Hl|]. split; [exact Hs|].
  unfold is_spread_pair in Hpair.
  apply orb_prop in Hpair.
  destruct Hpair as [H | H]; apply andb_prop in H; destruct H as [Ha Hb];
    apply String.eqb_eq in Ha; apply String.eqb_eq in Hb; auto.
Qed.

Lemma pair_invariant_witness :
  exists st,
    run_days ex_df ex_g ex_j ex_s 1 (Fin 0) ex_state0 (firstn 3 ex_df) = Ok st
    /\ ((Position.is_open (long_pos st) = false /\
         Position.is_open (short_pos st) = false)
        \/ (Position.is_open (long_pos st) = true /\
            Position.is_open (short_pos st) = true /\
            ((Position.name (short_pos st) = "kxi" /\
              Position.name (long_pos st) = "xlp")
             \/ (Position.name (short_pos st) = "xlp" /\
                 Position.name (long_pos st) = "kxi")))).
Proof.
  eexists. split.
  - vm_compute. reflexivity.
  - apply (pair_invariant ex_df ex_g ex_j ex_s 1 (Fin 0) 3 ex_state0).
    + reflexivity.
    + vm_compute. reflexivity.
Defined.

Lemma run_days_last_date (df : dataframe) (g j : num) (s : option num)
    (M : Z) (zeta : num) (pre : dataframe) (lastrow : Series.row)
    (st st' : sim_state) :
  run_days df g j s M zeta st (pre ++ [lastrow])%list = Ok st' ->
  loop_inv st ->
  date st' = Some (Series.date lastrow).
Proof.
  rewrite run_days_app. intros H Hinv.
  destruct (run_days df g j s M zeta st pre) as [st1|] eqn:E1;
    cbn [bind] in H; [|discriminate H].
  pose proof (run_days_preserves _ _ _ _ _ _ _ _ _ E1 Hinv) as Hinv1.
  cbn [run_days] in H.
  destruct (day_step df g j s M zeta st1 lastrow) as [st2|] eqn:E2;
    cbn [bind] in H; [|discriminate H].
  injection H as <-.
  apply (day_step_preserves _ _ _ _ _ _ _ _ _ E2 Hinv1).
Qed.

(** C7.  After the last day, if a pair is still open [simulate] appends
    exactly one more row, a CLOSE dated on the last day of the series with
    reason "Standard", and both positions end closed; if no pair is open, no
    row is added. *)
Theorem end_of_series_close (df : dataframe) (g j : num) (s : option num)
    (M : Z) (zeta : num) (st0 st : sim_state) :
  initial_state = Ok st0 ->
  run_days df g j s M zeta st0 df = Ok st ->
  if Position.is_open (short_pos st) || Position.is_open (long_pos st)
  then
    exists pre lastrow r st',
      df = (pre ++ [lastrow])%list /\
      end_of_series zeta st = Ok st' /\
      simulate df g j s M zeta = Ok (trade_log st') /\
      trade_log st' = (trade_log st ++ [r])%list /\
      TradeLog.date r = Series.date lastrow /\
      TradeLog.position_status r = "CLOSE" /\
      TradeLog.Reason r = Some "Standard" /\
      Position.is_open (long_pos st') = false /\
      Position.is_open (short_pos st') = false
  else
    end_of_series zeta st = Ok st /\
    simulate df g j s M zeta = Ok (trade_log st).
Proof.
  intros H0 Hrun.
  destruct (initial_state_inv _ H0) as [Hinv0 _].
  pose proof (run_days_preserves _ _ _ _ _ _ _ _ _ Hrun Hinv0)
    as [Hp Hopen].
  assert (Hsim : simulate_state df g j s M zeta = end_of_series zeta st).
  { unfold simulate_state. rewrite H0. cbn [bind]. rewrite Hrun.
    reflexivity. }
  destruct (Position.is_open (short_pos st) || Position.is_open (long_pos st))
    eqn:Hany.
  - rewrite (any_open_both_open _ Hp) in Hany.
    assert (Hne : df <> []).
    { intro Hnil. rewrite Hnil in Hrun. cbn in Hrun. injection Hrun as <-.
      unfold initial_state in H0. cbn in H0. injection H0 as <-.
      discriminate Hany. }
    destruct (exists_last Hne) as (pre & lastrow & Hdf).
    assert (Hdate : date st = Some (Series.date lastrow)).
    { rewrite Hdf in Hrun at 2.
      apply (run_days_last_date _ _ _ _ _ _ _ _ _ _ Hrun Hinv0). }
    destruct Hopen as (_ & [k Hk] & [x Hx]).
    { rewrite (both_closed_open _ Hp), Hany. reflexivity. }
    destruct (do_close_succeeds zeta st (Series.date lastrow) k x
                default_reason Hany) as [st' Hclose].
    assert (Hend : end_of_series zeta st = Ok st').
    { unfold end_of_series.
      rewrite (any_open_both_open _ Hp), Hany, Hdate, Hk, Hx.
      exact Hclose. }
    destruct (do_close_ok _ _ _ _ _ _ _ Hclose)
      as (Hc & _ & _ & _ & _ & _ & _ & _ & r & Hlog & Hrd & Hrs & _ & Hrr).
    exists pre, lastrow, r, st'.
    split; [exact Hdf|]. split; [exact Hend|].
    split. { unfold simulate. rewrite Hsim, Hend. reflexivity. }
    split; [exact Hlog|]. split; [exact Hrd|]. split; [exact Hrs|].
    split; [exact Hrr|].
    unfold both_closed in Hc. apply andb_prop in Hc. destruct Hc as [Hl Hs].
    apply negb_true_iff in Hl. apply negb_true_iff in Hs. auto.
  - assert (Hend : end_of_series zeta st = Ok st).
    { unfold end_of_series. rewrite Hany. reflexivity. }
    split; [exact Hend|].
    unfold simulate. rewrite Hsim, Hend. reflexivity.
Qed.

Lemma end_of_series_close_witness :
  exists st,
    run_days ex_df ex_g (Fin 0) ex_s 1 (Fin 0) ex_state0 ex_df = Ok st /\
    if Position.is_open (short_pos st) || Position.is_open (long_pos st)
    then
      exists pre lastrow r st',
        ex_df = (pre ++ [lastrow])%list /\
        end_of_series (Fin 0) st = Ok st' /\
        simulate ex_df ex_g (Fin 0) ex_s 1 (Fin 0) = Ok (trade_log st') /\
        trade_log st' = (trade_log st ++ [r])%list /\
        TradeLog.date r = Series.date lastrow /\
        TradeLog.position_status r = "CLOSE" /\
        TradeLog.Reason r = Some "Standard" /\
        Position.is_open (long_pos st') = false /\
        Position.is_open (short_pos st') = false
    else
      end_of_series (Fin 0) st = Ok st /\
      simulate ex_df ex_g (Fin 0) ex_s 1 (Fin 0) = Ok (trade_log st).
Proof.
  eexists. split.
  - vm_compute. reflexivity.
  - apply (end_of_series_close ex_df ex_g (Fin 0) ex_s 1 (Fin 0) ex_state0).
    + reflexivity.
    + vm_compute. reflexivity.
Defined.

(** ** Cool-down *)

Lemma date_eqb_eq (a b : isodate) : date_eqb a b = true <-> a = b.
Proof.
  unfold date_eqb. destruct a as [y1 m1 d1], b as [y2 m2 d2]. cbn.
  rewrite !andb_true_iff, !Z.eqb_eq. split.
  - intros [[-> ->] ->]. reflexivity.
  - intro H. injection H as -> -> ->. auto.
Qed.

Lemma date_eqb_refl (a : isodate) : date_eqb a a = true.
Proof. apply date_eqb_eq. reflexivity. Qed.

Lemma date_eqb_neq (a b : isodate) : a <> b -> date_eqb a b = false.
Proof.
  intro H. destruct (date_eqb a b) eqn:E; [|reflexivity].
  apply date_eqb_eq in E. contradiction.
Qed.

Lemma days_in_month_pos (y m : Z) : 28 <= days_in_month y m.
Proof.
  unfold days_in_month.
  destruct (m =? 2)%Z; [destruct (is_leap y); lia|].
  destruct ((m =? 4) || (m =? 6) || (m =? 9) || (m =? 11))%Z; lia.
Qed.

(** One month after a date of the calendar: the next month (January of the
    next year after December), the day clipped to the length of that month. *)
Lemma one_month_later_ok (d : isodate) :
  valid_date d = true ->
  year d < 9999 ->
  one_month_later d
  = Ok (mkdate (if (month d =? 12)%Z then year d + 1 else year d)
               (if (month d =? 12)%Z then 1 else month d + 1)
               (Z.min (days_in_month
                         (if (month d =? 12)%Z then year d + 1 else year d)
                         (if (month d =? 12)%Z then 1 else month d + 1))
                      (day d))).
Proof.
  intros Hv Hy. unfold one_month_later, strptime. rewrite Hv. cbn [bind].
  unfold valid_date in Hv. rewrite !andb_true_iff, !Z.leb_le in Hv.
  destruct Hv as [[[[[Hy1 Hy2] Hm1] Hm2] Hd1] Hd2].
  unfold add_relativedelta_month.
  destruct (month d =? 12)%Z eqn:E.
  - apply Z.eqb_eq in E. rewrite E.
    change (12 <? 12 + 1)%Z with true. cbn iota.
    replace (9999 <? year d + 1)%Z with false
      by (symmetry; apply Z.ltb_ge; lia).
    reflexivity.
  - apply Z.eqb_neq in E.
    replace (12 <? month d + 1)%Z with false
      by (symmetry; apply Z.ltb_ge; lia).
    replace (9999 <? year d)%Z with false
      by (symmetry; apply Z.ltb_ge; lia).
    reflexivity.
Qed.

(** The cool-down of a trading day ends on a trading day. *)
Lemma one_month_later_in_period (d e : isodate) :
  date_ltb d trade_period_start = false ->
  one_month_later d = Ok e ->
  date_ltb e trade_period_start = false.
Proof.
  unfold one_month_later, strptime.
  destruct (valid_date d) eqn:Hv; cbn [bind]; [|discriminate].
  unfold valid_date in Hv. rewrite !andb_true_iff, !Z.leb_le in Hv.
  destruct Hv as [[[[[Hy1 Hy2] Hm1] Hm2] Hd1] Hd2].
  unfold add_relativedelta_month.
  intros Hd He.
  destruct (12 <? month d + 1)%Z eqn:E12;
    destruct (9999 <? _)%Z eqn:E99 in He; try discriminate He;
    injection He as <-.
  - apply Z.ltb_lt in E12.
    unfold date_ltb, trade_period_start in *. cbn [year month day] in *.
    rewrite !orb_false_iff, !andb_false_iff, !orb_false_iff,
      !andb_false_iff, ?Z.ltb_ge, ?Z.eqb_neq in *.
    lia.
  - apply Z.ltb_ge in E12.
    pose proof (days_in_month_pos (year d) (month d + 1)) as Hdim.
    unfold date_ltb, trade_period_start in *. cbn [year month day] in *.
    rewrite !orb_false_iff, !andb_false_iff, !orb_false_iff,
      !andb_false_iff, ?Z.ltb_ge, ?Z.eqb_neq in *.
    lia.
Qed.

(** In cool-down, a day whose date is not the end date changes nothing but
    the loop variable [date]. *)
Lemma cool_down_skip (df : dataframe) (g j : num) (s : option num)
    (M : Z) (zeta : num) (st : sim_state) (row : Series.row) (e : isodate) :
  stop_loss_date st = Some e ->
  Series.date row <> e ->
  day_step df g j s M zeta st row = Ok (with_date st (Series.date row)).
Proof.
  intros Hsld Hne. unfold day_step. cbv zeta.
  destruct (date_ltb (Series.date row) trade_period_start); [reflexivity|].
  change (stop_loss_date (with_date st (Series.date row)))
    with (stop_loss_date st).
  rewrite Hsld, (date_eqb_neq _ _ Hne). reflexivity.
Qed.

Lemma cool_down_skip_days (df : dataframe) (g j : num) (s : option num)
    (M : Z) (zeta : num) (e : isodate) (rows : dataframe) :
  Forall (fun r => Series.date r <> e) rows ->
  forall st,
    stop_loss_date st = Some e ->
    exists st',
      run_days df g j s M zeta st rows = Ok st' /\
      trade_log st' = trade_log st /\
      stop_loss_date st' = Some e /\
      long_pos st' = long_pos st /\
      short_pos st' = short_pos st.
Proof.
  induction 1 as [|row rest Hrow _ IH]; intros st Hsld; cbn [run_days].
  - exists st. auto.
  - rewrite (cool_down_skip df g j s M zeta st row e Hsld Hrow). cbn [bind].
    destruct (IH (with_date st (Series.date row)) Hsld)
      as (st' & Hrun & Hlog & Hs & Hl & Hsh).
    exists st'. auto.
Qed.

(** C2.  When the stop-loss check triggers on a day [d] with both legs open,
    the engine sets the cool-down end date to one calendar month after [d],
    appends exactly one CLOSE row dated [d] with reason "STOP LOSS" and does
    nothing else that day.  On the following days no row is appended as long
    as the date is not the end date; on the day whose date is the end date the
    cool-down is cleared and the day is evaluated as a normal day. *)
Theorem stop_loss_cool_down (df : dataframe) (g j : num) (s : option num)
    (M : Z) (zeta : num) (st : sim_state) (row : Series.row)
    (pnl_res : bool * num) :
  let d := Series.date row in
  let e :=
    mkdate (if (month d =? 12)%Z then year d + 1 else year d)
           (if (month d =? 12)%Z then 1 else month d + 1)
           (Z.min (days_in_month
                     (if (month d =? 12)%Z then year d + 1 else year d)
                     (if (month d =? 12)%Z then 1 else month d + 1))
                  (day d)) in
  date_ltb d trade_period_start = false ->
  stop_loss_date st = None ->
  both_open st = true ->
  get_pnls (short_pos st) (long_pos st) (Series.KXI_adj_close row)
    (Series.XLP_adj_close row) zeta s = Ok pnl_res ->
  stop_loss_hit pnl_res = true ->
  valid_date d = true ->
  year d < 9999 ->
  exists st1 r,
    one_month_later d = Ok e /\
    day_step df g j s M zeta st row = Ok st1 /\
    stop_loss_date st1 = Some e /\
    trade_log st1 = (trade_log st ++ [r])%list /\
    TradeLog.date r = d /\
    TradeLog.position_status r = "CLOSE" /\
    TradeLog.Reason r = Some "STOP LOSS" /\
    both_closed st1 = true /\
    (forall rows,
        Forall (fun r' => Series.date r' <> e) rows ->
        exists st2,
          run_days df g j s M zeta st1 rows = Ok st2 /\
          trade_log st2 = trade_log st1 /\
          stop_loss_date st2 = Some e /\
          both_closed st2 = true) /\
    (forall st2 row',
        stop_loss_date st2 = Some e ->
        Series.date row' = e ->
        day_step df g j s M zeta st2 row'
        = day_step df g j s M zeta (with_stop_loss_date st2 None) row' /\
        day_step df g j s M zeta st2 row'
        = evaluate_day df g j s M zeta
            (with_stop_loss_date (with_date st2 e) None) row' e).
Proof.
  intros d e Hd Hsld Hopen Hpnl Hhit Hv Hy.
  pose proof (one_month_later_ok d Hv Hy) as He. fold e in He.
  set (st0 := with_stop_loss_date
                (with_prices (with_date st d) (Series.KXI_adj_close row)
                   (Series.XLP_adj_close row)) (Some e)).
  assert (Hopen0 : both_open st0 = true) by exact Hopen.
  destruct (do_close_succeeds zeta st0 d (Series.KXI_adj_close row)
              (Series.XLP_adj_close row) "STOP LOSS" Hopen0) as [st1 Hclose].
  destruct (do_close_ok _ _ _ _ _ _ _ Hclose)
    as (Hc & _ & _ & _ & Hs1 & _ & _ & _ & r & Hlog & Hrd & Hrs & _ & Hrr).
  assert (Hstep : day_step df g j s M zeta st row = Ok st1).
  { unfold day_step. fold d. cbv zeta. rewrite Hd.
    change (stop_loss_date (with_date st d)) with (stop_loss_date st).
    rewrite Hsld. unfold evaluate_day. cbv zeta.
    change (both_open (with_prices (with_date st d)
                         (Series.KXI_adj_close row)
                         (Series.XLP_adj_close row)))
      with (both_open st).
    rewrite Hopen.
    change (short_pos (with_prices (with_date st d)
                         (Series.KXI_adj_close row)
                         (Series.XLP_adj_close row)))
      with (short_pos st).
    change (long_pos (with_prices (with_date st d)
                        (Series.KXI_adj_close row)
                        (Series.XLP_adj_close row)))
      with (long_pos st).
    rewrite Hpnl. cbn [bind].
    unfold stop_loss_hit in Hhit. rewrite Hhit.
    rewrite He. cbn [bind]. exact Hclose. }
  exists st1, r.
  split; [exact He|]. split; [exact Hstep|].
  split; [rewrite Hs1; reflexivity|].
  split; [exact Hlog|]. split; [exact Hrd|]. split; [exact Hrs|].
  split; [exact Hrr|]. split; [exact Hc|].
  split.
  - intros rows Hrows.
    destruct (cool_down_skip_days df g j s M zeta e rows Hrows st1)
      as (st2 & Hrun & Hl2 & Hs2 & Hlp & Hsp).
    { rewrite Hs1. reflexivity. }
    exists st2. split; [exact Hrun|]. split; [exact Hl2|].
    split; [exact Hs2|].
    unfold both_closed in *. rewrite Hlp, Hsp. exact Hc.
  - intros st2 row' Hs2 Hrow'.
    pose proof (one_month_later_in_period d e Hd He) as Hper.
    unfold day_step. rewrite Hrow'. cbv zeta. rewrite Hper.
    change (stop_loss_date (with_date st2 e)) with (stop_loss_date st2).
    rewrite Hs2, date_eqb_refl.
    split; reflexivity.
Qed.

Lemma stop_loss_cool_down_witness :
  let d := Series.date ex_loss_row in
  let e := mkdate 2022 2 28 in
  exists st1 r,
    one_month_later d = Ok e /\
    day_step ex_df ex_g ex_j ex_s 1 (Fin 0) ex_open_state ex_loss_row
      = Ok st1 /\
    stop_loss_date st1 = Some e /\
    trade_log st1 = (trade_log ex_open_state ++ [r])%list /\
    TradeLog.date r = d /\
    TradeLog.position_status r = "CLOSE" /\
    TradeLog.Reason r = Some "STOP LOSS" /\
    both_closed st1 = true /\
    (forall rows,
        Forall (fun r' => Series.date r' <> e) rows ->
        exists st2,
          run_days ex_df ex_g ex_j ex_s 1 (Fin 0) st1 rows = Ok st2 /\
          trade_log st2 = trade_log st1 /\
          stop_loss_date st2 = Some e /\
          both_closed st2 = true) /\
    (forall st2 row',
        stop_loss_date st2 = Some e ->
        Series.date row' = e ->
        day_step ex_df ex_g ex_j ex_s 1 (Fin 0) st2 row'
        = day_step ex_df ex_g ex_j ex_s 1 (Fin 0)
            (with_stop_loss_date st2 None) row' /\
        day_step ex_df ex_g ex_j ex_s 1 (Fin 0) st2 row'
        = evaluate_day ex_df ex_g ex_j ex_s 1 (Fin 0)
            (with_stop_loss_date (with_date st2 e) None) row' e).
Proof.
  apply (stop_loss_cool_down ex_df ex_g ex_j ex_s 1 (Fin 0) ex_open_state
           ex_loss_row (false, of_Z 0)).
  - reflexivity.
  - reflexivity.
  - reflexivity.
  - vm_compute. reflexivity.
  - reflexivity.
  - reflexivity.
  - cbn. lia.
Defined.

(** ** Entry, hold and flip *)

Lemma abs_gt_not_gt (z g : num) :
  ngtb (nabs z) g = true -> ngtb z g = false -> nltb z (nopp g) = true.
Proof.
  unfold ngtb.
  destruct z as [| | |q], g as [| | |gq]; cbn [nabs nopp];
    try (cbn; congruence).
  intros Habs Hgt.
  apply nltb_Fin in Habs. apply nltb_Fin_false in Hgt. apply nltb_Fin.
  destruct (Qlt_le_dec q 0) as [Hq | Hq].
  - rewrite Qabs_neg in Habs by lra. lra.
  - rewrite Qabs_pos in Habs by lra. lra.
Qed.

Lemma sign_decides_direction (z g : num) :
  nltb g (of_Z 0) = false ->
  ngtb (nabs z) g = true ->
  desired_direction g z = if ngtb z (of_Z 0) then "short" else "long".
Proof.
  unfold desired_direction, ngtb, of_Z.
  change (inject_Z 0) with 0%Q.
  destruct z as [| | |q], g as [| | |gq]; cbn [nabs];
    try (cbn; congruence).
  intros Hg Habs.
  apply nltb_Fin_false in Hg. apply nltb_Fin in Habs.
  destruct (nltb (Fin gq) (Fin q)) eqn:E1, (nltb (Fin 0) (Fin q)) eqn:E2;
    try reflexivity; exfalso.
  - apply nltb_Fin in E1. apply nltb_Fin_false in E2. lra.
  - apply nltb_Fin_false in E1. apply nltb_Fin in E2.
    rewrite Qabs_pos in Habs by lra. lra.
Qed.

(** On a trading day outside cool-down, without a stop loss, the day is the
    entry / exit decision on the state holding the prices of the day. *)
Lemma day_step_reaches_signal (df : dataframe) (g j : num) (s : option num)
    (M : Z) (zeta : num) (st : sim_state) (row : Series.row)
    (pnl_res : bool * num) :
  date_ltb (Series.date row) trade_period_start = false ->
  stop_loss_date st = None ->
  both_open st = true ->
  get_pnls (short_pos st) (long_pos st) (Series.KXI_adj_close row)
    (Series.XLP_adj_close row) zeta s = Ok pnl_res ->
  stop_loss_hit pnl_res = false ->
  day_step df g j s M zeta st row
  = signal_step df g j M zeta
      (with_prices (with_date st (Series.date row))
         (Series.KXI_adj_close row) (Series.XLP_adj_close row))
      row (Series.date row) (Series.KXI_adj_close row)
      (Series.XLP_adj_close row) (fl (ndiv (Series.N_t row) (of_Z 100))).
Proof.
  intros Hd Hsld Hopen Hpnl Hhit.
  unfold day_step. cbv zeta. rewrite Hd.
  change (stop_loss_date (with_date st (Series.date row)))
    with (stop_loss_date st).
  rewrite Hsld. unfold evaluate_day. cbv zeta.
  change (both_open (with_prices (with_date st (Series.date row))
                       (Series.KXI_adj_close row)
                       (Series.XLP_adj_close row)))
    with (both_open st).
  rewrite Hopen.
  change (short_pos (with_prices (with_date st (Series.date row))
                       (Series.KXI_adj_close row)
                       (Series.XLP_adj_close row)))
    with (short_pos st).
  change (long_pos (with_prices (with_date st (Series.date row))
                      (Series.KXI_adj_close row)
                      (Series.XLP_adj_close row)))
    with (long_pos st).
  rewrite Hpnl. cbn [bind].
  unfold stop_loss_hit in Hhit. apply negb_false_iff in Hhit.
  rewrite Hhit. reflexivity.
Qed.

Lemma spread_pair_names (sp lp : Position.t) :
  is_spread_pair sp lp = true ->
  ((Position.name sp =? "kxi") = true /\ (Position.name lp =? "kxi") = false)
  \/ ((Position.name sp =? "kxi") = false
      /\ (Position.name lp =? "kxi") = true).
Proof.
  unfold is_spread_pair. intro H. apply orb_prop in H.
  destruct H as [H | H]; apply andb_prop in H; destruct H as [Ha Hb];
    apply String.eqb_eq in Ha; apply String.eqb_eq in Hb;
    rewrite Ha, Hb; [left | right]; split; reflexivity.
Qed.

(** Closing an open pair and opening the other direction at the same prices
    adds a CLOSE row and then an OPEN row, when the two cleared legs can be
    opened. *)
Lemma flip_ok (zeta : num) (st : sim_state) (d : isodate) (k x cash : num)
    (ty : string) (lp' sp' : Position.t) :
  both_open st = true ->
  ty = "long" \/ ty = "short" ->
  Position.open (Position.cleared (long_pos st)) (long_leg_name ty) d cash
    (instrument_price (long_leg_name ty) k x) = Ok lp' ->
  Position.open (Position.cleared (short_pos st)) (short_leg_name ty) d cash
    (instrument_price (short_leg_name ty) k x) = Ok sp' ->
  exists st' c o,
    (st2 <- do_close zeta st d k x default_reason ;;
     do_open st2 d k x cash ty) = Ok st' /\
    trade_log st' = (trade_log st ++ [c; o])%list /\
    TradeLog.date c = d /\
    TradeLog.position_status c = "CLOSE" /\
    TradeLog.position_type c = current_direction st /\
    TradeLog.Reason c = Some "Standard" /\
    TradeLog.date o = d /\
    TradeLog.position_status o = "OPEN" /\
    TradeLog.position_type o = ty /\
    TradeLog.kxi_price o = k /\
    TradeLog.xlp_price o = x /\
    TradeLog.Reason o = None /\
    long_pos st' = lp' /\
    short_pos st' = sp' /\
    both_open st' = true /\
    current_direction st' = ty.
Proof.
  intros Hopen Hty Hlo Hso.
  destruct (do_close_succeeds zeta st d k x default_reason Hopen)
    as [st2 Hclose].
  destruct (do_close_ok _ _ _ _ _ _ _ Hclose)
    as (_ & Hl2 & Hs2 & _ & _ & _ & _ & _ & c & Hlog & Hcd & Hcs & Hct & Hcr).
  rewrite <- Hl2 in Hlo. rewrite <- Hs2 in Hso.
  pose proof (open_positions_legs (trade_log st2) _ _ _ _ k x cash d ty
                Hty Hlo Hso) as Hop.
  assert (Hdo : do_open st2 d k x cash ty
                = Ok (with_pair st2
                        ((trade_log st2
                          ++ [TradeLog.mk d "OPEN" ty (nmul cash (of_Z 2)) NaN
                                k (Position.amount
                                     (if ty =? "long" then lp' else sp'))
                                x (Position.amount
                                     (if ty =? "long" then sp' else lp'))
                                None])%list, sp', lp'))).
  { unfold do_open. rewrite Hop. reflexivity. }
  destruct (do_open_ok _ _ _ _ _ _ _ Hdo) as (Ho & _ & Hdir & _).
  eexists; exists c; eexists.
  split. { rewrite Hclose. cbn [bind]. exact Hdo. }
  cbn [with_pair trade_log long_pos short_pos] in *.
  split. { rewrite Hlog, <- app_assoc. reflexivity. }
  repeat (split; [first [assumption | reflexivity]|]).
  first [assumption | reflexivity].
Qed.

(** C3, as amended.  On a day that reaches the entry decision -- a day of the
    trading period, outside cool-down, whose stop-loss check does not
    trigger -- with |z| > g and a pair open: if the pair is in the desired
    direction nothing is appended and both positions are unchanged; if it is
    in the opposite direction and both legs can be opened at the prices of
    that day, exactly two rows are appended, a CLOSE with reason "Standard"
    and then an OPEN in the desired direction at those prices.  The desired
    direction is short-spread when z > g and long-spread otherwise, which for
    g >= 0 is the sign of z. *)
Theorem hold_or_flip (df : dataframe) (g j : num) (s : option num)
    (M : Z) (zeta : num) (st : sim_state) (row : Series.row)
    (pnl_res : bool * num) (rets : num * num) :
  let d := Series.date row in
  let k := Series.KXI_adj_close row in
  let x := Series.XLP_adj_close row in
  let cash := fl (ndiv (Series.N_t row) (of_Z 100)) in
  let z := nsub (fst rets) (snd rets) in
  let desired := desired_direction g z in
  date_ltb d trade_period_start = false ->
  stop_loss_date st = None ->
  both_open st = true ->
  is_spread_pair (short_pos st) (long_pos st) = true ->
  get_pnls (short_pos st) (long_pos st) k x zeta s = Ok pnl_res ->
  stop_loss_hit pnl_res = false ->
  get_mday_returns df row M = Ok rets ->
  ngtb (nabs z) g = true ->
  (current_direction st = desired ->
   exists st',
     day_step df g j s M zeta st row = Ok st' /\
     trade_log st' = trade_log st /\
     long_pos st' = long_pos st /\
     short_pos st' = short_pos st) /\
  (current_direction st <> desired ->
   forall lp' sp',
     Position.open (Position.cleared (long_pos st)) (long_leg_name desired)
       d cash (instrument_price (long_leg_name desired) k x) = Ok lp' ->
     Position.open (Position.cleared (short_pos st)) (short_leg_name desired)
       d cash (instrument_price (short_leg_name desired) k x) = Ok sp' ->
     exists st' c o,
       day_step df g j s M zeta st row = Ok st' /\
       trade_log st' = (trade_log st ++ [c; o])%list /\
       TradeLog.date c = d /\
       TradeLog.position_status c = "CLOSE" /\
       TradeLog.position_type c = current_direction st /\
       TradeLog.Reason c = Some "Standard" /\
       TradeLog.date o = d /\
       TradeLog.position_status o = "OPEN" /\
       TradeLog.position_type o = desired /\
       TradeLog.kxi_price o = k /\
       TradeLog.xlp_price o = x /\
       TradeLog.Reason o = None /\
       long_pos st' = lp' /\
       short_pos st' = sp' /\
       both_open st' = true /\
       current_direction st' = desired) /\
  (nltb g (of_Z 0) = false ->
   desired = if ngtb z (of_Z 0) then "short" else "long").
Proof.
  intros d k x cash z desired Hd Hsld Hopen Hpair Hpnl Hhit Hrets Habs.
  rewrite (day_step_reaches_signal df g j s M zeta st row pnl_res
             Hd Hsld Hopen Hpnl Hhit).
  fold d k x cash.
  set (st1 := with_prices (with_date st d) k x).
  assert (Hopen1 : both_open st1 = true) by exact Hopen.
  assert (Hclosed1 : both_closed st1 = false).
  { unfold both_open in Hopen1. apply andb_prop in Hopen1.
    destruct Hopen1 as [Hl Hs]. unfold both_closed. rewrite Hl. reflexivity. }
  unfold signal_step. rewrite Hrets. cbn [bind]. cbv zeta. fold z.
  rewrite Habs.
  change (short_pos st1) with (short_pos st).
  change (long_pos st1) with (long_pos st).
  unfold desired, desired_direction, current_direction.
  split; [|split; [|intro Hg; apply (sign_decides_direction z g Hg Habs)]].
  - (* hold *)
    intro Hdir. exists st1.
    split; [|split; [|split]]; try reflexivity.
    destruct (ngtb z g) eqn:Egt; rewrite Hclosed1.
    + destruct (Position.name (short_pos st) =? "kxi");
        [reflexivity|discriminate Hdir].
    + rewrite (abs_gt_not_gt z g Habs Egt).
      destruct (spread_pair_names _ _ Hpair) as [[Ha Hb] | [Ha Hb]];
        rewrite Ha in Hdir; rewrite Hb; [discriminate Hdir|reflexivity].
  - (* flip *)
    intros Hdir lp' sp' Hlo Hso.
    destruct (ngtb z g) eqn:Egt; rewrite Hclosed1.
    + destruct (Position.name (short_pos st) =? "kxi") eqn:Ek;
        [exfalso; apply Hdir; reflexivity|].
      cbn [String.eqb Ascii.eqb Bool.eqb].
      destruct (flip_ok zeta st1 d k x cash "short" lp' sp'
                  Hopen1 (or_intror eq_refl) Hlo Hso)
        as (st' & c & o & Hrun & Hrest).
      exists st', c, o. split; [exact Hrun|].
      unfold current_direction in Hrest.
      change (short_pos st1) with (short_pos st) in Hrest.
      rewrite Ek in Hrest. exact Hrest.
    + rewrite (abs_gt_not_gt z g Habs Egt).
      destruct (spread_pair_names _ _ Hpair) as [[Ha Hb] | [Ha Hb]];
        rewrite Ha in Hdir; rewrite Hb;
        [|exfalso; apply Hdir; reflexivity].
      cbn [String.eqb Ascii.eqb Bool.eqb].
      destruct (flip_ok zeta st1 d k x cash "long" lp' sp'
                  Hopen1 (or_introl eq_refl) Hlo Hso)
        as (st' & c & o & Hrun & Hrest).
      exists st', c, o. split; [exact Hrun|].
      unfold current_direction in Hrest.
      change (short_pos st1) with (short_pos st) in Hrest.
      exact Hrest.
Qed.

(* the open pair is short-spread; kxi fell by a quarter, so z = -0.25 asks
   for the long spread: the pair is closed and opened again, long 11 units of
   kxi and short 10 units of xlp *)
Lemma hold_or_flip_witness :
  exists lp' sp',
    Position.open (Position.cleared (long_pos ex_open_state)) "kxi"
      (mkdate 2022 1 5) (fl (ndiv (Fin 10000) (of_Z 100))) (Fin 9) = Ok lp' /\
    Position.open (Position.cleared (short_pos ex_open_state)) "xlp"
      (mkdate 2022 1 5) (fl (ndiv (Fin 10000) (of_Z 100))) (Fin 10) = Ok sp' /\
    Position.amount lp' = of_Z 11 /\
    Position.amount sp' = of_Z 10 /\
    exists st' c o,
    day_step ex_df ex_g ex_j ex_s 1 (Fin 0) ex_open_state ex_flip_row
      = Ok st' /\
    trade_log st' = (trade_log ex_open_state ++ [c; o])%list /\
    TradeLog.date c = mkdate 2022 1 5 /\
    TradeLog.position_status c = "CLOSE" /\
    TradeLog.position_type c = current_direction ex_open_state /\
    TradeLog.Reason c = Some "Standard" /\
    TradeLog.date o = mkdate 2022 1 5 /\
    TradeLog.position_status o = "OPEN" /\
    TradeLog.position_type o = "long" /\
    TradeLog.kxi_price o = Fin 9 /\
    TradeLog.xlp_price o = Fin 10 /\
    TradeLog.Reason o = None /\
    long_pos st' = lp' /\
    short_pos st' = sp' /\
    both_open st' = true /\
    current_direction st' = "long".
Proof.
  eexists; eexists.
  split; [vm_compute; reflexivity|].
  split; [vm_compute; reflexivity|].
  split; [reflexivity|]. split; [reflexivity|].
  apply (proj1 (proj2 (hold_or_flip ex_df ex_g ex_j ex_s 1 (Fin 0)
                         ex_open_state ex_flip_row (true, Fin 10)
                         ex_flip_rets eq_refl eq_refl eq_refl eq_refl
                         eq_refl eq_refl eq_refl eq_refl))).
  - intro H. discriminate H.
  - vm_compute. reflexivity.
  - vm_compute. reflexivity.
Defined.

(** C3 as stated fails on a day whose stop-loss check triggers: the pair
    opened short-spread on the 3rd is in the desired direction on the 4th
    (z > g again), yet a CLOSE row with reason "STOP LOSS" is appended and both
    legs are closed, because the stop-loss check comes before the entry
    decision. *)
Lemma hold_or_flip_counterexample :
  exists st rets st' r,
    run_days ex_df_rally ex_g ex_j ex_s 1 (Fin 0) ex_state0
      (firstn 2 ex_df_rally) = Ok st /\
    both_open st = true /\
    is_spread_pair (short_pos st) (long_pos st) = true /\
    get_mday_returns ex_df_rally ex_rally_row 1 = Ok rets /\
    ngtb (nabs (nsub (fst rets) (snd rets))) ex_g = true /\
    current_direction st
      = desired_direction ex_g (nsub (fst rets) (snd rets)) /\
    day_step ex_df_rally ex_g ex_j ex_s 1 (Fin 0) st ex_rally_row = Ok st' /\
    trade_log st' = (trade_log st ++ [r])%list /\
    TradeLog.position_status r = "CLOSE" /\
    TradeLog.Reason r = Some "STOP LOSS" /\
    both_closed st' = true.
Proof.
  eexists; eexists; eexists; eexists.
  split; [vm_compute; reflexivity|].
  split; [reflexivity|].
  split; [reflexivity|].
  split; [vm_compute; reflexivity|].
  split; [vm_compute; reflexivity|].
  split; [vm_compute; reflexivity|].
  split; [vm_compute; reflexivity|].
  split; [cbn; reflexivity|].
  split; [reflexivity|].
  split; reflexivity.
Qed.

(** ** Two runs of the whole simulation *)

(* entry on the 4th, a same-day flip on the 5th, exit on the 6th *)
Example simulate_flip_and_exit :
  events (simulate ex_df ex_g ex_j ex_s 1 (Fin 0))
  = Some [ (mkdate 2022 1 4, "OPEN", "short", None);
           (mkdate 2022 1 5, "CLOSE", "short", Some "Standard");
           (mkdate 2022 1 5, "OPEN", "long", None);
           (mkdate 2022 1 6, "CLOSE", "long", Some "Standard") ].
Proof. vm_compute. reflexivity. Qed.

(* stop loss on the 6th, the 7th skipped, evaluation resumes one month
   later, and the pair opened that day is closed at the end of the series *)
Example simulate_stop_loss_and_cool_down :
  events (simulate ex_df_stop ex_g ex_j ex_s 1 (Fin 0))
  = Some [ (mkdate 2022 1 4, "OPEN", "short", None);
           (mkdate 2022 1 5, "CLOSE", "short", Some "Standard");
           (mkdate 2022 1 5, "OPEN", "long", None);
           (mkdate 2022 1 6, "CLOSE", "long", Some "STOP LOSS");
           (mkdate 2022 2 6, "OPEN", "short", None);
           (mkdate 2022 2 6, "CLOSE", "short", Some "Standard") ].
Proof. vm_compute. reflexivity. Qed.

(** * Further properties of the code *)

(** ** Position: construction, opening, round trip *)

(** X1.  [Position('long')] and [Position('short')] give a closed position of
    direction 1 and -1 with every field cleared; any other type string is
    rejected with ValueError. *)
Theorem init_outcome (ptype : string) :
  (ptype = "long" -> Position.init ptype = Ok fresh_long) /\
  (ptype = "short" -> Position.init ptype = Ok fresh_short) /\
  (ptype <> "long" -> ptype <> "short" ->
   Position.init ptype = Raise ValueError) /\
  (forall p, Position.init ptype = Ok p ->
             Position.is_open p = false /\ (ptype = "long" \/ ptype = "short")).
Proof.
  split; [intros ->; reflexivity|].
  split; [intros ->; reflexivity|].
  split.
  - intros Hl Hs. unfold Position.init.
    apply String.eqb_neq in Hl. apply String.eqb_neq in Hs.
    rewrite Hl, Hs. reflexivity.
  - intros p. unfold Position.init.
    destruct (ptype =? "long") eqn:El.
    + apply String.eqb_eq in El. subst ptype. cbn.
      intro H; injection H as <-. auto.
    + destruct (ptype =? "short") eqn:Es; cbn; [|discriminate].
      apply String.eqb_eq in Es. subst ptype.
      intro H; injection H as <-. auto.
Qed.

Lemma init_outcome_witness :
  Position.init "bearish" = Raise ValueError.
Proof.
  apply (proj1 (proj2 (proj2 (init_outcome "bearish")))).
  - intro H. discriminate H.
  - intro H. discriminate H.
Defined.

Lemma open_zero_price (self : Position.t) (nm : string) (dt : isodate)
    (cash : num) (pq : Q) :
  Position.is_open self = false -> nm = "kxi" \/ nm = "xlp" -> pq == 0 ->
  Position.open self nm dt cash (Fin pq) = Raise ZeroDivisionError.
Proof.
  intros Hc Hnm Hz. unfold Position.open. rewrite Hc.
  apply Qzero_b_true in Hz. unfold pdiv. rewrite Hz.
  destruct Hnm as [-> | ->]; reflexivity.
Qed.

(** X2.  What makes [open] fail, in the order the code checks it: an open
    position (AssertionError, whatever the other arguments), then a name other
    than 'kxi' and 'xlp' (ValueError), then a zero price (ZeroDivisionError),
    then a nan entry cash or price (ValueError from [round]). *)
Theorem open_failure_modes (self : Position.t) (nm : string) (dt : isodate)
    (cash pr : num) :
  (Position.is_open self = true ->
   Position.open self nm dt cash pr = Raise AssertionError) /\
  (Position.is_open self = false -> nm <> "kxi" -> nm <> "xlp" ->
   Position.open self nm dt cash pr = Raise ValueError) /\
  (Position.is_open self = false -> nm = "kxi" \/ nm = "xlp" ->
   forall pq, pr = Fin pq -> pq == 0 ->
   Position.open self nm dt cash pr = Raise ZeroDivisionError) /\
  (Position.is_open self = false -> nm = "kxi" \/ nm = "xlp" ->
   (pr = NaN \/ (cash = NaN /\ exists pq, pr = Fin pq /\ ~ pq == 0)) ->
   Position.open self nm dt cash pr = Raise ValueError).
Proof.
  unfold Position.open.
  split; [intros ->; reflexivity|].
  split.
  { intros -> Hk Hx. apply String.eqb_neq in Hk. apply String.eqb_neq in Hx.
    rewrite Hk, Hx. reflexivity. }
  split.
  - intros Hc Hnm pq -> Hz. fold (Position.open self nm dt cash (Fin pq)).
    apply (open_zero_price self nm dt cash pq Hc Hnm Hz).
  - intros -> Hnm Hnan.
    assert (Hname : negb ((nm =? "kxi") || (nm =? "xlp")) = false)
      by (destruct Hnm as [-> | ->]; reflexivity).
    rewrite Hname.
    destruct Hnan as [-> | [-> (pq & -> & Hz)]].
    + destruct cash; reflexivity.
    + apply Qzero_b_false in Hz. unfold pdiv. rewrite Hz. reflexivity.
Qed.

Lemma open_failure_modes_witness :
  Position.open ex_long "kxi" ex_day (Fin 100) (Fin 10)
    = Raise AssertionError /\
  Position.open fresh_long "spy" ex_day (Fin 100) (Fin 10)
    = Raise ValueError /\
  Position.open fresh_long "kxi" ex_day (Fin 100) (Fin 0)
    = Raise ZeroDivisionError /\
  Position.open fresh_long "kxi" ex_day (Fin 100) NaN = Raise ValueError.
Proof.
  split; [|split; [|split]].
  - apply (proj1 (open_failure_modes ex_long "kxi" ex_day (Fin 100)
                    (Fin 10))).
    reflexivity.
  - apply (proj1 (proj2 (open_failure_modes fresh_long "spy" ex_day
                           (Fin 100) (Fin 10)))).
    + reflexivity.
    + intro H; discriminate H.
    + intro H; discriminate H.
  - apply (proj1 (proj2 (proj2 (open_failure_modes fresh_long "kxi" ex_day
                                  (Fin 100) (Fin 0)))) eq_refl
             (or_introl eq_refl) 0%Q eq_refl).
    reflexivity.
  - apply (proj2 (proj2 (proj2 (open_failure_modes fresh_long "kxi" ex_day
                                  (Fin 100) NaN)))).
    + reflexivity.
    + left; reflexivity.
    + left; reflexivity.
Defined.

(** X3.  [open] succeeds exactly when the position is closed, the name is
    'kxi' or 'xlp', the price is not zero and the quotient entry_cash / price
    is a finite float.  It then leaves an open position of the same direction
    with the name, date, entry cash and price given, holding that quotient
    rounded to a whole number of units. *)
Theorem open_outcome (self : Position.t) (nm : string) (dt : isodate)
    (cash pr : num) :
  ((exists pos, Position.open self nm dt cash pr = Ok pos) <->
   Position.is_open self = false /\ (nm = "kxi" \/ nm = "xlp") /\
   exists v, pdiv cash pr = Ok (Fin v))
  /\
  (forall pos,
      Position.open self nm dt cash pr = Ok pos ->
      Position.is_open pos = true /\
      Position.type pos = Position.type self /\
      Position.name pos = nm /\
      Position.date pos = Some dt /\
      Position.entry_cash pos = cash /\
      Position.price pos = pr /\
      exists v, pdiv cash pr = Ok (Fin v) /\
                Position.amount pos = of_Z (round_half_even v)).
Proof.
  assert (Hfwd : forall pos,
             Position.open self nm dt cash pr = Ok pos ->
             Position.is_open self = false /\ (nm = "kxi" \/ nm = "xlp") /\
             exists v, pdiv cash pr = Ok (Fin v) /\
                       pos = Position.mk (Position.type self) nm (Some dt)
                               cash pr (of_Z (round_half_even v))).
  { intros pos H.
    destruct (open_inv _ _ _ _ _ _ H) as (Hc & Hnm & q & units & Hq & Hr & Hp).
    split; [exact Hc|]. split; [exact Hnm|].
    destruct q as [| | |v]; try discriminate Hr.
    injection Hr as <-. exists v. split; [exact Hq|exact Hp]. }
  split.
  - split.
    + intros [pos H]. destruct (Hfwd pos H) as (Hc & Hnm & v & Hq & _).
      eauto.
    + intros (Hc & Hnm & v & Hq). eexists.
      apply (open_intro self nm dt cash pr (Fin v) (round_half_even v)
               Hc Hnm Hq).
      reflexivity.
  - intros pos H. destruct (Hfwd pos H) as (_ & Hnm & v & Hq & ->).
    cbn. destruct Hnm as [-> | ->]; repeat split; eauto.
Qed.

Lemma open_outcome_witness :
  exists pos,
    Position.open fresh_short "xlp" ex_day (Fin 100) (Fin 7) = Ok pos.
Proof.
  apply (proj2 (proj1 (open_outcome fresh_short "xlp" ex_day (Fin 100)
                         (Fin 7)))).
  split; [reflexivity|]. split; [right; reflexivity|].
  eexists. vm_compute. reflexivity.
Defined.

(* a quotient beyond the largest float: round(inf) raises *)
Example open_overflow :
  Position.open fresh_long "kxi" ex_day (Fin (inject_Z (10 ^ 308)))
    (Fin (1 # 10 ^ 10)) = Raise OverflowError.
Proof. vm_compute. reflexivity. Qed.

Lemma open_keeps_type (self pos : Position.t) (nm : string) (dt : isodate)
    (cash pr : num) :
  Position.open self nm dt cash pr = Ok pos ->
  Position.type pos = Position.type self.
Proof.
  unfold Position.open.
  destruct (Position.is_open self); [discriminate|].
  destruct (negb ((nm =? "kxi") || (nm =? "xlp"))); [discriminate|].
  destruct (pdiv cash pr) as [q|]; cbn [bind]; [|discriminate].
  destruct (py_round q); cbn [bind]; [|discriminate].
  intro H; injection H as <-. reflexivity.
Qed.

Lemma close_result_cleared (q p : Position.t) (pr pnl : num) :
  Position.close q pr = Ok (pnl, p) -> p = Position.cleared q.
Proof.
  unfold Position.close.
  destruct (negb (Position.is_open q)); [discriminate|].
  cbn. intro H; injection H as _ <-. reflexivity.
Qed.

(** X4.  Open and close are inverse on the state: a position that is fresh
    from the constructor, or that was just closed, is after [open] followed by
    [close] exactly the position it was; the close returns the P&L at the
    closing price. *)
Theorem open_close_round_trip (self pos : Position.t) (nm : string)
    (dt : isodate) (cash pr pr' : num) :
  (exists ptype, Position.init ptype = Ok self)
  \/ (exists q pr0 pnl0, Position.close q pr0 = Ok (pnl0, self)) ->
  Position.open self nm dt cash pr = Ok pos ->
  exists pnl,
    Position.get_pnl pos pr' = Ok pnl /\
    Position.close pos pr' = Ok (pnl, self).
Proof.
  intros Hfresh Hopen.
  assert (Hself : self = Position.cleared self).
  { destruct Hfresh as [[ptype Hi] | (q & pr0 & pnl0 & Hc)].
    - destruct (init_inv _ _ Hi) as [_ Hp]. rewrite Hp at 1. reflexivity.
    - rewrite (close_result_cleared _ _ _ _ Hc). reflexivity. }
  destruct (open_is_open _ _ _ _ _ _ Hopen) as (Ho & _).
  destruct (close_open_leg pos pr' Ho) as (pnl & Hpnl & Hclose).
  exists pnl. split; [exact Hpnl|].
  rewrite Hclose, Hself. unfold Position.cleared.
  rewrite (open_keeps_type _ _ _ _ _ _ Hopen). reflexivity.
Qed.

Lemma open_close_round_trip_witness :
  exists pnl,
    Position.get_pnl ex_long (Fin 12) = Ok pnl /\
    Position.close ex_long (Fin 12) = Ok (pnl, fresh_long).
Proof.
  apply (open_close_round_trip fresh_long ex_long "xlp" ex_day (Fin 100)
           (Fin 10) (Fin 12)).
  - left. exists "long". reflexivity.
  - reflexivity.
Defined.

(** X5.  The P&L of a position that holds a non-negative whole number of
    units is monotone in the price: at a higher price a long position's P&L
    is never lower and a short position's never higher. *)
Theorem pnl_monotone_in_price (pos : Position.t) (units : Z) (c p1 p2 : Q)
    (a b : num) :
  Position.amount pos = of_Z units ->
  0 <= units ->
  Position.entry_cash pos = Fin c ->
  (p1 <= p2)%Q ->
  Position.get_pnl pos (Fin p1) = Ok a ->
  Position.get_pnl pos (Fin p2) = Ok b ->
  (Position.type pos = 1 -> nltb b a = false) /\
  (Position.type pos = -1 -> nltb a b = false).
Proof.
  intros Hamt Hunits Hc Hp Ha Hb.
  unfold Position.get_pnl in Ha, Hb. rewrite Hamt, Hc in Ha, Hb.
  injection Ha as <-. injection Hb as <-.
  assert (Hu : (0 <= inject_Z units)%Q)
    by (change 0%Q with (inject_Z 0); rewrite <- Zle_Qle; exact Hunits).
  assert (Hmove : (0 <= inject_Z units * (p2 - p1))%Q)
    by (apply Qmult_le_0_compat; lra).
  split; intros ->; cbn [of_Z nmul nsub nadd nopp]; apply nltb_Fin_false.
  - change (inject_Z 1) with 1%Q. lra.
  - change (inject_Z (-1)) with (-1 # 1)%Q. lra.
Qed.

Lemma pnl_monotone_in_price_witness :
  nltb (Fin (-50)) (Fin 10) = true /\
  Position.get_pnl ex_short (Fin 9) = Ok (Fin 10) /\
  Position.get_pnl ex_short (Fin 15) = Ok (Fin (-50)) /\
  nltb (Fin 10) (Fin (-50)) = false.
Proof.
  split; [reflexivity|].
  assert (Ha : Position.get_pnl ex_short (Fin 9) = Ok (Fin 10))
    by (vm_compute; reflexivity).
  assert (Hb : Position.get_pnl ex_short (Fin 15) = Ok (Fin (-50)))
    by (vm_compute; reflexivity).
  split; [exact Ha|]. split; [exact Hb|].
  assert (Hu : 0 <= 10) by lia.
  assert (Hp : (9 <= 15)%Q) by discriminate.
  apply (proj2 (pnl_monotone_in_price ex_short 10 100 9 15 (Fin 10)
                  (Fin (-50)) eq_refl Hu eq_refl Hp Ha Hb)).
  reflexivity.
Defined.

(** ** Opening and closing a pair *)

(** What a successful [open_positions] has done. *)
Lemma open_positions_inv (log log' : trade_log_t) (sp lp sp' lp' : Position.t)
    (k x cash : num) (dt : isodate) (ty : string) :
  open_positions log sp lp k x dt cash ty = Ok (log', sp', lp') ->
  (ty = "long" \/ ty = "short") /\
  Position.open lp (long_leg_name ty) dt cash
    (instrument_price (long_leg_name ty) k x) = Ok lp' /\
  Position.open sp (short_leg_name ty) dt cash
    (instrument_price (short_leg_name ty) k x) = Ok sp'.
Proof.
  unfold open_positions.
  destruct (ty =? "short") eqn:Es.
  - apply String.eqb_eq in Es. subst ty.
    cbn [long_leg_name short_leg_name instrument_price
         String.eqb Ascii.eqb Bool.eqb orb negb].
    destruct (Position.open lp "xlp" dt cash x) as [l|]; cbn [bind];
      [|discriminate].
    destruct (Position.open sp "kxi" dt cash k) as [s0|]; cbn [bind];
      [|discriminate].
    intro H; injection H as _ <- <-. auto.
  - destruct (ty =? "long") eqn:El; cbn [orb negb]; [|discriminate].
    apply String.eqb_eq in El. subst ty.
    cbn [long_leg_name short_leg_name instrument_price
         String.eqb Ascii.eqb Bool.eqb].
    destruct (Position.open lp "kxi" dt cash k) as [l|]; cbn [bind];
      [|discriminate].
    destruct (Position.open sp "xlp" dt cash x) as [s0|]; cbn [bind];
      [|discriminate].
    intro H; injection H as _ <- <-. auto.
Qed.

(** X6.  [open_positions] rejects a direction other than 'short' and 'long'
    with ValueError before it touches a position, and raises AssertionError
    when the long leg is open, or when the short leg is open and the long leg
    has been opened. *)
Theorem open_positions_failure_modes (log : trade_log_t)
    (sp lp : Position.t) (k x cash : num) (dt : isodate) (ty : string) :
  (ty <> "short" -> ty <> "long" ->
   open_positions log sp lp k x dt cash ty = Raise ValueError) /\
  (ty = "short" \/ ty = "long" ->
   Position.is_open lp = true ->
   open_positions log sp lp k x dt cash ty = Raise AssertionError) /\
  (ty = "short" \/ ty = "long" ->
   forall lp',
     Position.open lp (long_leg_name ty) dt cash
       (instrument_price (long_leg_name ty) k x) = Ok lp' ->
     Position.is_open sp = true ->
     open_positions log sp lp k x dt cash ty = Raise AssertionError).
Proof.
  unfold open_positions.
  split; [|split].
  - intros Hs Hl. apply String.eqb_neq in Hs. apply String.eqb_neq in Hl.
    rewrite Hs, Hl. reflexivity.
  - intros Hty Hopen.
    destruct Hty as [-> | ->]; cbn [String.eqb Ascii.eqb Bool.eqb orb negb];
      unfold Position.open; rewrite Hopen; reflexivity.
  - intros Hty lp' Hlo Hs.
    destruct Hty as [-> | ->];
      cbn [long_leg_name instrument_price
           String.eqb Ascii.eqb Bool.eqb orb negb] in *;
      rewrite Hlo; cbn [bind]; unfold Position.open; rewrite Hs; reflexivity.
Qed.

Lemma open_positions_failure_modes_witness :
  open_positions [] fresh_short fresh_long (Fin 10) (Fin 10) ex_day (Fin 100)
    "flat" = Raise ValueError /\
  open_positions [] ex_short ex_long (Fin 10) (Fin 10) ex_day (Fin 100)
    "long" = Raise AssertionError /\
  open_positions [] ex_short fresh_long (Fin 10) (Fin 10) ex_day (Fin 100)
    "long" = Raise AssertionError.
Proof.
  split; [|split].
  - apply (proj1 (open_positions_failure_modes [] fresh_short fresh_long
                    (Fin 10) (Fin 10) (Fin 100) ex_day "flat"));
      intro H; discriminate H.
  - apply (proj1 (proj2 (open_positions_failure_modes [] ex_short ex_long
                           (Fin 10) (Fin 10) (Fin 100) ex_day "long"))).
    + right; reflexivity.
    + reflexivity.
  - apply (proj2 (proj2 (open_positions_failure_modes [] ex_short fresh_long
                           (Fin 10) (Fin 10) (Fin 100) ex_day "long"))
             (or_intror eq_refl)
             (Position.mk 1 "kxi" (Some ex_day) (Fin 100) (Fin 10) (of_Z 10))).
    + vm_compute. reflexivity.
    + reflexivity.
Defined.

(** X7.  When both legs can be opened -- for the long spread the long leg on
    kxi and the short leg on xlp, for the short spread the other way round,
    each with the same entry cash at the price of its instrument --
    [open_positions] appends exactly one OPEN row: the direction, a gross cash
    of twice the entry cash, a nan P&L, both prices, the units of the leg on
    kxi and of the leg on xlp, and no reason; it returns the two opened
    legs. *)
Theorem open_pair (log : trade_log_t) (sp lp sp' lp' : Position.t)
    (k x cash : num) (dt : isodate) (ty : string) :
  ty = "long" \/ ty = "short" ->
  Position.open lp (long_leg_name ty) dt cash
    (instrument_price (long_leg_name ty) k x) = Ok lp' ->
  Position.open sp (short_leg_name ty) dt cash
    (instrument_price (short_leg_name ty) k x) = Ok sp' ->
  exists r,
    open_positions log sp lp k x dt cash ty
    = Ok ((log ++ [r])%list, sp', lp') /\
    r = TradeLog.mk dt "OPEN" ty (nmul cash (of_Z 2)) NaN
          k (Position.amount (if ty =? "long" then lp' else sp'))
          x (Position.amount (if ty =? "long" then sp' else lp')) None /\
    Position.is_open sp' = true /\ Position.is_open lp' = true /\
    is_spread_pair sp' lp' = true /\
    Position.name lp' = long_leg_name ty /\
    Position.name sp' = short_leg_name ty /\
    Position.type sp' = Position.type sp /\
    Position.type lp' = Position.type lp /\
    Position.entry_cash sp' = cash /\ Position.entry_cash lp' = cash.
Proof.
  intros Hty Hlo Hso.
  eexists. split; [apply (open_positions_legs log sp lp sp' lp' k x cash dt ty
                            Hty Hlo Hso)|].
  split; [reflexivity|].
  destruct (open_inv _ _ _ _ _ _ Hlo) as (_ & _ & ql & ul & _ & _ & ->).
  destruct (open_inv _ _ _ _ _ _ Hso) as (_ & _ & qs & us & _ & _ & ->).
  destruct Hty as [-> | ->]; cbn; repeat split; reflexivity.
Qed.

Lemma open_pair_witness :
  exists sp' lp' r,
    open_positions [] fresh_short fresh_long (Fin 12) (Fin 10) ex_day
      (Fin 100) "short"
    = Ok (([] ++ [r])%list, sp', lp') /\
    r = TradeLog.mk ex_day "OPEN" "short" (nmul (Fin 100) (of_Z 2)) NaN
          (Fin 12) (of_Z 8) (Fin 10) (of_Z 10) None /\
    Position.name lp' = "xlp" /\ Position.name sp' = "kxi".
Proof.
  exists (Position.mk (-1) "kxi" (Some ex_day) (Fin 100) (Fin 12) (of_Z 8)).
  exists (Position.mk 1 "xlp" (Some ex_day) (Fin 100) (Fin 10) (of_Z 10)).
  destruct (open_pair [] fresh_short fresh_long
              (Position.mk (-1) "kxi" (Some ex_day) (Fin 100) (Fin 12)
                 (of_Z 8))
              (Position.mk 1 "xlp" (Some ex_day) (Fin 100) (Fin 10) (of_Z 10))
              (Fin 12) (Fin 10) (Fin 100) ex_day "short"
              (or_intror eq_refl))
    as (r & Hop & Hr & _).
  - vm_compute. reflexivity.
  - vm_compute. reflexivity.
  - exists r. split; [exact Hop|]. split; [exact Hr|].
    split; reflexivity.
Defined.

(** X8.  A pair that [open_positions] has opened and that [close_positions]
    then closes, at any later prices, leaves two rows that agree: the CLOSE
    row carries the direction, the gross cash and the two quantities of the
    OPEN row, together with the closing date, prices and reason; and both legs
    are closed again, with their directions kept. *)
Theorem open_then_close (log log' : trade_log_t) (sp lp sp' lp' : Position.t)
    (k x cash : num) (dt dt' : isodate) (ty : string) (k' x' zeta : num)
    (reason : string) :
  open_positions log sp lp k x dt cash ty = Ok (log', sp', lp') ->
  exists o c,
    log' = (log ++ [o])%list /\
    close_positions log' dt' sp' lp' k' x' zeta reason
    = Ok ((log ++ [o; c])%list, Position.cleared sp, Position.cleared lp) /\
    TradeLog.position_status o = "OPEN" /\
    TradeLog.position_status c = "CLOSE" /\
    TradeLog.position_type o = ty /\
    TradeLog.position_type c = ty /\
    TradeLog.gross_cash c = TradeLog.gross_cash o /\
    TradeLog.kxi_amount c = TradeLog.kxi_amount o /\
    TradeLog.xlp_amount c = TradeLog.xlp_amount o /\
    TradeLog.date c = dt' /\
    TradeLog.kxi_price c = k' /\ TradeLog.xlp_price c = x' /\
    TradeLog.Reason c = Some reason.
Proof.
  intro Hop.
  destruct (open_positions_inv _ _ _ _ _ _ _ _ _ _ _ Hop) as (Hty & Hlo & Hso).
  rewrite (open_positions_legs log sp lp sp' lp' k x cash dt ty Hty Hlo Hso)
    in Hop.
  injection Hop as <-.
  destruct (open_inv _ _ _ _ _ _ Hlo) as (_ & _ & ql & ul & _ & _ & Hlp).
  destruct (open_inv _ _ _ _ _ _ Hso) as (_ & _ & qs & us & _ & _ & Hsp).
  assert (Hso' : Position.is_open sp' = true)
    by (destruct (open_is_open _ _ _ _ _ _ Hso) as [H _]; exact H).
  assert (Hlo' : Position.is_open lp' = true)
    by (destruct (open_is_open _ _ _ _ _ _ Hlo) as [H _]; exact H).
  match goal with
  | |- exists o c, (?l ++ [?o0])%list = _ /\ _ =>
      destruct (close_positions_open (l ++ [o0])%list dt' sp' lp' k' x' zeta
                  reason Hso' Hlo') as (total & _ & Hcl)
  end.
  cbv zeta in Hcl. rewrite <- app_assoc in Hcl.
  subst sp' lp'.
  destruct Hty as [-> | ->];
    cbn [long_leg_name short_leg_name Position.name Position.type
         Position.amount Position.entry_cash Position.cleared
         String.eqb Ascii.eqb Bool.eqb app] in *;
    eexists; eexists;
    (split; [reflexivity|]); (split; [exact Hcl|]); repeat split; reflexivity.
Qed.

Lemma open_then_close_witness :
  exists log' sp' lp' o c,
    open_positions [] fresh_short fresh_long (Fin 12) (Fin 10) ex_day
      (Fin 100) "long" = Ok (log', sp', lp') /\
    log' = ([] ++ [o])%list /\
    close_positions log' (mkdate 2022 1 4) sp' lp' (Fin 9) (Fin 11) (Fin 0)
      "Standard"
    = Ok (([] ++ [o; c])%list, Position.cleared fresh_short,
          Position.cleared fresh_long) /\
    TradeLog.position_status o = "OPEN" /\
    TradeLog.position_status c = "CLOSE" /\
    TradeLog.position_type o = "long" /\
    TradeLog.position_type c = "long" /\
    TradeLog.gross_cash c = TradeLog.gross_cash o /\
    TradeLog.kxi_amount c = TradeLog.kxi_amount o /\
    TradeLog.xlp_amount c = TradeLog.xlp_amount o /\
    TradeLog.date c = mkdate 2022 1 4 /\
    TradeLog.kxi_price c = Fin 9 /\ TradeLog.xlp_price c = Fin 11 /\
    TradeLog.Reason c = Some "Standard".
Proof.
  eexists; eexists; eexists.
  assert (Hop : open_positions [] fresh_short fresh_long (Fin 12) (Fin 10)
                  ex_day (Fin 100) "long"
                = Ok ([TradeLog.mk ex_day "OPEN" "long" (Fin (100 * 2)) NaN
                         (Fin 12) (of_Z 8) (Fin 10) (of_Z 10) None],
                      Position.mk (-1) "xlp" (Some ex_day) (Fin 100) (Fin 10)
                        (of_Z 10),
                      Position.mk 1 "kxi" (Some ex_day) (Fin 100) (Fin 12)
                        (of_Z 8))).
  { vm_compute. reflexivity. }
  destruct (open_then_close _ _ _ _ _ _ _ _ _ _ (mkdate 2022 1 4) _ (Fin 9)
              (Fin 11) (Fin 0) "Standard" Hop) as (o & c & Hrest).
  exists o, c. split; [exact Hop|]. exact Hrest.
Defined.

(** X9.  [close_positions] on a pair with a leg that is not open raises
    AssertionError (from the P&L evaluation, before a row is appended or a leg
    is closed). *)
Theorem close_positions_not_open (log : trade_log_t) (dt : isodate)
    (sp lp : Position.t) (k x zeta : num) (reason : string) :
  Position.is_open sp = false \/ Position.is_open lp = false ->
  close_positions log dt sp lp k x zeta reason = Raise AssertionError.
Proof.
  intro H. unfold close_positions.
  rewrite (get_pnls_not_open sp lp k x zeta None H).
  destruct (Position.name sp =? "kxi"); reflexivity.
Qed.

Lemma close_positions_not_open_witness :
  close_positions [] ex_day fresh_short ex_long (Fin 10) (Fin 10) (Fin 0)
    "Standard" = Raise AssertionError.
Proof.
  apply (close_positions_not_open [] ex_day fresh_short ex_long).
  left; reflexivity.
Defined.

(** ** Signal computation *)

Ltac date_cases :=
  repeat match goal with
         | |- context [(?a <? ?b)%Z] => destruct (Z.ltb_spec a b)
         | |- context [(?a =? ?b)%Z] => destruct (Z.eqb_spec a b)
         | H : context [(?a <? ?b)%Z] |- _ => destruct (Z.ltb_spec a b)
         | H : context [(?a =? ?b)%Z] |- _ => destruct (Z.eqb_spec a b)
         end;
  cbn in *; try reflexivity; try discriminate; try lia.

Lemma date_ltb_asym (a b : isodate) :
  date_ltb a b = true -> date_ltb b a = false.
Proof.
  unfold date_ltb. destruct a as [y1 m1 d1], b as [y2 m2 d2].
  cbn [year month day]. intro H. date_cases.
Qed.

Lemma date_ltb_neq (a b : isodate) :
  date_ltb a b = true -> date_eqb a b = false.
Proof.
  unfold date_ltb, date_eqb. destruct a as [y1 m1 d1], b as [y2 m2 d2].
  cbn [year month day]. intro H. date_cases.
Qed.

Lemma date_ltb_total (a b : isodate) :
  date_ltb a b = false -> date_ltb b a = false -> a = b.
Proof.
  unfold date_ltb. destruct a as [y1 m1 d1], b as [y2 m2 d2].
  cbn [year month day]. intros H1 H2.
  assert (y1 = y2 /\ m1 = m2 /\ d1 = d2) as (-> & -> & ->);
    [|reflexivity].
  date_cases.
Qed.

Lemma insert_by_date_perm (r : Series.row) (df : dataframe) :
  Permutation (r :: df) (insert_by_date r df).
Proof.
  induction df as [|a rest IH]; cbn [insert_by_date].
  - apply Permutation_refl.
  - destruct (date_ltb (Series.date r) (Series.date a)).
    + apply Permutation_refl.
    + apply perm_trans with (a :: r :: rest); [apply perm_swap|].
      apply perm_skip. exact IH.
Qed.

Lemma insert_by_date_sorted (r : Series.row) (df : dataframe) :
  dates_nondecreasing df = true ->
  dates_nondecreasing (insert_by_date r df) = true.
Proof.
  induction df as [|a rest IH]; intro Hs.
  - reflexivity.
  - cbn [insert_by_date].
    destruct (date_ltb (Series.date r) (Series.date a)) eqn:E.
    + change (negb (date_ltb (Series.date a) (Series.date r))
              && dates_nondecreasing (a :: rest) = true).
      rewrite (date_ltb_asym _ _ E), Hs. reflexivity.
    + cbn [dates_nondecreasing] in Hs. apply andb_prop in Hs.
      destruct Hs as [Hhd Htl]. specialize (IH Htl).
      cbn [dates_nondecreasing]. rewrite IH, andb_true_r.
      destruct rest as [|b rest']; cbn [insert_by_date].
      * rewrite E. reflexivity.
      * destruct (date_ltb (Series.date r) (Series.date b));
          [rewrite E; reflexivity|exact Hhd].
Qed.

Lemma fold_insert_perm (df acc : dataframe) :
  Permutation (acc ++ df)%list
    (fold_left (fun a r => insert_by_date r a) df acc).
Proof.
  revert acc. induction df as [|r rest IH]; intro acc; cbn [fold_left].
  - rewrite app_nil_r. apply Permutation_refl.
  - apply perm_trans with (insert_by_date r acc ++ rest)%list; [|apply IH].
    apply perm_trans with ((r :: acc) ++ rest)%list.
    + apply Permutation_sym. apply Permutation_middle.
    + apply Permutation_app_tail. apply insert_by_date_perm.
Qed.

Lemma fold_insert_sorted (df acc : dataframe) :
  dates_nondecreasing acc = true ->
  dates_nondecreasing (fold_left (fun a r => insert_by_date r a) df acc)
  = true.
Proof.
  revert acc. induction df as [|r rest IH]; intros acc Hs; cbn [fold_left].
  - exact Hs.
  - apply IH. apply insert_by_date_sorted. exact Hs.
Qed.

(** X10.  [sort_values('date')] keeps exactly the rows of the frame and puts
    them in date order: no row is dated before the row in front of it. *)
Theorem sort_values_date_sorts (df : dataframe) :
  Permutation df (sort_values_date df) /\
  dates_nondecreasing (sort_values_date df) = true /\
  List.length (sort_values_date df) = List.length df.
Proof.
  unfold sort_values_date.
  pose proof (fold_insert_perm df []) as Hp. cbn [app] in Hp.
  split; [exact Hp|]. split.
  - apply fold_insert_sorted. reflexivity.
  - symmetry. apply Permutation_length. exact Hp.
Qed.

Lemma insert_at_end (r : Series.row) (acc : dataframe) :
  Forall (fun a => date_ltb (Series.date r) (Series.date a) = false) acc ->
  insert_by_date r acc = (acc ++ [r])%list.
Proof.
  induction 1 as [|a rest Ha _ IH]; cbn [insert_by_date app].
  - reflexivity.
  - rewrite Ha, IH. reflexivity.
Qed.

Lemma fold_insert_increasing (df : dataframe) :
  forall acc,
    Forall (fun a =>
              Forall (fun b => date_ltb (Series.date b) (Series.date a) = false)
                df) acc ->
    dates_increasing df = true ->
    fold_left (fun a r => insert_by_date r a) df acc = (acc ++ df)%list.
Proof.
  induction df as [|r rest IH]; intros acc Hacc Hs; cbn [fold_left].
  - rewrite app_nil_r. reflexivity.
  - cbn [dates_increasing] in Hs. apply andb_prop in Hs.
    destruct Hs as [Hhd Htl].
    rewrite insert_at_end.
    + rewrite IH; [rewrite <- app_assoc; reflexivity| |exact Htl].
      apply Forall_app. split.
      * eapply Forall_impl; [|exact Hacc].
        intros a Ha. inversion Ha; assumption.
      * constructor; [|constructor].
        rewrite forallb_forall in Hhd. apply Forall_forall.
        intros b Hb. apply date_ltb_asym. apply Hhd. exact Hb.
    + eapply Forall_impl; [|exact Hacc].
      intros a Ha. inversion Ha; assumption.
Qed.

Lemma sort_increasing_id (df : dataframe) :
  dates_increasing df = true -> sort_values_date df = df.
Proof.
  intro Hs. unfold sort_values_date.
  rewrite (fold_insert_increasing df [] (Forall_nil _) Hs). reflexivity.
Qed.

Lemma first_index_increasing (df : dataframe) :
  forall (i : nat) (row : Series.row),
    dates_increasing df = true ->
    nth_error df i = Some row ->
    first_index_of_date df (Series.date row) = Ok (Z.of_nat i).
Proof.
  induction df as [|a rest IH]; intros i row Hs Hnth.
  - destruct i; discriminate Hnth.
  - cbn [dates_increasing] in Hs. apply andb_prop in Hs.
    destruct Hs as [Hhd Htl]. cbn [first_index_of_date].
    destruct i as [|i'].
    + injection Hnth as ->. rewrite date_eqb_refl. reflexivity.
    + cbn [nth_error] in Hnth.
      rewrite forallb_forall in Hhd.
      rewrite (date_ltb_neq _ _ (Hhd row (nth_error_In _ _ Hnth))).
      rewrite (IH i' row Htl Hnth). cbn [bind].
      f_equal. lia.
Qed.

Lemma first_index_absent (df : dataframe) (d : isodate) :
  (forall r, In r df -> Series.date r <> d) ->
  first_index_of_date df d = Raise IndexError.
Proof.
  induction df as [|a rest IH]; intro H; cbn [first_index_of_date].
  - reflexivity.
  - rewrite (date_eqb_neq _ _ (H a (or_introl eq_refl))).
    rewrite IH; [reflexivity|].
    intros r Hr. apply H. right. exact Hr.
Qed.

(** X11.  The lookback is by row offset: on a frame in increasing date order,
    the M-day returns of the row at position i are its prices over the prices
    of the row at position i - M, minus one, whatever the calendar distance
    between the two rows. *)
Theorem lookback_is_row_offset (df : dataframe) (row old : Series.row)
    (i : nat) (m : Z) (kq xq okq oxq : Q) :
  dates_increasing df = true ->
  nth_error df i = Some row ->
  0 <= Z.of_nat i - m ->
  nth_error df (Z.to_nat (Z.of_nat i - m)) = Some old ->
  Series.KXI_adj_close row = Fin kq ->
  Series.XLP_adj_close row = Fin xq ->
  Series.KXI_adj_close old = Fin okq ->
  Series.XLP_adj_close old = Fin oxq ->
  ~ okq == 0 -> ~ oxq == 0 ->
  get_mday_returns df row m
  = Ok (Fin (kq / okq - 1), Fin (xq / oxq - 1)).
Proof.
  intros Hs Hrow Hpos Hold Hk Hx Hok Hox Hkz Hxz.
  unfold get_mday_returns.
  rewrite (sort_increasing_id df Hs).
  rewrite (first_index_increasing df i row Hs Hrow). cbn [bind].
  unfold loc.
  replace (Z.of_nat i - m <? 0)%Z with false
    by (symmetry; apply Z.ltb_ge; exact Hpos).
  rewrite Hold. cbn [bind]. rewrite Hk, Hx, Hok, Hox.
  apply Qzero_b_false in Hkz. apply Qzero_b_false in Hxz.
  cbn [ndiv]. rewrite Hkz, Hxz.
  reflexivity.
Qed.

(* with M = 2 the row of 2022-01-05 is compared with the row of 2022-01-03 *)
Lemma lookback_is_row_offset_witness :
  get_mday_returns ex_df ex_flip_row 2
  = Ok (Fin (9 / 10 - 1), Fin (10 / 10 - 1)).
Proof.
  apply (lookback_is_row_offset ex_df ex_flip_row
           (Series.mk (mkdate 2022 1 3) (Fin 10) (Fin 10) (Fin 10000))
           3 2 9 10 10 10).
  - reflexivity.
  - reflexivity.
  - cbn. lia.
  - reflexivity.
  - reflexivity.
  - reflexivity.
  - reflexivity.
  - reflexivity.
  - intro H; discriminate H.
  - intro H; discriminate H.
Defined.

(** X12.  How [get_mday_returns] fails.  A date that no row of the frame
    carries is an IndexError.  On a frame in increasing date order, a lookback
    that reaches before the first row or past the last row is a KeyError. *)
Theorem get_mday_returns_errors (df : dataframe) (row : Series.row) (m : Z) :
  ((forall r, In r df -> Series.date r <> Series.date row) ->
   get_mday_returns df row m = Raise IndexError) /\
  (forall i,
      dates_increasing df = true ->
      nth_error df i = Some row ->
      (Z.of_nat i - m < 0 \/ Z.of_nat (List.length df) <= Z.of_nat i - m) ->
      get_mday_returns df row m = Raise KeyError).
Proof.
  split.
  - intro Habs. unfold get_mday_returns.
    rewrite first_index_absent; [reflexivity|].
    intros r Hr. apply Habs.
    pose proof (fold_insert_perm df []) as Hp. cbn [app] in Hp.
    apply (Permutation_in _ (Permutation_sym Hp) Hr).
  - intros i Hs Hrow Hout. unfold get_mday_returns.
    rewrite (sort_increasing_id df Hs).
    rewrite (first_index_increasing df i row Hs Hrow). cbn [bind].
    unfold loc.
    destruct (Z.ltb_spec (Z.of_nat i - m) 0) as [Hlt | Hge]; [reflexivity|].
    destruct Hout as [Hneg | Hbig]; [lia|].
    replace (nth_error df (Z.to_nat (Z.of_nat i - m))) with (@None Series.row).
    + reflexivity.
    + symmetry. apply nth_error_None. lia.
Qed.

(* the first trading day of [ex_df] has one row before it: M = 2 reaches
   before the frame *)
Lemma get_mday_returns_errors_witness :
  get_mday_returns ex_df
    (Series.mk (mkdate 2022 1 3) (Fin 10) (Fin 10) (Fin 10000)) 2
  = Raise KeyError.
Proof.
  apply (proj2 (get_mday_returns_errors ex_df
                  (Series.mk (mkdate 2022 1 3) (Fin 10) (Fin 10)
                     (Fin 10000)) 2) 1%nat).
  - reflexivity.
  - reflexivity.
  - left. cbn. lia.
Defined.

(** ** Cool-down date *)

(** X13.  The cool-down end date.  A date that is not a calendar date, and
    any date of December 9999, raises ValueError.  Every other date has a
    result: a calendar date strictly after it, with the same day of the month
    or, when the next month is shorter, its last day. *)
Theorem one_month_later_spec (d : isodate) :
  (valid_date d = false -> one_month_later d = Raise ValueError) /\
  (valid_date d = true -> year d = 9999 -> month d = 12 ->
   one_month_later d = Raise ValueError) /\
  (valid_date d = true -> year d < 9999 \/ month d < 12 ->
   exists e,
     one_month_later d = Ok e /\
     valid_date e = true /\
     date_ltb d e = true /\
     (day e = day d \/
      (day e = days_in_month (year e) (month e) /\ day e < day d))).
Proof.
  unfold one_month_later, strptime.
  split; [intros ->; reflexivity|].
  split.
  { intros -> Hy Hm. cbn [bind]. unfold add_relativedelta_month.
    rewrite Hy, Hm. reflexivity. }
  intros Hv Hnot. rewrite Hv. cbn [bind].
  unfold valid_date in *. rewrite !andb_true_iff, !Z.leb_le in Hv.
  destruct Hv as [[[[[Hy1 Hy2] Hm1] Hm2] Hd1] Hd2].
  unfold add_relativedelta_month.
  destruct (12 <? month d + 1)%Z eqn:E12.
  - apply Z.ltb_lt in E12.
    replace (9999 <? year d + 1)%Z with false
      by (symmetry; apply Z.ltb_ge; lia).
    eexists. split; [reflexivity|]. cbn [year month day].
    pose proof (days_in_month_pos (year d + 1) (month d + 1 - 12)) as Hdim.
    rewrite !andb_true_iff, !Z.leb_le.
    split; [repeat split; lia|].
    split.
    + unfold date_ltb. cbn [year month day].
      replace (year d <? year d + 1)%Z with true
        by (symmetry; apply Z.ltb_lt; lia).
      reflexivity.
    + lia.
  - apply Z.ltb_ge in E12.
    replace (9999 <? year d)%Z with false
      by (symmetry; apply Z.ltb_ge; lia).
    eexists. split; [reflexivity|]. cbn [year month day].
    pose proof (days_in_month_pos (year d) (month d + 1)) as Hdim.
    rewrite !andb_true_iff, !Z.leb_le.
    split; [repeat split; lia|].
    split.
    + unfold date_ltb. cbn [year month day].
      rewrite Z.eqb_refl, Z.ltb_irrefl.
      replace (month d <? month d + 1)%Z with true
        by (symmetry; apply Z.ltb_lt; lia).
      reflexivity.
    + lia.
Qed.

Lemma one_month_later_spec_witness :
  one_month_later (mkdate 2022 2 30) = Raise ValueError /\
  one_month_later (mkdate 9999 12 1) = Raise ValueError /\
  exists e,
    one_month_later (mkdate 2024 1 31) = Ok e /\
    valid_date e = true /\
    date_ltb (mkdate 2024 1 31) e = true /\
    (day e = day (mkdate 2024 1 31) \/
     (day e = days_in_month (year e) (month e)
      /\ day e < day (mkdate 2024 1 31))).
Proof.
  split; [|split].
  - apply (proj1 (one_month_later_spec (mkdate 2022 2 30))). reflexivity.
  - apply (proj1 (proj2 (one_month_later_spec (mkdate 9999 12 1))));
      reflexivity.
  - apply (proj2 (proj2 (one_month_later_spec (mkdate 2024 1 31)))).
    + reflexivity.
    + left. cbn. lia.
Defined.

(** ** The ledger over a run *)

Lemma replay_app (l1 l2 : trade_log_t) :
  forall cur,
    replay (l1 ++ l2)%list cur
    = match replay l1 cur with
      | Some c => replay l2 c
      | None => None
      end.
Proof.
  induction l1 as [|r rest IH]; intro cur; cbn [replay app].
  - reflexivity.
  - destruct (TradeLog.position_status r =? "OPEN").
    + destruct cur; [reflexivity|apply IH].
    + destruct (TradeLog.position_status r =? "CLOSE"); [|reflexivity].
      destruct cur as [ty|]; [|reflexivity].
      destruct (ty =? TradeLog.position_type r); [apply IH|reflexivity].
Qed.

Lemma ledger_step_refl (st : sim_state) : ledger_step st st 0.
Proof.
  split; [auto|]. exists []. rewrite app_nil_r. split; [reflexivity|].
  apply Nat.le_refl.
Qed.

Lemma ledger_step_trans (a b c : sim_state) (n m : nat) :
  ledger_step a b n -> ledger_step b c m -> ledger_step a c (n + m).
Proof.
  intros [Hab (l1 & E1 & L1)] [Hbc (l2 & E2 & L2)].
  split; [auto|].
  exists (l1 ++ l2)%list. split.
  - rewrite E2, E1, app_assoc. reflexivity.
  - rewrite length_app. lia.
Qed.

Lemma ledger_step_weaken (a b : sim_state) (n m : nat) :
  (n <= m)%nat -> ledger_step a b n -> ledger_step a b m.
Proof.
  intros Hnm [Hab (l & E & L)]. split; [exact Hab|].
  exists l. split; [exact E|lia].
Qed.

Lemma do_open_ledger (st st' : sim_state) (d : isodate) (k x cash : num)
    (ty : string) :
  do_open st d k x cash ty = Ok st' -> ledger_step st st' 1.
Proof.
  intro H.
  assert (Hrow : exists o,
             trade_log st' = (trade_log st ++ [o])%list /\
             TradeLog.position_status o = "OPEN" /\
             TradeLog.position_type o = ty /\
             TradeLog.pnl o = NaN /\ TradeLog.Reason o = None /\
             (ty = "short" \/ ty = "long") /\
             Position.is_open (long_pos st) = false).
  { unfold do_open, open_positions in H.
    destruct (ty =? "short") eqn:Es.
    - apply String.eqb_eq in Es. subst ty.
      cbn [String.eqb Ascii.eqb Bool.eqb orb negb] in H.
      destruct (Position.open (long_pos st) "xlp" d cash x) as [lp|] eqn:El;
        cbn [bind] in H; [|discriminate H].
      destruct (Position.open (short_pos st) "kxi" d cash k) as [sp|];
        cbn [bind] in H; [|discriminate H].
      injection H as <-.
      destruct (open_is_open _ _ _ _ _ _ El) as (_ & _ & _ & Hc).
      eexists. split; [reflexivity|]. cbn. auto 10.
    - destruct (ty =? "long") eqn:Elg; cbn [orb negb] in H;
        [|discriminate H].
      apply String.eqb_eq in Elg. subst ty.
      cbn [String.eqb Ascii.eqb Bool.eqb] in H.
      destruct (Position.open (long_pos st) "kxi" d cash k) as [lp|] eqn:El;
        cbn [bind] in H; [|discriminate H].
      destruct (Position.open (short_pos st) "xlp" d cash x) as [sp|];
        cbn [bind] in H; [|discriminate H].
      injection H as <-.
      destruct (open_is_open _ _ _ _ _ _ El) as (_ & _ & _ & Hc).
      eexists. split; [reflexivity|]. cbn. auto 10. }
  destruct Hrow as (o & Hlog & Hos & Hot & Hop & Hor & Hty & Hclosed).
  destruct (do_open_ok _ _ _ _ _ _ _ H) as (Hopen' & _ & Hdir & _).
  split.
  - intros [Hrep Hrows]. unfold ledger_inv.
    unfold both_open in Hrep. rewrite Hclosed in Hrep. cbn [andb] in Hrep.
    rewrite Hlog, replay_app, Hrep, Hopen', Hdir.
    split.
    + cbn [replay]. rewrite Hos. cbn [String.eqb Ascii.eqb Bool.eqb].
      rewrite Hot. reflexivity.
    + apply Forall_app. split; [exact Hrows|].
      constructor; [|constructor].
      split; [rewrite Hot; exact Hty|]. left. auto.
  - exists [o]. split; [exact Hlog|]. apply Nat.le_refl.
Qed.

Lemma do_close_ledger (zeta : num) (st st' : sim_state) (d : isodate)
    (k x : num) (reason : string) :
  reason = "Standard" \/ reason = "STOP LOSS" ->
  do_close zeta st d k x reason = Ok st' -> ledger_step st st' 1.
Proof.
  intros Hreason H.
  destruct (do_close_ok _ _ _ _ _ _ _ H)
    as (Hc & _ & _ & Ho & _ & _ & _ & _ & c & Hlog & _ & Hcs & Hct & Hcr).
  assert (Ho' : both_open st' = false).
  { unfold both_closed in Hc. apply andb_prop in Hc. destruct Hc as [Hl _].
    apply negb_true_iff in Hl. unfold both_open. rewrite Hl. reflexivity. }
  split.
  - intros [Hrep Hrows]. unfold ledger_inv.
    rewrite Ho in Hrep.
    rewrite Hlog, replay_app, Hrep, Ho'.
    split.
    + cbn [replay]. rewrite Hcs. cbn [String.eqb Ascii.eqb Bool.eqb].
      rewrite Hct, String.eqb_refl. reflexivity.
    + apply Forall_app. split; [exact Hrows|].
      constructor; [|constructor].
      split.
      * rewrite Hct. unfold current_direction.
        destruct (Position.name (short_pos st) =? "kxi"); auto.
      * right. split; [exact Hcs|].
        rewrite Hcr. destruct Hreason as [-> | ->]; auto.
  - exists [c]. split; [exact Hlog|]. apply Nat.le_refl.
Qed.

Ltac ledger_leaf :=
  match goal with
  | H : Ok _ = Ok _ |- _ =>
      injection H as <-;
      apply (ledger_step_weaken _ _ 0 2); [lia|apply ledger_step_refl]
  | H : do_open _ _ _ _ _ _ = Ok _ |- _ =>
      apply (ledger_step_weaken _ _ 1 2); [lia|];
      exact (do_open_ledger _ _ _ _ _ _ _ H)
  | H : do_close _ _ _ _ _ default_reason = Ok _ |- _ =>
      apply (ledger_step_weaken _ _ 1 2); [lia|];
      exact (do_close_ledger _ _ _ _ _ _ _ (or_introl eq_refl) H)
  | H : bind (do_close ?z ?st ?d ?k ?x default_reason) _ = Ok _ |- _ =>
      let st1 := fresh "st1" in
      let E := fresh "E" in
      destruct (do_close z st d k x default_reason) as [st1|] eqn:E;
      cbn [bind] in H; [|discriminate H];
      apply (ledger_step_trans _ st1 _ 1 1);
      [exact (do_close_ledger _ _ _ _ _ _ _ (or_introl eq_refl) E)
      |exact (do_open_ledger _ _ _ _ _ _ _ H)]
  end.

Lemma signal_step_ledger (df : dataframe) (g j : num) (M : Z)
    (zeta : num) (st st' : sim_state) (row : Series.row) (d : isodate)
    (k x cash : num) :
  signal_step df g j M zeta st row d k x cash = Ok st' ->
  ledger_step st st' 2.
Proof.
  unfold signal_step. intro H.
  destruct (get_mday_returns df row M) as [rets|]; cbn [bind] in H;
    [|discriminate H].
  cbv zeta in H.
  destruct (ngtb (nabs _) g).
  - destruct (ngtb _ g).
    + destruct (both_closed st); [ledger_leaf|].
      destruct (Position.name (short_pos st) =? "kxi");
        cbn [String.eqb Ascii.eqb Bool.eqb] in H; ledger_leaf.
    + destruct (nltb _ (nopp g)); [|ledger_leaf].
      destruct (both_closed st); [ledger_leaf|].
      destruct (Position.name (long_pos st) =? "kxi");
        cbn [String.eqb Ascii.eqb Bool.eqb] in H; ledger_leaf.
  - destruct (nltb (nabs _) j && both_open st); ledger_leaf.
Qed.

Lemma evaluate_day_ledger (df : dataframe) (g j : num) (s : option num)
    (M : Z) (zeta : num) (st st' : sim_state) (row : Series.row)
    (d : isodate) :
  evaluate_day df g j s M zeta st row d = Ok st' ->
  ledger_step st st' 2.
Proof.
  unfold evaluate_day. cbv zeta. intro H.
  set (st1 := with_prices st (Series.KXI_adj_close row)
                (Series.XLP_adj_close row)) in *.
  assert (Hsame : forall st2 n, ledger_step st1 st2 n -> ledger_step st st2 n)
    by (intros st2 n Hs; exact Hs).
  apply Hsame.
  destruct (both_open st1).
  - destruct (get_pnls _ _ _ _ zeta s) as [pnl_res|]; cbn [bind] in H;
      [|discriminate H].
    destruct (fst pnl_res); cbn [negb] in H.
    + eapply signal_step_ledger; eassumption.
    + destruct (one_month_later d) as [sld|]; cbn [bind] in H;
        [|discriminate H].
      apply (ledger_step_weaken _ _ 1 2); [lia|].
      pose proof (do_close_ledger _ _ _ _ _ _ _ (or_intror eq_refl) H) as Hs.
      exact Hs.
  - eapply signal_step_ledger; eassumption.
Qed.

Lemma day_step_ledger (df : dataframe) (g j : num) (s : option num)
    (M : Z) (zeta : num) (st st' : sim_state) (row : Series.row) :
  day_step df g j s M zeta st row = Ok st' ->
  ledger_step st st' 2.
Proof.
  unfold day_step. cbv zeta. intro H.
  set (st1 := with_date st (Series.date row)) in *.
  assert (Hskip : ledger_step st st1 2).
  { apply (ledger_step_weaken _ _ 0 2); [lia|]. exact (ledger_step_refl st). }
  destruct (date_ltb (Series.date row) trade_period_start).
  { injection H as <-. exact Hskip. }
  change (stop_loss_date st1) with (stop_loss_date st) in H.
  destruct (stop_loss_date st) as [sld|].
  - destruct (date_eqb (Series.date row) sld).
    + apply evaluate_day_ledger in H. exact H.
    + injection H as <-. exact Hskip.
  - apply evaluate_day_ledger in H. exact H.
Qed.

Lemma run_days_ledger (df : dataframe) (g j : num) (s : option num)
    (M : Z) (zeta : num) (rows : dataframe) :
  forall st st',
    run_days df g j s M zeta st rows = Ok st' ->
    ledger_step st st' (2 * List.length rows).
Proof.
  induction rows as [|row rest IH]; intros st st' H; cbn [run_days] in H.
  - injection H as <-. apply ledger_step_refl.
  - destruct (day_step df g j s M zeta st row) as [st1|] eqn:E;
      cbn [bind] in H; [|discriminate H].
    apply (ledger_step_weaken _ _ (2 + 2 * List.length rest)).
    + cbn [List.length]. lia.
    + apply (ledger_step_trans _ st1).
      * exact (day_step_ledger _ _ _ _ _ _ _ _ _ E).
      * exact (IH _ _ H).
Qed.

Lemma end_of_series_ledger (zeta : num) (st st' : sim_state) :
  end_of_series zeta st = Ok st' ->
  ledger_step st st' 1 /\ both_open st' = false.
Proof.
  unfold end_of_series. intro H.
  destruct (Position.is_open (short_pos st) || Position.is_open (long_pos st))
    eqn:Hany.
  - destruct (date st) as [d|]; [|discriminate H].
    destruct (kxi st) as [k|]; [|discriminate H].
    destruct (xlp st) as [x|]; [|discriminate H].
    split; [exact (do_close_ledger _ _ _ _ _ _ _ (or_introl eq_refl) H)|].
    destruct (do_close_ok _ _ _ _ _ _ _ H) as (Hc & _).
    unfold both_closed in Hc. apply andb_prop in Hc. destruct Hc as [Hl _].
    apply negb_true_iff in Hl. unfold both_open. rewrite Hl. reflexivity.
  - injection H as <-.
    split; [apply (ledger_step_weaken _ _ 0 1); [lia|apply ledger_step_refl]|].
    apply orb_false_elim in Hany. destruct Hany as [Hs _].
    unfold both_open. rewrite Hs. apply andb_false_r.
Qed.

Lemma initial_ledger_inv (st0 : sim_state) :
  initial_state = Ok st0 -> ledger_inv st0.
Proof.
  unfold initial_state. cbn. intro H. injection H as <-.
  split; [reflexivity|constructor].
Qed.

Lemma replay_parity (log : trade_log_t) :
  forall cur cur',
    replay log cur = Some cur' ->
    Nat.even (List.length log)
    = Bool.eqb (pair_is_open cur) (pair_is_open cur').
Proof.
  induction log as [|r rest IH]; intros cur cur' H; cbn [replay] in H.
  - injection H as <-. cbn. destruct (pair_is_open cur); reflexivity.
  - cbn [List.length]. rewrite Nat.even_succ, <- Nat.negb_even.
    destruct (TradeLog.position_status r =? "OPEN").
    + destruct cur as [ty|]; [discriminate H|].
      rewrite (IH _ _ H). cbn. destruct (pair_is_open cur'); reflexivity.
    + destruct (TradeLog.position_status r =? "CLOSE"); [|discriminate H].
      destruct cur as [ty|]; [|discriminate H].
      destruct (ty =? TradeLog.position_type r); [|discriminate H].
      rewrite (IH _ _ H). cbn. destruct (pair_is_open cur'); reflexivity.
Qed.

(** X14.  The ledger is append-only: what [simulate] returns starts with the
    ledger as it stood after any prefix of the days, and no day adds more than
    two rows (the close after the last day adds at most one). *)
Theorem ledger_append_only (df pre post : dataframe) (g j : num)
    (s : option num) (M : Z) (zeta : num) (st0 st1 : sim_state)
    (log : trade_log_t) :
  df = (pre ++ post)%list ->
  initial_state = Ok st0 ->
  run_days df g j s M zeta st0 pre = Ok st1 ->
  simulate df g j s M zeta = Ok log ->
  (List.length (trade_log st1) <= 2 * List.length pre)%nat /\
  exists new,
    log = (trade_log st1 ++ new)%list /\
    (List.length new <= 2 * List.length post + 1)%nat.
Proof.
  intros Hdf H0 Hpre Hsim.
  destruct (initial_state_inv _ H0) as (_ & Hlog0 & _).
  destruct (run_days_ledger _ _ _ _ _ _ _ _ _ Hpre) as [_ (l1 & E1 & L1)].
  rewrite Hlog0 in E1. cbn [app] in E1.
  split; [rewrite E1; exact L1|].
  unfold simulate, simulate_state in Hsim. rewrite H0 in Hsim.
  cbn [bind] in Hsim. rewrite Hdf in Hsim at 2.
  rewrite run_days_app, Hpre in Hsim. cbn [bind] in Hsim.
  destruct (run_days df g j s M zeta st1 post) as [st2|] eqn:Hpost;
    cbn [bind] in Hsim; [|discriminate Hsim].
  destruct (end_of_series zeta st2) as [st3|] eqn:Hend;
    cbn [bind] in Hsim; [|discriminate Hsim].
  injection Hsim as <-.
  destruct (run_days_ledger _ _ _ _ _ _ _ _ _ Hpost) as [_ (l2 & E2 & L2)].
  destruct (end_of_series_ledger _ _ _ Hend) as [[_ (l3 & E3 & L3)] _].
  exists (l2 ++ l3)%list. split.
  - rewrite E3, E2, app_assoc. reflexivity.
  - rewrite length_app. lia.
Qed.

Lemma ledger_append_only_witness :
  exists st1 log,
    run_days ex_df_stop ex_g ex_j ex_s 1 (Fin 0) ex_state0
      (firstn 4 ex_df_stop) = Ok st1 /\
    simulate ex_df_stop ex_g ex_j ex_s 1 (Fin 0) = Ok log /\
    (List.length (trade_log st1) <= 2 * List.length (firstn 4 ex_df_stop))%nat
    /\ exists new,
        log = (trade_log st1 ++ new)%list /\
        (List.length new <= 2 * List.length (skipn 4 ex_df_stop) + 1)%nat.
Proof.
  eexists; eexists.
  split; [vm_compute; reflexivity|].
  split; [vm_compute; reflexivity|].
  apply (ledger_append_only ex_df_stop (firstn 4 ex_df_stop)
           (skipn 4 ex_df_stop) ex_g ex_j ex_s 1 (Fin 0) ex_state0).
  - reflexivity.
  - reflexivity.
  - vm_compute. reflexivity.
  - vm_compute. reflexivity.
Defined.

(** X15.  The ledger alternates.  After any number of days the rows read from
    the start are OPEN, CLOSE, OPEN, ... with each CLOSE in the direction of
    the OPEN before it, and the last row tells whether a pair is open and in
    which direction.  The ledger [simulate] returns ends closed: it has an
    even number of rows.  Every OPEN row has a nan P&L and no reason, every
    CLOSE row has the reason 'Standard' or 'STOP LOSS'. *)
Theorem ledger_alternates (df : dataframe) (g j : num) (s : option num)
    (M : Z) (zeta : num) (st0 : sim_state) :
  initial_state = Ok st0 ->
  (forall rows st,
      run_days df g j s M zeta st0 rows = Ok st ->
      replay (trade_log st) None
      = Some (if both_open st then Some (current_direction st) else None)
      /\ Forall row_ok (trade_log st)) /\
  (forall log,
      simulate df g j s M zeta = Ok log ->
      replay log None = Some None /\
      Forall row_ok log /\
      Nat.even (List.length log) = true).
Proof.
  intro H0.
  pose proof (initial_ledger_inv _ H0) as Hinv0.
  split.
  - intros rows st Hrun.
    destruct (run_days_ledger _ _ _ _ _ _ _ _ _ Hrun) as [Hstep _].
    exact (Hstep Hinv0).
  - intros log Hsim.
    unfold simulate, simulate_state in Hsim. rewrite H0 in Hsim.
    cbn [bind] in Hsim.
    destruct (run_days df g j s M zeta st0 df) as [st|] eqn:Hrun;
      cbn [bind] in Hsim; [|discriminate Hsim].
    destruct (end_of_series zeta st) as [st'|] eqn:Hend;
      cbn [bind] in Hsim; [|discriminate Hsim].
    injection Hsim as <-.
    destruct (run_days_ledger _ _ _ _ _ _ _ _ _ Hrun) as [Hstep _].
    destruct (end_of_series_ledger _ _ _ Hend) as [[Hstep' _] Hflat].
    destruct (Hstep' (Hstep Hinv0)) as [Hrep Hrows].
    rewrite Hflat in Hrep.
    split; [exact Hrep|]. split; [exact Hrows|].
    rewrite (replay_parity _ _ _ Hrep). reflexivity.
Qed.

Lemma ledger_alternates_witness :
  exists log,
    simulate ex_df_stop ex_g ex_j ex_s 1 (Fin 0) = Ok log /\
    replay log None = Some None /\
    Forall row_ok log /\
    Nat.even (List.length log) = true.
Proof.
  eexists. split; [vm_compute; reflexivity|].
  apply (proj2 (ledger_alternates ex_df_stop ex_g ex_j ex_s 1 (Fin 0)
                  ex_state0 eq_refl)).
  vm_compute. reflexivity.
Defined.

(** ** The decisions of a day *)

Lemma warm_up_skip (df : dataframe) (g j : num) (s : option num)
    (M : Z) (zeta : num) (st : sim_state) (row : Series.row) :
  date_ltb (Series.date row) trade_period_start = true ->
  day_step df g j s M zeta st row = Ok (with_date st (Series.date row)).
Proof.
  intro H. unfold day_step. cbv zeta. rewrite H. reflexivity.
Qed.

Lemma warm_up_skip_days (df : dataframe) (g j : num) (s : option num)
    (M : Z) (zeta : num) (rows : dataframe) :
  Forall (fun r => date_ltb (Series.date r) trade_period_start = true) rows ->
  forall st,
    exists st',
      run_days df g j s M zeta st rows = Ok st' /\
      trade_log st' = trade_log st /\
      stop_loss_date st' = stop_loss_date st /\
      long_pos st' = long_pos st /\
      short_pos st' = short_pos st.
Proof.
  induction 1 as [|row rest Hrow _ IH]; intro st; cbn [run_days].
  - exists st. auto.
  - rewrite (warm_up_skip df g j s M zeta st row Hrow). cbn [bind].
    destruct (IH (with_date st (Series.date row)))
      as (st' & Hrun & Hlog & Hs & Hl & Hsh).
    exists st'. auto.
Qed.

(** X16.  Warm-up.  Days dated before 2022-01-01 never trade: they change
    neither the ledger, nor the positions, nor the cool-down, whatever their
    prices, and a frame made of such days only gives the empty ledger. *)
Theorem warm_up_never_trades (df : dataframe) (g j : num) (s : option num)
    (M : Z) (zeta : num) (rows : dataframe) :
  Forall (fun r => date_ltb (Series.date r) trade_period_start = true) rows ->
  (forall st,
      exists st',
        run_days df g j s M zeta st rows = Ok st' /\
        trade_log st' = trade_log st /\
        stop_loss_date st' = stop_loss_date st /\
        long_pos st' = long_pos st /\
        short_pos st' = short_pos st) /\
  (df = rows -> simulate df g j s M zeta = Ok []).
Proof.
  intro Hrows.
  split; [apply warm_up_skip_days; exact Hrows|].
  intros ->.
  destruct (warm_up_skip_days rows g j s M zeta rows Hrows
              (mkstate [] None fresh_long fresh_short None None None))
    as (st' & Hrun & Hlog & _ & Hl & Hs).
  unfold simulate, simulate_state, initial_state.
  cbn [Position.init String.eqb Ascii.eqb Bool.eqb orb negb bind].
  change (Position.mk 1 EmptyString None NaN NaN NaN) with fresh_long.
  change (Position.mk (-1) EmptyString None NaN NaN NaN) with fresh_short.
  rewrite Hrun. cbn [bind]. unfold end_of_series.
  rewrite Hl, Hs.
  cbn [long_pos short_pos Position.is_open Position.name fresh_long
       fresh_short String.eqb negb orb bind].
  rewrite Hlog. reflexivity.
Qed.

Lemma warm_up_never_trades_witness :
  simulate (firstn 1 ex_df) ex_g ex_j ex_s 0 (Fin 0) = Ok [].
Proof.
  assert (Hrows : Forall (fun r => date_ltb (Series.date r)
                                     trade_period_start = true)
                         (firstn 1 ex_df)).
  { constructor; [reflexivity|constructor]. }
  apply (proj2 (warm_up_never_trades (firstn 1 ex_df) ex_g ex_j ex_s 0
                  (Fin 0) (firstn 1 ex_df) Hrows)).
  reflexivity.
Defined.

Lemma get_pnls_open_ok (short long : Position.t) (k x zeta : num)
    (s : option num) :
  Position.is_open short = true ->
  Position.is_open long = true ->
  exists r, get_pnls short long k x zeta s = Ok r.
Proof.
  intros Hs Hl.
  destruct (get_pnls_open short long k x zeta s Hs Hl)
    as (ps & pl & _ & _ & H).
  cbv zeta in H. eexists. exact H.
Qed.

(** A day of the trading period, outside cool-down or on the day the
    cool-down ends, without a stop loss, is the entry / exit decision on the
    state that holds the date and the prices of the day and no cool-down. *)
Lemma day_step_decision (df : dataframe) (g j : num) (s : option num)
    (M : Z) (zeta : num) (st : sim_state) (row : Series.row) :
  date_ltb (Series.date row) trade_period_start = false ->
  stop_loss_date st = None \/ stop_loss_date st = Some (Series.date row) ->
  (forall r, get_pnls (short_pos st) (long_pos st) (Series.KXI_adj_close row)
               (Series.XLP_adj_close row) zeta s = Ok r ->
             stop_loss_hit r = false) ->
  day_step df g j s M zeta st row
  = signal_step df g j M zeta
      (mkstate (trade_log st) None (long_pos st) (short_pos st)
         (Some (Series.date row)) (Some (Series.KXI_adj_close row))
         (Some (Series.XLP_adj_close row)))
      row (Series.date row) (Series.KXI_adj_close row)
      (Series.XLP_adj_close row) (fl (ndiv (Series.N_t row) (of_Z 100))).
Proof.
  intros Hd Hsld Hns.
  assert (Heval : forall st1,
             trade_log st1 = trade_log st -> stop_loss_date st1 = None ->
             long_pos st1 = long_pos st -> short_pos st1 = short_pos st ->
             date st1 = Some (Series.date row) ->
             evaluate_day df g j s M zeta st1 row (Series.date row)
             = signal_step df g j M zeta
                 (mkstate (trade_log st) None (long_pos st) (short_pos st)
                    (Some (Series.date row)) (Some (Series.KXI_adj_close row))
                    (Some (Series.XLP_adj_close row)))
                 row (Series.date row) (Series.KXI_adj_close row)
                 (Series.XLP_adj_close row)
                 (fl (ndiv (Series.N_t row) (of_Z 100)))).
  { intros st1 E1 E2 E3 E4 E5. unfold evaluate_day. cbv zeta.
    unfold with_prices. rewrite E1, E2, E3, E4, E5.
    unfold both_open at 1.
    cbn [long_pos short_pos].
    destruct (Position.is_open (long_pos st)) eqn:Hl; cbn [andb];
      [|reflexivity].
    destruct (Position.is_open (short_pos st)) eqn:Hs; [|reflexivity].
    destruct (get_pnls_open_ok (short_pos st) (long_pos st)
                (Series.KXI_adj_close row) (Series.XLP_adj_close row) zeta s
                Hs Hl) as [r Hr].
    rewrite Hr. cbn [bind].
    specialize (Hns r Hr). unfold stop_loss_hit in Hns.
    apply negb_false_iff in Hns. rewrite Hns. reflexivity. }
  unfold day_step. cbv zeta. rewrite Hd.
  change (stop_loss_date (with_date st (Series.date row)))
    with (stop_loss_date st).
  destruct Hsld as [Hsld | Hsld]; rewrite Hsld.
  - apply Heval; try reflexivity. exact Hsld.
  - rewrite date_eqb_refl. apply Heval; reflexivity.
Qed.

(** X17.  Entry.  On a day that reaches the decision with no pair open and
    |z| > g, the engine opens a pair: short-spread when z > g, long-spread
    otherwise, each leg with an entry cash of N_t / 100.  When both legs can
    be opened at the prices of the day, exactly one OPEN row is appended, with
    a gross cash of twice that entry cash, the prices of the day and the units
    of the two legs; no cool-down is left. *)
Theorem entry_on_flat (df : dataframe) (g j : num) (s : option num)
    (M : Z) (zeta : num) (st : sim_state) (row : Series.row)
    (rets : num * num) (lp' sp' : Position.t) :
  let d := Series.date row in
  let k := Series.KXI_adj_close row in
  let x := Series.XLP_adj_close row in
  let cash := fl (ndiv (Series.N_t row) (of_Z 100)) in
  let z := nsub (fst rets) (snd rets) in
  let desired := desired_direction g z in
  date_ltb d trade_period_start = false ->
  stop_loss_date st = None \/ stop_loss_date st = Some d ->
  both_closed st = true ->
  get_mday_returns df row M = Ok rets ->
  ngtb (nabs z) g = true ->
  Position.open (long_pos st) (long_leg_name desired) d cash
    (instrument_price (long_leg_name desired) k x) = Ok lp' ->
  Position.open (short_pos st) (short_leg_name desired) d cash
    (instrument_price (short_leg_name desired) k x) = Ok sp' ->
  exists st',
    day_step df g j s M zeta st row = Ok st' /\
    trade_log st'
    = (trade_log st
       ++ [TradeLog.mk d "OPEN" desired (nmul cash (of_Z 2)) NaN
             k (Position.amount (if desired =? "long" then lp' else sp'))
             x (Position.amount (if desired =? "long" then sp' else lp'))
             None])%list /\
    long_pos st' = lp' /\
    short_pos st' = sp' /\
    both_open st' = true /\
    current_direction st' = desired /\
    Position.entry_cash lp' = cash /\
    Position.entry_cash sp' = cash /\
    stop_loss_date st' = None.
Proof.
  intros d k x cash z desired Hd Hsld Hclosed Hrets Habs Hlo Hso.
  unfold both_closed in Hclosed. apply andb_prop in Hclosed.
  destruct Hclosed as [Hl Hs].
  apply negb_true_iff in Hl. apply negb_true_iff in Hs.
  rewrite (day_step_decision df g j s M zeta st row Hd Hsld).
  2: { intros r Hr.
       rewrite (get_pnls_not_open _ _ _ _ _ _ (or_introl Hs)) in Hr.
       discriminate Hr. }
  fold d k x cash.
  assert (Hty : desired = "long" \/ desired = "short").
  { unfold desired, desired_direction. destruct (ngtb z g); auto. }
  pose proof (open_positions_legs (trade_log st) _ _ _ _ k x cash d desired
                Hty Hlo Hso) as Hop.
  unfold signal_step. rewrite Hrets. cbn [bind]. cbv zeta. fold z.
  rewrite Habs. unfold both_closed at 1 2. cbn [long_pos short_pos].
  rewrite Hl, Hs. cbn [negb andb].
  assert (Hdo : (if ngtb z g
                 then do_open
                        (mkstate (trade_log st) None (long_pos st)
                           (short_pos st) (Some d) (Some k) (Some x))
                        d k x cash "short"
                 else if nltb z (nopp g)
                      then do_open
                             (mkstate (trade_log st) None (long_pos st)
                                (short_pos st) (Some d) (Some k) (Some x))
                             d k x cash "long"
                      else Ok (mkstate (trade_log st) None (long_pos st)
                                 (short_pos st) (Some d) (Some k) (Some x)))
                = do_open
                    (mkstate (trade_log st) None (long_pos st)
                       (short_pos st) (Some d) (Some k) (Some x))
                    d k x cash desired).
  { unfold desired, desired_direction.
    destruct (ngtb z g) eqn:Egt; [reflexivity|].
    rewrite (abs_gt_not_gt z g Habs Egt). reflexivity. }
  rewrite Hdo. unfold do_open. cbn [trade_log long_pos short_pos].
  rewrite Hop. cbn [bind].
  eexists. split; [reflexivity|].
  cbn [with_pair trade_log long_pos short_pos stop_loss_date].
  split; [reflexivity|]. split; [reflexivity|]. split; [reflexivity|].
  destruct (open_inv _ _ _ _ _ _ Hlo) as (_ & _ & ql & ul & _ & _ & Hlp).
  destruct (open_inv _ _ _ _ _ _ Hso) as (_ & _ & qs & us & _ & _ & Hsp).
  rewrite Hlp, Hsp. unfold both_open, current_direction.
  cbn [long_pos short_pos Position.name Position.is_open Position.entry_cash].
  destruct Hty as [E | E]; rewrite E;
    cbn [long_leg_name short_leg_name String.eqb Ascii.eqb Bool.eqb negb andb];
    repeat split; reflexivity.
Qed.

(* the first trading day of [ex_df_rally]: kxi is up 10 % on the day before,
   so the spread is shorted: 9 units of kxi short, 10 units of xlp long *)
Lemma entry_on_flat_witness :
  let row := Series.mk (mkdate 2022 1 3) (Fin 11) (Fin 10) (Fin 10000) in
  exists lp' sp' st',
    Position.amount lp' = of_Z 10 /\
    Position.amount sp' = of_Z 9 /\
    day_step ex_df_rally ex_g ex_j ex_s 1 (Fin 0) ex_state0 row = Ok st' /\
    trade_log st'
    = (trade_log ex_state0
       ++ [TradeLog.mk (mkdate 2022 1 3) "OPEN" "short"
             (nmul (fl (ndiv (Fin 10000) (of_Z 100))) (of_Z 2)) NaN
             (Fin 11) (Position.amount sp')
             (Fin 10) (Position.amount lp') None])%list /\
    long_pos st' = lp' /\
    short_pos st' = sp' /\
    both_open st' = true /\
    current_direction st' = "short" /\
    Position.entry_cash lp' = fl (ndiv (Fin 10000) (of_Z 100)) /\
    Position.entry_cash sp' = fl (ndiv (Fin 10000) (of_Z 100)) /\
    stop_loss_date st' = None.
Proof.
  intro row.
  exists (Position.mk 1 "xlp" (Some (mkdate 2022 1 3))
            (fl (ndiv (Fin 10000) (of_Z 100))) (Fin 10) (of_Z 10)).
  exists (Position.mk (-1) "kxi" (Some (mkdate 2022 1 3))
            (fl (ndiv (Fin 10000) (of_Z 100))) (Fin 11) (of_Z 9)).
  destruct (entry_on_flat ex_df_rally ex_g ex_j ex_s 1 (Fin 0) ex_state0 row
              (Fin (1 # 10), Fin (0 # 10))
              (Position.mk 1 "xlp" (Some (mkdate 2022 1 3))
                 (fl (ndiv (Fin 10000) (of_Z 100))) (Fin 10) (of_Z 10))
              (Position.mk (-1) "kxi" (Some (mkdate 2022 1 3))
                 (fl (ndiv (Fin 10000) (of_Z 100))) (Fin 11) (of_Z 9))
              eq_refl (or_introl eq_refl) eq_refl)
    as (st' & Hrest).
  - vm_compute. reflexivity.
  - vm_compute. reflexivity.
  - vm_compute. reflexivity.
  - vm_compute. reflexivity.
  - exists st'. split; [reflexivity|]. split; [reflexivity|]. exact Hrest.
Defined.

(** X18.  Exit and wait.  On a day that reaches the decision with |z| not
    above g: if |z| < j and a pair is open, the pair is closed with exactly
    one CLOSE row of reason 'Standard', whatever its direction; otherwise (|z|
    not below j, or no pair open) nothing is appended and the positions are
    unchanged. *)
Theorem exit_or_wait (df : dataframe) (g j : num) (s : option num)
    (M : Z) (zeta : num) (st : sim_state) (row : Series.row)
    (rets : num * num) :
  let d := Series.date row in
  let z := nsub (fst rets) (snd rets) in
  date_ltb d trade_period_start = false ->
  stop_loss_date st = None \/ stop_loss_date st = Some d ->
  (forall r, get_pnls (short_pos st) (long_pos st) (Series.KXI_adj_close row)
               (Series.XLP_adj_close row) zeta s = Ok r ->
             stop_loss_hit r = false) ->
  get_mday_returns df row M = Ok rets ->
  ngtb (nabs z) g = false ->
  (nltb (nabs z) j = true -> both_open st = true ->
   exists st' c,
     day_step df g j s M zeta st row = Ok st' /\
     trade_log st' = (trade_log st ++ [c])%list /\
     TradeLog.date c = d /\
     TradeLog.position_status c = "CLOSE" /\
     TradeLog.position_type c = current_direction st /\
     TradeLog.Reason c = Some "Standard" /\
     both_closed st' = true) /\
  (nltb (nabs z) j = false \/ both_open st = false ->
   exists st',
     day_step df g j s M zeta st row = Ok st' /\
     trade_log st' = trade_log st /\
     long_pos st' = long_pos st /\
     short_pos st' = short_pos st).
Proof.
  intros d z Hd Hsld Hns Hrets Habs.
  rewrite (day_step_decision df g j s M zeta st row Hd Hsld Hns).
  fold d.
  set (st1 := mkstate (trade_log st) None (long_pos st) (short_pos st)
                (Some d) (Some (Series.KXI_adj_close row))
                (Some (Series.XLP_adj_close row))).
  unfold signal_step. rewrite Hrets. cbn [bind]. cbv zeta. fold z.
  rewrite Habs.
  change (both_open st1) with (both_open st).
  split.
  - intros Hj Hopen. rewrite Hj, Hopen. cbn [andb].
    destruct (do_close_succeeds zeta st1 d (Series.KXI_adj_close row)
                (Series.XLP_adj_close row) default_reason Hopen)
      as [st' Hclose].
    destruct (do_close_ok _ _ _ _ _ _ _ Hclose)
      as (Hc & _ & _ & _ & _ & _ & _ & _ & c & Hlog & Hcd & Hcs & Hct & Hcr).
    exists st', c. split; [exact Hclose|]. auto 10.
  - intros Hor. exists st1.
    split; [|split; [|split]]; try reflexivity.
    destruct Hor as [-> | ->]; [reflexivity|].
    rewrite andb_false_r. reflexivity.
Qed.

(* kxi is where it was the day before: z = 0 is below j, the short leg has
   gained, and the open pair is closed *)
Lemma exit_or_wait_witness :
  exists st' c,
    day_step ex_df ex_g ex_j ex_s 1 (Fin 0) ex_open_state
      (Series.mk (mkdate 2022 1 6) (Fin 9) (Fin 10) (Fin 10000)) = Ok st' /\
    trade_log st' = (trade_log ex_open_state ++ [c])%list /\
    TradeLog.date c = mkdate 2022 1 6 /\
    TradeLog.position_status c = "CLOSE" /\
    TradeLog.position_type c = current_direction ex_open_state /\
    TradeLog.Reason c = Some "Standard" /\
    both_closed st' = true.
Proof.
  apply (proj1 (exit_or_wait ex_df ex_g ex_j ex_s 1 (Fin 0) ex_open_state
                  (Series.mk (mkdate 2022 1 6) (Fin 9) (Fin 10) (Fin 10000))
                  (Fin (0 # 9), Fin (0 # 10))
                  eq_refl (or_introl eq_refl)
                  (fun r Hr =>
                     match Hr in (_ = m)
                           return match m with
                                  | Ok r' => stop_loss_hit r' = false
                                  | Raise _ => True
                                  end
                     with eq_refl => eq_refl end)
                  eq_refl eq_refl)).
  - reflexivity.
  - reflexivity.
Defined.

(** X19.  A cool-down whose end date is not a date of the frame never ends:
    when, after some days, a cool-down is set and no later row carries its end
    date, [simulate] returns the ledger as it stood at that point -- no entry,
    however strong the signal, and no closing row. *)
Theorem cool_down_without_end_date (df pre post : dataframe) (g j : num)
    (s : option num) (M : Z) (zeta : num) (st0 st1 : sim_state)
    (e : isodate) :
  df = (pre ++ post)%list ->
  initial_state = Ok st0 ->
  run_days df g j s M zeta st0 pre = Ok st1 ->
  stop_loss_date st1 = Some e ->
  Forall (fun r => Series.date r <> e) post ->
  both_closed st1 = true /\
  simulate df g j s M zeta = Ok (trade_log st1).
Proof.
  intros Hdf H0 Hpre Hsld Hpost.
  destruct (initial_state_inv _ H0) as [Hinv0 _].
  destruct (run_days_preserves _ _ _ _ _ _ _ _ _ Hpre Hinv0) as [_ Hopen].
  assert (Hclosed : both_closed st1 = true).
  { destruct (both_closed st1) eqn:E; [reflexivity|].
    destruct (Hopen eq_refl) as (Hnone & _). congruence. }
  split; [exact Hclosed|].
  destruct (cool_down_skip_days df g j s M zeta e post Hpost st1 Hsld)
    as (st2 & Hrun & Hlog & _ & Hl & Hs).
  unfold simulate, simulate_state. rewrite H0. cbn [bind].
  rewrite Hdf at 2. rewrite run_days_app, Hpre. cbn [bind].
  rewrite Hrun. cbn [bind].
  unfold both_closed in Hclosed. apply andb_prop in Hclosed.
  destruct Hclosed as [Hcl Hcs].
  apply negb_true_iff in Hcl. apply negb_true_iff in Hcs.
  unfold end_of_series. rewrite Hl, Hs, Hcl, Hcs. cbn [orb bind].
  rewrite Hlog. reflexivity.
Qed.

(* the stop loss of 2022-01-06 sets the end date 2022-02-06; without the last
   row of [ex_df_stop] that date never comes *)
Lemma cool_down_without_end_date_witness :
  exists st1,
    run_days (firstn 6 ex_df_stop) ex_g ex_j ex_s 1 (Fin 0) ex_state0
      (firstn 5 ex_df_stop) = Ok st1 /\
    both_closed st1 = true /\
    simulate (firstn 6 ex_df_stop) ex_g ex_j ex_s 1 (Fin 0)
    = Ok (trade_log st1).
Proof.
  eexists. split; [vm_compute; reflexivity|].
  apply (cool_down_without_end_date (firstn 6 ex_df_stop)
           (firstn 5 ex_df_stop)
           [Series.mk (mkdate 2022 1 7) (Fin 20) (Fin 10) (Fin 10000)]
           ex_g ex_j ex_s 1 (Fin 0) ex_state0 _ (mkdate 2022 2 6)).
  - reflexivity.
  - reflexivity.
  - vm_compute. reflexivity.
  - reflexivity.
  - constructor; [|constructor]. intro H. discriminate H.
Defined.

(** X20.  The row of a stop loss carries the loss.  On a day whose stop-loss
    check triggers, the threshold is set and not zero, the combined P&L is
    negative, and the CLOSE row appended with reason 'STOP LOSS' records that
    P&L (not the zero the check returned), the direction of the pair and the
    gross cash of twice the short leg's entry cash. *)
Theorem stop_loss_row_records_loss (df : dataframe) (g j : num)
    (s : option num) (M : Z) (zeta : num) (st : sim_state)
    (row : Series.row) (pnl_res : bool * num) :
  let d := Series.date row in
  let k := Series.KXI_adj_close row in
  let x := Series.XLP_adj_close row in
  date_ltb d trade_period_start = false ->
  stop_loss_date st = None ->
  both_open st = true ->
  get_pnls (short_pos st) (long_pos st) k x zeta s = Ok pnl_res ->
  stop_loss_hit pnl_res = true ->
  valid_date d = true ->
  year d < 9999 ->
  exists st1 r total sv,
    day_step df g j s M zeta st row = Ok st1 /\
    trade_log st1 = (trade_log st ++ [r])%list /\
    s = Some sv /\ num_truthy sv = true /\
    snd pnl_res = of_Z 0 /\
    get_pnls (short_pos st) (long_pos st) k x zeta None = Ok (true, total) /\
    nltb total (of_Z 0) = true /\
    TradeLog.pnl r = total /\
    TradeLog.Reason r = Some "STOP LOSS" /\
    TradeLog.position_type r = current_direction st /\
    TradeLog.gross_cash r
    = nmul (Position.entry_cash (short_pos st)) (of_Z 2) /\
    TradeLog.kxi_price r = k /\ TradeLog.xlp_price r = x.
Proof.
  intros d k x Hd Hsld Hopen Hpnl Hhit Hv Hy.
  pose proof Hopen as Hopen'. unfold both_open in Hopen'.
  apply andb_prop in Hopen'. destruct Hopen' as [Hl Hs].
  destruct (get_pnls_open (short_pos st) (long_pos st) k x zeta s Hs Hl)
    as (ps & pl & Hps & Hpl & Hres).
  destruct (get_pnls_open (short_pos st) (long_pos st) k x zeta None Hs Hl)
    as (ps' & pl' & Hps' & Hpl' & Hnone).
  rewrite Hps in Hps'. injection Hps' as <-.
  rewrite Hpl in Hpl'. injection Hpl' as <-.
  cbv zeta in Hres, Hnone.
  set (total := nmul (nadd ps pl) (nsub (of_Z 1) zeta)) in *.
  unfold stop_loss_condition in Hnone. rewrite andb_false_r in Hnone.
  rewrite Hres in Hpnl. injection Hpnl as Hpnl.
  assert (Hcond : stop_loss_condition total
                    (nmul (Position.entry_cash (short_pos st)) (of_Z 2)) s
                  = true).
  { destruct (stop_loss_condition _ _ s); [reflexivity|].
    rewrite <- Hpnl in Hhit. discriminate Hhit. }
  rewrite Hcond in Hpnl.
  unfold stop_loss_condition in Hcond. apply andb_prop in Hcond.
  destruct Hcond as [Hneg Hs'].
  destruct s as [sv|]; [|discriminate Hs'].
  apply andb_prop in Hs'. destruct Hs' as [Htruthy Hratio].
  destruct (close_positions_open (trade_log st) d (short_pos st)
              (long_pos st) k x zeta "STOP LOSS" Hs Hl)
    as (total' & Htot & Hcp).
  rewrite Hnone in Htot. injection Htot as <-.
  cbv zeta in Hcp.
  pose proof (one_month_later_ok d Hv Hy) as He.
  eexists; eexists; exists total, sv.
  split.
  { unfold day_step. fold d. cbv zeta. rewrite Hd.
    change (stop_loss_date (with_date st d)) with (stop_loss_date st).
    rewrite Hsld. unfold evaluate_day. cbv zeta. fold k x.
    change (both_open (with_prices (with_date st d) k x))
      with (both_open st).
    rewrite Hopen.
    change (short_pos (with_prices (with_date st d) k x))
      with (short_pos st).
    change (long_pos (with_prices (with_date st d) k x))
      with (long_pos st).
    rewrite Hres.
    unfold stop_loss_condition. rewrite Hneg, Htruthy, Hratio.
    cbn [andb].
    cbn [bind fst negb]. rewrite He. cbn [bind].
    unfold do_close.
    cbn [trade_log short_pos long_pos with_stop_loss_date with_prices
         with_date].
    rewrite Hcp. cbn [bind]. reflexivity. }
  cbn [with_pair trade_log].
  split; [reflexivity|]. split; [reflexivity|].
  split; [exact Htruthy|].
  split; [rewrite <- Hpnl; reflexivity|].
  split; [exact Hnone|]. split; [exact Hneg|].
  repeat split; reflexivity.
Qed.

Lemma stop_loss_row_records_loss_witness :
  let d := Series.date ex_loss_row in
  let k := Series.KXI_adj_close ex_loss_row in
  let x := Series.XLP_adj_close ex_loss_row in
  exists st1 r total sv,
    day_step ex_df ex_g ex_j ex_s 1 (Fin 0) ex_open_state ex_loss_row
      = Ok st1 /\
    trade_log st1 = (trade_log ex_open_state ++ [r])%list /\
    ex_s = Some sv /\ num_truthy sv = true /\
    snd (false, of_Z 0) = of_Z 0 /\
    get_pnls (short_pos ex_open_state) (long_pos ex_open_state) k x (Fin 0)
      None = Ok (true, total) /\
    nltb total (of_Z 0) = true /\
    TradeLog.pnl r = total /\
    TradeLog.Reason r = Some "STOP LOSS" /\
    TradeLog.position_type r = current_direction ex_open_state /\
    TradeLog.gross_cash r
    = nmul (Position.entry_cash (short_pos ex_open_state)) (of_Z 2) /\
    TradeLog.kxi_price r = k /\ TradeLog.xlp_price r = x.
Proof.
  apply (stop_loss_row_records_loss ex_df ex_g ex_j ex_s 1 (Fin 0)
           ex_open_state ex_loss_row (false, of_Z 0)).
  - reflexivity.
  - reflexivity.
  - reflexivity.
  - vm_compute. reflexivity.
  - reflexivity.
  - reflexivity.
  - cbn. lia.
Defined.

Lemma lookback_before_frame (df : dataframe) (row : Series.row) (i : nat)
    (m : Z) :
  dates_increasing df = true ->
  nth_error df i = Some row ->
  Z.of_nat i < m ->
  get_mday_returns df row m = Raise KeyError.
Proof.
  intros Hs Hrow Hlt. unfold get_mday_returns.
  rewrite (sort_increasing_id df Hs).
  rewrite (first_index_increasing df i row Hs Hrow). cbn [bind].
  unfold loc.
  replace (Z.of_nat i - m <? 0)%Z with true
    by (symmetry; apply Z.ltb_lt; lia).
  reflexivity.
Qed.

(** X21.  The warm-up must cover the lookback.  On a frame in increasing date
    order whose first day of the trading period has fewer than M rows before
    it, [simulate] raises KeyError on that day: the lookback row does not
    exist and the code does not guard against it. *)
Theorem short_warm_up_raises (df pre post : dataframe) (row : Series.row)
    (g j : num) (s : option num) (M : Z) (zeta : num) :
  df = (pre ++ row :: post)%list ->
  dates_increasing df = true ->
  Forall (fun r => date_ltb (Series.date r) trade_period_start = true) pre ->
  date_ltb (Series.date row) trade_period_start = false ->
  Z.of_nat (List.length pre) < M ->
  simulate df g j s M zeta = Raise KeyError.
Proof.
  intros Hdf Hs Hpre Hrow Hlen.
  assert (Hnth : nth_error df (List.length pre) = Some row).
  { rewrite Hdf, nth_error_app2 by apply Nat.le_refl.
    rewrite Nat.sub_diag. reflexivity. }
  pose proof (lookback_before_frame df row _ M Hs Hnth Hlen) as Hkey.
  destruct (warm_up_skip_days df g j s M zeta pre Hpre
              (mkstate [] None fresh_long fresh_short None None None))
    as (st1 & Hrun & _ & Hsld & Hl & Hsh).
  unfold simulate, simulate_state, initial_state.
  cbn [Position.init String.eqb Ascii.eqb Bool.eqb orb negb bind].
  change (Position.mk 1 EmptyString None NaN NaN NaN) with fresh_long.
  change (Position.mk (-1) EmptyString None NaN NaN NaN) with fresh_short.
  rewrite Hdf at 2. rewrite run_days_app, Hrun. cbn [bind run_days].
  assert (Hday : day_step df g j s M zeta st1 row = Raise KeyError).
  { unfold day_step. cbv zeta. rewrite Hrow.
    change (stop_loss_date (with_date st1 (Series.date row)))
      with (stop_loss_date st1).
    rewrite Hsld. cbn [stop_loss_date].
    unfold evaluate_day. cbv zeta.
    unfold both_open. cbn [long_pos short_pos with_prices with_date].
    rewrite Hl. cbn [long_pos Position.is_open Position.name fresh_long
                     String.eqb negb andb].
    unfold signal_step. rewrite Hkey. reflexivity. }
  rewrite Hday. reflexivity.
Qed.

(* [ex_df] has one row before the trading period: a lookback of two rows
   fails on the first trading day *)
Lemma short_warm_up_raises_witness :
  simulate ex_df ex_g ex_j ex_s 2 (Fin 0) = Raise KeyError.
Proof.
  assert (Hpre : Forall (fun r => date_ltb (Series.date r)
                                    trade_period_start = true)
                        (firstn 1 ex_df)).
  { constructor; [reflexivity|constructor]. }
  apply (short_warm_up_raises ex_df (firstn 1 ex_df) (skipn 2 ex_df)
           (Series.mk (mkdate 2022 1 3) (Fin 10) (Fin 10) (Fin 10000))
           ex_g ex_j ex_s 2 (Fin 0) eq_refl eq_refl Hpre eq_refl).
  cbn. lia.
Defined.
